(** * Resume analyzer: skill detection and scoring (server/index.js)

    A shallow embedding of the scoring engine of [src/server/index.js]:
    [extractTextWithLineNumbers], [findSkillOccurrences], [analyzeSkills],
    [analyzeSkillsWithAI] and the [/api/skills-check] handler.

    Conventions of the embedding.
    - A JavaScript string is the list of its UTF-16 code units, each a
      number.  [toLowerCase] lowers the letters of Basic Latin and Latin-1
      and turns U+0130 into the two code units U+0069 U+0307, so a lowered
      string can be longer than the string; [trim] strips the white space
      and the line terminators of ECMAScript.
    - A JavaScript number is a binary64 float ([PrimFloat.float]); lengths,
      indices and line numbers, which the code only ever uses as exact small
      integers, are [nat] or [Z] ([indexOf] answers -1).
    - A [while] loop takes a [fuel] argument, the number of iterations the
      loop may make; [None] means the loop did not finish within it.
    - Calls that leave the repository (pdf-parse, the Gemini client,
      [JSON.parse]) are arguments of the functions that make them. *)

From Stdlib Require Import List Ascii String ZArith Lia Bool Arith PeanoNat.
From Stdlib Require Import Permutation DecimalString Sorting.Sorted.
From Stdlib Require Import Floats.PrimFloat Floats.FloatOps Floats.SpecFloat.
From Stdlib Require Import Numbers.Cyclic.Int63.Uint63.
Import ListNotations.

Set Implicit Arguments.
Set Warnings "-register-all".

(* ------------------------------------------------------------------ *)
(** * JavaScript strings *)

Module JSString.

(** A UTF-16 code unit, as a number; the code units of a string are below
    65536. *)
Abbreviation codeUnit := N.

Definition t : Set := list codeUnit.

(** The code unit of a character written in this file. *)
Definition code (c : ascii) : codeUnit := N_of_ascii c.

(** String literals of the source. *)
Definition lit (s : string) : t := map code (list_ascii_of_string s).

Definition length (s : t) : Z := Z.of_nat (List.length s).

(** [String.prototype.toLowerCase].  A-Z and the Latin-1 capitals
    U+00C0..U+00DE (U+00D7, the multiplication sign, excepted) move up by
    32.  U+0130, the capital I with a dot above, becomes the two code
    units U+0069 U+0307: it is the one character whose lower case has
    another length than the character.  Cased letters beyond Latin-1 are
    not modelled: they are left as they are. *)
Definition isUpper (c : codeUnit) : bool :=
  (((65 <=? c) && (c <=? 90))
   || ((192 <=? c) && (c <=? 222) && negb (c =? 215)))%N.

Definition lowerChar (c : codeUnit) : codeUnit :=
  if isUpper c then (c + 32)%N else c.

(** U+0130, U+0069 and U+0307. *)
Definition capitalDottedI : codeUnit := 304%N.
Definition smallI : codeUnit := 105%N.
Definition combiningDot : codeUnit := 775%N.

Definition lowerCase (c : codeUnit) : t :=
  if (c =? capitalDottedI)%N then [smallI; combiningDot] else [lowerChar c].

Definition toLowerCase (s : t) : t := flat_map lowerCase s.

(** White space and line terminators of ECMAScript: U+0009..U+000D,
    U+0020, U+00A0, U+1680, U+2000..U+200A, U+2028, U+2029, U+202F,
    U+205F, U+3000 and U+FEFF. *)
Definition isWhiteSpace (c : codeUnit) : bool :=
  (((9 <=? c) && (c <=? 13)) || (c =? 32) || (c =? 160) || (c =? 5760)
   || ((8192 <=? c) && (c <=? 8202)) || (c =? 8232) || (c =? 8233)
   || (c =? 8239) || (c =? 8287) || (c =? 12288) || (c =? 65279))%N.

Fixpoint trimStart (s : t) : t :=
  match s with
  | [] => []
  | c :: s' => if isWhiteSpace c then trimStart s' else s
  end.

Definition trimEnd (s : t) : t := rev (trimStart (rev s)).

Definition trim (s : t) : t := trimEnd (trimStart s).

(** [s.split(sep)] for a one-character separator: empty pieces are kept,
    and the empty string splits into one empty piece. *)
Fixpoint split (sep : codeUnit) (s : t) : list t :=
  match s with
  | [] => [[]]
  | c :: s' =>
      if (c =? sep)%N then [] :: split sep s'
      else match split sep s' with
           | piece :: pieces => (c :: piece) :: pieces
           | [] => [[c]]
           end
  end.

Fixpoint startsWith (needle s : t) : bool :=
  match needle, s with
  | [], _ => true
  | _ :: _, [] => false
  | a :: needle', b :: s' => (a =? b)%N && startsWith needle' s'
  end.

(** First position, counted from [i], at which [needle] starts in [s]. *)
Fixpoint search (needle s : t) (i : nat) : option nat :=
  if startsWith needle s then Some i
  else match s with
       | [] => None
       | _ :: s' => search needle s' (S i)
       end.

Definition clamp (s : t) (position : Z) : nat :=
  Z.to_nat (Z.min (Z.max position 0) (length s)).

(** [s.indexOf(needle, position)]: the position is clamped to
    [0..s.length]; the answer is -1 when there is no match. *)
Definition indexOf (s needle : t) (position : Z) : Z :=
  let start := clamp s position in
  match search needle (skipn start s) start with
  | Some p => Z.of_nat p
  | None => (-1)%Z
  end.

(** [s.substring(indexStart, indexEnd)]: both ends are clamped to
    [0..s.length] and swapped when out of order. *)
Definition substring (s : t) (indexStart indexEnd : Z) : t :=
  let a := clamp s indexStart in
  let b := clamp s indexEnd in
  let from := Nat.min a b in
  let to := Nat.max a b in
  firstn (to - from) (skipn from s).

(** Removal of every (non-overlapping, leftmost) occurrence of [pat]:
    [s.replace(/pat/g, '')] for a pattern without metacharacters.
    [skip] counts the characters of a match still to be dropped. *)
Fixpoint removeAll (pat s : t) (skip : nat) : t :=
  match s with
  | [] => []
  | c :: s' =>
      match skip with
      | S k => removeAll pat s' k
      | O => if startsWith pat s then removeAll pat s' (List.length pat - 1)
             else c :: removeAll pat s' 0
      end
  end.

(** Decimal rendering of a non-negative integer, as template literals
    print it. *)
Definition ofNat (n : nat) : t := lit (NilEmpty.string_of_uint (Nat.to_uint n)).

End JSString.

Definition jsstring : Set := JSString.t.
Definition js (s : string) : jsstring := JSString.lit s.
Arguments js s%_string.

(* ------------------------------------------------------------------ *)
(** * JavaScript numbers and values *)

Module JSNumber.

(** The number a length or an index denotes. *)
Definition ofNat (n : nat) : float := of_uint63 (Uint63.of_Z (Z.of_nat n)).

Definition ofZ (z : Z) : float :=
  if (z <? 0)%Z then (- of_uint63 (Uint63.of_Z (- z)))%float
  else of_uint63 (Uint63.of_Z z).

(** [Math.round]: the integer nearest to [x], a tie going to the larger
    one; NaN, the infinities, the zeros and every [x] that is already an
    integer are returned as they are.  For a finite [x = +-m * 2^e] with
    [e < 0] the answer is [floor (x + 1/2)], computed exactly. *)
Definition round (x : float) : float :=
  match Prim2SF x with
  | S754_finite s m e =>
      if (0 <=? e)%Z then x
      else
        let d := (2 ^ (- e))%Z in
        let v := if s then Z.neg m else Z.pos m in
        let r := ((2 * v + d) / (2 * d))%Z in
        if (r =? 0)%Z then (if s then (- 0)%float else 0%float) else ofZ r
  | _ => x
  end.

End JSNumber.

Inductive JSValue : Type :=
| JUndefined
| JNull
| JBool (b : bool)
| JNum (x : float)
| JStr (s : jsstring)
| JArr (items : list JSValue)
| JObj (props : list (jsstring * JSValue)).

Module JS.

Fixpoint stringEqb (a b : jsstring) : bool :=
  match a, b with
  | [], [] => true
  | x :: a', y :: b' => (x =? y)%N && stringEqb a' b'
  | _, _ => false
  end.

Fixpoint lookup (key : jsstring) (props : list (jsstring * JSValue)) : JSValue :=
  match props with
  | [] => JUndefined
  | (k, v) :: rest => if stringEqb k key then v else lookup key rest
  end.

(** [v.key] for one of the keys the server reads ([overall_score],
    [eligible], [summary]): a TypeError ([None]) on [undefined] and
    [null], the own property of an object, [undefined] everywhere else. *)
Definition get (v : JSValue) (key : jsstring) : option JSValue :=
  match v with
  | JUndefined | JNull => None
  | JObj props => Some (lookup key props)
  | _ => Some JUndefined
  end.

(** ToBoolean. *)
Definition truthy (v : JSValue) : bool :=
  match v with
  | JUndefined | JNull => false
  | JBool b => b
  | JNum x => negb (PrimFloat.eqb x 0 || negb (PrimFloat.eqb x x))
  | JStr s => match s with [] => false | _ => true end
  | JArr _ | JObj _ => true
  end.

End JS.

(* ------------------------------------------------------------------ *)
(** * Data model *)

Record LineRecord := {
  lineNumber : nat;
  content : jsstring;
  estimatedPage : nat
}.

Record TextData := {
  fullText : jsstring;
  lines : list LineRecord;
  totalLines : nat;
  estimatedPages : nat
}.

Record Occurrence := {
  occ_lineNumber : nat;
  occ_estimatedPage : nat;
  context : jsstring
}.

Record SkillMatch := {
  skill : jsstring;
  occurrences : list Occurrence;
  totalOccurrences : nat
}.

(** [matchPercentage], [eligible] and [summary] hold whatever the judge's
    reply holds once the enhanced path has overwritten them, so they are
    JavaScript values. *)
Record ResumeResult := {
  fileName : jsstring;
  eligible : JSValue;
  matchPercentage : JSValue;
  matched : list SkillMatch;
  missing : list jsstring;
  summary : JSValue;
  rr_totalLines : nat;
  rr_estimatedPages : nat
}.

(** The option monad carries "the loop finished within its fuel". *)
Definition bind {A B : Type} (m : option A) (k : A -> option B) : option B :=
  match m with
  | Some a => k a
  | None => None
  end.

Notation "x <- m ;; k" := (bind m (fun x => k))
  (at level 61, m at next level, right associativity).

(* ------------------------------------------------------------------ *)
(** * extractTextWithLineNumbers *)

Definition linesPerPage : nat := 50.

(** [Math.ceil(n / linesPerPage)] for a line count [n]: the quotient of two
    small integers is correctly rounded, so it is an integer exactly when
    the division is exact and [Math.ceil] lands on the ceiling quotient. *)
Definition ceilDiv (n d : nat) : nat := (n + (d - 1)) / d.

Fixpoint linesWithPages (index : nat) (ls : list jsstring) : list LineRecord :=
  match ls with
  | [] => []
  | line :: rest =>
      {| lineNumber := index + 1;
         content := JSString.trim line;
         estimatedPage := ceilDiv (index + 1) linesPerPage |}
      :: linesWithPages (S index) rest
  end.

(** The body of [extractTextWithLineNumbers] after [pdf(buffer)] has
    answered with [data.text]. *)
Definition structureText (fullText : jsstring) : TextData :=
  let lines := JSString.split (JSString.code "010") fullText in
  {| fullText := fullText;
     lines := linesWithPages 0 lines;
     totalLines := List.length lines;
     estimatedPages := ceilDiv (List.length lines) linesPerPage |}.

(* ------------------------------------------------------------------ *)
(** * findSkillOccurrences *)

Definition contextRadius : Z := 30.

(** The occurrence pushed for a match found at [startIndex]. *)
Definition occurrenceAt (line : LineRecord) (skillLower : jsstring)
    (startIndex : Z) : Occurrence :=
  let contextStart := Z.max 0 (startIndex - contextRadius) in
  let contextEnd :=
    Z.min (JSString.length (content line))
          (startIndex + JSString.length skillLower + contextRadius) in
  {| occ_lineNumber := lineNumber line;
     occ_estimatedPage := estimatedPage line;
     context := JSString.substring (content line) contextStart contextEnd |}.

(** The [while] loop of one line; [occurrences] is the array shared by
    all lines. *)
Fixpoint scanLine (fuel : nat) (line : LineRecord)
    (lineContentLower skillLower : jsstring) (startIndex : Z)
    (occurrences : list Occurrence) : option (list Occurrence) :=
  match fuel with
  | O => None
  | S fuel' =>
      let startIndex := JSString.indexOf lineContentLower skillLower startIndex in
      if (startIndex =? -1)%Z then Some occurrences
      else
        scanLine fuel' line lineContentLower skillLower
          (startIndex + JSString.length skillLower)
          (occurrences ++ [occurrenceAt line skillLower startIndex])
  end.

(** [textData.lines.forEach(line => ...)]. *)
Fixpoint forEachLine (fuel : nat) (skillLower : jsstring)
    (ls : list LineRecord) (occurrences : list Occurrence)
    : option (list Occurrence) :=
  match ls with
  | [] => Some occurrences
  | line :: rest =>
      occurrences' <-
        scanLine fuel line (JSString.toLowerCase (content line)) skillLower 0
          occurrences ;;
      forEachLine fuel skillLower rest occurrences'
  end.

Definition findSkillOccurrences (fuel : nat) (textData : TextData)
    (skill : jsstring) : option (list Occurrence) :=
  let skillLower := JSString.toLowerCase skill in
  forEachLine fuel skillLower (lines textData) [].

(** The positions at which the loop of one line records a match. *)
Fixpoint scanPositions (fuel : nat) (lineContentLower skillLower : jsstring)
    (startIndex : Z) : option (list Z) :=
  match fuel with
  | O => None
  | S fuel' =>
      let startIndex := JSString.indexOf lineContentLower skillLower startIndex in
      if (startIndex =? -1)%Z then Some []
      else
        ps <- scanPositions fuel' lineContentLower skillLower
                (startIndex + JSString.length skillLower) ;;
        Some (startIndex :: ps)
  end.

Definition linePositions (fuel : nat) (skillLower : jsstring)
    (line : LineRecord) : option (list Z) :=
  scanPositions fuel (JSString.toLowerCase (content line)) skillLower 0.

(* ------------------------------------------------------------------ *)
(** * analyzeSkills *)

Definition skillsArrayOf (requiredSkills : jsstring) : list jsstring :=
  map JSString.trim (JSString.split (JSString.code ",") requiredSkills).

(** [skillsArray.forEach(skill => ...)] with the two arrays it fills. *)
Fixpoint forEachSkill (fuel : nat) (textData : TextData)
    (skills : list jsstring) (matched : list SkillMatch)
    (missing : list jsstring) : option (list SkillMatch * list jsstring) :=
  match skills with
  | [] => Some (matched, missing)
  | skill :: rest =>
      occurrences <- findSkillOccurrences fuel textData skill ;;
      if 0 <? List.length occurrences then
        forEachSkill fuel textData rest
          (matched ++ [{| skill := skill;
                          occurrences := occurrences;
                          totalOccurrences := List.length occurrences |}])
          missing
      else
        forEachSkill fuel textData rest matched (missing ++ [skill])
  end.

(** [Math.round((matched.length / skillsArray.length) * 100)]. *)
Definition percentage (matchedLength skillsLength : nat) : float :=
  JSNumber.round
    ((JSNumber.ofNat matchedLength / JSNumber.ofNat skillsLength) * 100)%float.

Definition eligibilityThreshold : float := 60%float.

(** [fileNames[index]], [undefined] ([None]) past the end of the array. *)
Definition nameAt (fileNames : list (option jsstring)) (index : nat)
    : option jsstring :=
  match nth_error fileNames index with
  | Some name => name
  | None => None
  end.

(** [name || fallback]: the absent and the empty name are falsy. *)
Definition orElse (name : option jsstring) (fallback : jsstring) : jsstring :=
  match name with
  | Some (c :: s) => c :: s
  | _ => fallback
  end.

Definition defaultFileName (index : nat) : jsstring :=
  js "Resume " ++ JSString.ofNat (index + 1).

Definition summaryText (matchedLength skillsLength : nat) : jsstring :=
  js "Found " ++ JSString.ofNat matchedLength ++ js "/"
  ++ JSString.ofNat skillsLength ++ js " required skills".

(** The callback of [resumeTexts.map((textData, index) => ...)]. *)
Definition analyzeResume (fuel : nat) (skillsArray : list jsstring)
    (fileNames : list (option jsstring)) (index : nat) (textData : TextData)
    : option ResumeResult :=
  found <- forEachSkill fuel textData skillsArray [] [] ;;
  let matched := fst found in
  let missing := snd found in
  let matchPercentage :=
    percentage (List.length matched) (List.length skillsArray) in
  let isEligible := (eligibilityThreshold <=? matchPercentage)%float in
  Some {| fileName := orElse (nameAt fileNames index) (defaultFileName index);
          eligible := JBool isEligible;
          matchPercentage := JNum matchPercentage;
          matched := matched;
          missing := missing;
          summary :=
            JStr (summaryText (List.length matched) (List.length skillsArray));
          rr_totalLines := totalLines textData;
          rr_estimatedPages := estimatedPages textData |}.

Fixpoint mapResumes (fuel : nat) (skillsArray : list jsstring)
    (fileNames : list (option jsstring)) (index : nat)
    (resumeTexts : list TextData) : option (list ResumeResult) :=
  match resumeTexts with
  | [] => Some []
  | textData :: rest =>
      result <- analyzeResume fuel skillsArray fileNames index textData ;;
      results <- mapResumes fuel skillsArray fileNames (S index) rest ;;
      Some (result :: results)
  end.

Definition analyzeSkills (fuel : nat) (resumeTexts : list TextData)
    (requiredSkills : jsstring) (fileNames : list (option jsstring))
    : option (list ResumeResult) :=
  let skillsArray := skillsArrayOf requiredSkills in
  mapResumes fuel skillsArray fileNames 0 resumeTexts.

(* ------------------------------------------------------------------ *)
(** * analyzeSkillsWithAI *)

(** What a call that may throw comes back with. *)
Inductive attempt (A : Type) : Type :=
| Ok (a : A)
| Throws (message : jsstring).
Arguments Ok {A} a.
Arguments Throws {A} message.

(** The Gemini client.  [generateContent n prompt] is the text of the
    reply to the [n]-th request made through the model (requests are made
    one at a time, one per resume, so [n] is the resume's index), or a
    throw of [generateContent], [result.response] or [response.text()]. *)
Record GenerativeModel := {
  generateContent : nat -> jsstring -> attempt jsstring
}.

Record GoogleGenerativeAI := {
  getGenerativeModel : attempt GenerativeModel
}.

Definition nl : jsstring := [JSString.code "010"].
Definition quote : jsstring := [JSString.code "034"].
Definition quoted (s : jsstring) : jsstring := quote ++ s ++ quote.

Definition promptFor (requiredSkills : jsstring) (textData : TextData)
    : jsstring :=
  js "Analyze this resume for skills: " ++ requiredSkills ++ nl ++ nl
  ++ js "RESUME: " ++ fullText textData ++ nl ++ nl
  ++ js "Rate overall match percentage (0-100) and determine eligibility (60%+ threshold)."
  ++ nl ++ js "Respond in JSON format:" ++ nl
  ++ js "{" ++ nl
  ++ js "  " ++ quoted (js "overall_score") ++ js ": 85," ++ nl
  ++ js "  " ++ quoted (js "eligible") ++ js ": true," ++ nl
  ++ js "  " ++ quoted (js "summary") ++ js ": " ++ quoted (js "brief summary")
  ++ nl ++ js "}".

(** [text.replace(/```json/g, '').replace(/```/g, '').trim()]. *)
Definition stripFences (text : jsstring) : jsstring :=
  JSString.trim
    (JSString.removeAll (js "```")
       (JSString.removeAll (js "```json") text 0) 0).

(** [{...basicResult, matchPercentage: ..., eligible: ..., summary: ...}]. *)
Definition overwrite (basicResult : ResumeResult)
    (overall_score eligible' summary' : JSValue) : ResumeResult :=
  {| fileName := fileName basicResult;
     eligible := eligible';
     matchPercentage := overall_score;
     matched := matched basicResult;
     missing := missing basicResult;
     summary := summary';
     rr_totalLines := rr_totalLines basicResult;
     rr_estimatedPages := rr_estimatedPages basicResult |}.

Section Judge.

(** [JSON.parse]: the value a text denotes, or a SyntaxError. *)
Variable JSON_parse : jsstring -> attempt JSValue.

(** The body of the inner [try]: the result it pushes, or [None] when
    something in it throws.  The pause that follows a successful push
    changes nothing that is computed. *)
Definition tryJudge (model : GenerativeModel) (i : nat) (prompt : jsstring)
    (basicResult : ResumeResult) : option ResumeResult :=
  match generateContent model i prompt with
  | Throws _ => None
  | Ok text =>
      let aiText := stripFences text in
      match JSON_parse aiText with
      | Throws _ => None
      | Ok aiResult =>
          match JS.get aiResult (js "overall_score"),
                JS.get aiResult (js "eligible"),
                JS.get aiResult (js "summary") with
          | Some overall_score, Some eligible', Some summary' =>
              Some (overwrite basicResult overall_score eligible' summary')
          | _, _, _ => None
          end
      end
  end.

(** The inner [try]/[catch]: a throw pushes [basicResult]. *)
Definition judged (model : GenerativeModel) (i : nat) (prompt : jsstring)
    (basicResult : ResumeResult) : ResumeResult :=
  match tryJudge model i prompt basicResult with
  | Some result => result
  | None => basicResult
  end.

(** The [for] loop; [rest] is [resumeTexts] from index [i] on.
    [analyzeSkills] of one text answers one result, its element [0]; the
    branch for an empty answer is never taken. *)
Fixpoint aiLoop (fuel : nat) (model : GenerativeModel)
    (requiredSkills : jsstring) (fileNames : list (option jsstring))
    (i : nat) (rest : list TextData) (results : list ResumeResult)
    : option (list ResumeResult) :=
  match rest with
  | [] => Some results
  | textData :: rest' =>
      basicResults <-
        analyzeSkills fuel [textData] requiredSkills [nameAt fileNames i] ;;
      match basicResults with
      | basicResult :: _ =>
          let prompt := promptFor requiredSkills textData in
          aiLoop fuel model requiredSkills fileNames (S i) rest'
            (results ++ [judged model i prompt basicResult])
      | [] => None
      end
  end.

Definition analyzeSkillsWithAI (genAI : option GoogleGenerativeAI)
    (fuel : nat) (resumeTexts : list TextData) (requiredSkills : jsstring)
    (fileNames : list (option jsstring)) : option (list ResumeResult) :=
  match genAI with
  | None => analyzeSkills fuel resumeTexts requiredSkills fileNames
  | Some client =>
      match getGenerativeModel client with
      | Ok model =>
          aiLoop fuel model requiredSkills fileNames 0 resumeTexts []
      | Throws _ =>
          analyzeSkills fuel resumeTexts requiredSkills fileNames
      end
  end.

End Judge.

(* ------------------------------------------------------------------ *)
(** * The /api/skills-check handler *)

Record File := {
  buffer : list Byte.byte;
  originalname : option jsstring
}.

Inductive Response : Type :=
| BadRequest (error : jsstring)
| ServerError (error details : jsstring)
| Report (totalResumes eligibleCount : nat) (results : list ResumeResult).

Section Handler.

(** pdf-parse: the text of a document ([data.text]), or a throw. *)
Variable pdf : list Byte.byte -> attempt jsstring.
Variable JSON_parse : jsstring -> attempt JSValue.
(** The module-level client: [null] ([None]) without GOOGLE_API_KEY. *)
Variable genAI : option GoogleGenerativeAI.

Definition extractTextWithLineNumbers (buffer : list Byte.byte)
    : attempt TextData :=
  match pdf buffer with
  | Ok text => Ok (structureText text)
  | Throws message =>
      Throws (js "Failed to extract text from PDF: " ++ message)
  end.

(** [for (const file of files)], filling [resumeTexts] and [fileNames]. *)
Fixpoint extractAll (files : list File) (resumeTexts : list TextData)
    (fileNames : list (option jsstring))
    : attempt (list TextData * list (option jsstring)) :=
  match files with
  | [] => Ok (resumeTexts, fileNames)
  | file :: rest =>
      match extractTextWithLineNumbers (buffer file) with
      | Throws message => Throws message
      | Ok textData =>
          extractAll rest (resumeTexts ++ [textData])
            (fileNames ++ [originalname file])
      end
  end.

Definition isEmptyList {A : Type} (l : list A) : bool :=
  match l with
  | [] => true
  | _ :: _ => false
  end.

(** The handler after both guards have let the request through. *)
Definition processResumes (fuel : nat) (files : list File)
    (skills : jsstring) : option Response :=
  match extractAll files [] [] with
  | Throws message =>
      Some (ServerError (js "Skills analysis failed") message)
  | Ok (resumeTexts, fileNames) =>
      results <-
        analyzeSkillsWithAI JSON_parse genAI fuel resumeTexts skills
          fileNames ;;
      Some (Report (List.length files)
              (List.length
                 (filter (fun r => JS.truthy (eligible r)) results))
              results)
  end.

(** [files] and [skills] are [None] when the request carries none.
    [!files || files.length === 0] and [!skills] answer 400; the absent
    and the empty string are the falsy ones. *)
Definition skills_check (fuel : nat) (files : option (list File))
    (skills : option jsstring) : option Response :=
  match files with
  | None => Some (BadRequest (js "No resume files uploaded"))
  | Some files =>
      if isEmptyList files then
        Some (BadRequest (js "No resume files uploaded"))
      else
        match skills with
        | None => Some (BadRequest (js "Required skills not provided"))
        | Some skills =>
            if isEmptyList skills then
              Some (BadRequest (js "Required skills not provided"))
            else processResumes fuel files skills
        end
  end.

End Handler.

(* ------------------------------------------------------------------ *)
(** * Specification vocabulary *)

(** The [k] characters of [s] from position [p] on spell [needle]. *)
Definition matchAt (s needle : jsstring) (p : Z) : Prop :=
  (0 <= p)%Z /\
  firstn (List.length needle) (skipn (Z.to_nat p) s) = needle.

(** The matches a left-to-right scan keeps when it starts at [start] and,
    after a match at [p], resumes at [p + length needle]. *)
Inductive GreedyMatches (s needle : jsstring) : Z -> list Z -> Prop :=
| GreedyDone (start : Z) :
    (forall q, (start <= q)%Z -> ~ matchAt s needle q) ->
    GreedyMatches s needle start []
| GreedyHit (start p : Z) (ps : list Z) :
    (start <= p)%Z ->
    matchAt s needle p ->
    (forall q, (start <= q < p)%Z -> ~ matchAt s needle q) ->
    GreedyMatches s needle (p + JSString.length needle) ps ->
    GreedyMatches s needle start (p :: ps).



(** Concatenation of runs that all finished. *)
Fixpoint concatOptions {A : Type} (parts : list (option (list A)))
    : option (list A) :=
  match parts with
  | [] => Some []
  | part :: rest =>
      xs <- part ;; ys <- concatOptions rest ;; Some (xs ++ ys)
  end.

(** The occurrences one line contributes, from its match positions. *)
Definition lineOccurrences (fuel : nat) (skillLower : jsstring)
    (line : LineRecord) : option (list Occurrence) :=
  option_map (map (occurrenceAt line skillLower))
    (linePositions fuel skillLower line).

(** The occurrences of a text, from the positions of the matches in each
    of its lines: one occurrence per position, line after line. *)
Definition occurrencesAt (skillLower : jsstring) (ls : list LineRecord)
    (positions : list (list Z)) : list Occurrence :=
  List.concat
    (map (fun lp => map (occurrenceAt (fst lp) skillLower) (snd lp))
       (combine ls positions)).

(** [array.map((x, index) => f(index, x))] over runs that may not
    finish, with the index of the first element. *)
Fixpoint mapIndexed {A B : Type} (f : nat -> A -> option B) (index : nat)
    (xs : list A) : option (list B) :=
  match xs with
  | [] => Some []
  | x :: rest =>
      y <- f index x ;; ys <- mapIndexed f (S index) rest ;; Some (y :: ys)
  end.

(** What the enhanced path computes for the resume at index [i]. *)
Definition aiResultAt (JSON_parse : jsstring -> attempt JSValue)
    (model : GenerativeModel) (fuel : nat) (requiredSkills : jsstring)
    (fileNames : list (option jsstring)) (i : nat) (textData : TextData)
    : option ResumeResult :=
  basicResult <-
    analyzeResume fuel (skillsArrayOf requiredSkills) [nameAt fileNames i] 0
      textData ;;
  Some (judged JSON_parse model i (promptFor requiredSkills textData)
          basicResult).

(** The ways the judge's reply to request [i] is lost: the request
    throws, the reply is not JSON, or the reply is the JSON [null]. *)
Inductive JudgeFails (JSON_parse : jsstring -> attempt JSValue)
    (model : GenerativeModel) (i : nat) (prompt : jsstring) : Prop :=
| CallFails (message : jsstring) :
    generateContent model i prompt = Throws message ->
    JudgeFails JSON_parse model i prompt
| ParseFails (text message : jsstring) :
    generateContent model i prompt = Ok text ->
    JSON_parse (stripFences text) = Throws message ->
    JudgeFails JSON_parse model i prompt
| ReplyIsNull (text : jsstring) :
    generateContent model i prompt = Ok text ->
    JSON_parse (stripFences text) = Ok JNull ->
    JudgeFails JSON_parse model i prompt.

(** A file name that is present and not empty. *)
Definition named (name : option jsstring) : bool :=
  match name with
  | Some (_ :: _) => true
  | _ => false
  end.

(** A run that never finishes, whatever fuel it is given. *)
Definition neverReturns {A : Type} (run : nat -> option A) : Prop :=
  forall fuel, run fuel = None.

(** Rounding of the exact quotient [100 * m / n] to the nearest integer,
    a half going up. *)
Definition roundHalfUp (m n : nat) : Z :=
  ((200 * Z.of_nat m + Z.of_nat n) / (2 * Z.of_nat n))%Z.

Definition isBlank (s : jsstring) : bool :=
  match JSString.trim s with
  | [] => true
  | _ :: _ => false
  end.

(** No requested skill is empty once trimmed. *)
Definition noBlankSkill (requiredSkills : jsstring) : bool :=
  forallb (fun piece => negb (isBlank piece))
    (JSString.split (JSString.code ",") requiredSkills).

(** The longest line of a text, in characters. *)
Definition longestLine (textData : TextData) : nat :=
  fold_right (fun line m => Nat.max (List.length (content line)) m) 0
    (lines textData).

Definition enoughFuel (resumeTexts : list TextData) : nat :=
  fold_right (fun textData m => Nat.max (longestLine textData) m) 0 resumeTexts
  + 2.



(** A [matched] entry that reports what the locator answered for its
    skill: at least one occurrence, and their number. *)
Definition reportsLocated (fuel : nat) (textData : TextData)
    (entry : SkillMatch) : Prop :=
  findSkillOccurrences fuel textData (skill entry)
    = Some (occurrences entry) /\
  occurrences entry <> [] /\
  totalOccurrences entry = List.length (occurrences entry).

(** [parts.join(sep)]. *)
Fixpoint joinWith (sep : jsstring) (parts : list jsstring) : jsstring :=
  match parts with
  | [] => []
  | [part] => part
  | part :: rest => part ++ sep ++ joinWith sep rest
  end.

(** [needle] is a contiguous part of [s]. *)
Definition occursIn (needle s : jsstring) : Prop :=
  exists pre post, s = pre ++ needle ++ post.

(** The line mentions the skill, letter case apart. *)
Definition mentions (line : LineRecord) (skill : jsstring) : Prop :=
  occursIn (JSString.toLowerCase skill) (JSString.toLowerCase (content line)).

(** The locator has answered with at least one occurrence. *)
Definition located (fuel : nat) (textData : TextData) (skill : jsstring)
    : bool :=
  match findSkillOccurrences fuel textData skill with
  | Some (_ :: _) => true
  | _ => false
  end.

(** The [k] characters of [s] from position [p] on, with the characters
    before and after them, up to [radius] on either side. *)
Definition windowAround (s : jsstring) (p k radius : nat) : jsstring :=
  firstn (Nat.min radius p) (skipn (p - radius) s)
  ++ firstn k (skipn p s)
  ++ firstn radius (skipn (p + k) s).

(** The characters of all lines together. *)
Definition totalCharacters (textData : TextData) : nat :=
  fold_right (fun line n => List.length (content line) + n) 0
    (lines textData).

(** A reply wrapped in a markdown code fence. *)
Definition fenced (body : jsstring) : jsstring :=
  js "```json" ++ nl ++ body ++ nl ++ js "```".

(** The percentage computed for [m] matched skills of [n], compared with
    the exact quotient rounded half up: it is that integer or the one
    below, it lies in 0..100, it is 0 for no match and 100 for all, and it
    reaches the eligibility threshold exactly when the exact one does. *)
Definition percentageChecked (m n : nat) : bool :=
  let x := percentage m n in
  let r := roundHalfUp m n in
  let k := if PrimFloat.eqb x (JSNumber.ofZ r) then r else (r - 1)%Z in
  PrimFloat.eqb x (JSNumber.ofZ k)
  && (0 <=? k)%Z && (k <=? 100)%Z
  && Bool.eqb (PrimFloat.leb eligibilityThreshold x) (60 <=? r)%Z
  && implb (m =? 0) (k =? 0)%Z
  && implb (m =? n) (k =? 100)%Z.

Definition percentagesChecked (bound : nat) : bool :=
  forallb (fun n => forallb (fun m => percentageChecked m n) (seq 0 (S n)))
    (seq 1 bound).

(* ------------------------------------------------------------------ *)
(** * Sample inputs *)

Module Sample.

(** One resume whose text is the single line "aaaa". *)
Definition aaaa : TextData := structureText (js "aaaa").

(** One resume of three lines. *)
Definition resume : TextData :=
  structureText
    (js "Senior developer: PYTHON and python scripting" ++ nl
     ++ js "  Databases: SQL  " ++ nl ++ js "").

Fixpoint joinComma (skills : list jsstring) : jsstring :=
  match skills with
  | [] => []
  | [s] => s
  | s :: rest => s ++ js "," ++ joinComma rest
  end.

(** Forty requested skills, of which the resume "a" has the first 23. *)
Definition fortySkills : jsstring :=
  joinComma (repeat (js "a") 23 ++ repeat (js "b") 17).

Definition resumeA : TextData := structureText (js "a").

(** One resume of one line of 100 characters, with "Python" at
    position 53. *)
Definition longResume : TextData :=
  structureText
    (js "Ten years of experience in backend services, writing Python for data pipelines and cloud deployments").

(** A line that begins with twenty capital dotted I (U+0130): "python"
    stands at position 20 of the line and at position 40 of its lower
    case; forty more characters follow it. *)
Definition dottedLine : jsstring :=
  repeat JSString.capitalDottedI 20 ++ js "python"
  ++ repeat (JSString.code "x") 40.

(** A line of forty capital dotted I, then " python". *)
Definition longDottedLine : jsstring :=
  repeat JSString.capitalDottedI 40 ++ js " python".

(** A pdf-parse that reads the bytes of a document as its text. *)
Definition pdfText (buffer : list Byte.byte) : attempt jsstring :=
  Ok (map Byte.to_N buffer).

Definition file (text : string) (name : option jsstring) : File :=
  {| buffer := map (fun c => match Byte.of_N c with
                             | Some b => b
                             | None => Byte.x00
                             end) (js text);
     originalname := name |}.

(** [JSON.parse] on the three reply texts used below: the empty object,
    [null], and anything else taken as a SyntaxError. *)
Definition parseReply (text : jsstring) : attempt JSValue :=
  if JS.stringEqb text (js "{}") then Ok (JObj [])
  else if JS.stringEqb text (js "null") then Ok JNull
  else Throws (js "Unexpected token").

(** A judge that answers every request with the same text. *)
Definition judgeSaying (text : jsstring) : GoogleGenerativeAI :=
  {| getGenerativeModel :=
       Ok {| generateContent := fun _ _ => Ok text |} |}.

(** A judge whose request number [i] fails and whose other requests are
    answered with [text]. *)
Definition judgeFailingAt (i : nat) (text : jsstring) : GenerativeModel :=
  {| generateContent := fun n _ =>
       if n =? i then Throws (js "fetch failed") else Ok text |}.

(** [JSON.parse] on one well-formed verdict,
    [{"overall_score": 85, "eligible": false, "summary": "weak"}]; any
    other text is taken as a SyntaxError. *)
Definition verdictText : jsstring :=
  js "{" ++ quoted (js "overall_score") ++ js ": 85, "
  ++ quoted (js "eligible") ++ js ": false, "
  ++ quoted (js "summary") ++ js ": " ++ quoted (js "weak") ++ js "}".

Definition parseVerdict (text : jsstring) : attempt JSValue :=
  if JS.stringEqb text verdictText then
    Ok (JObj [(js "overall_score", JNum 85);
              (js "eligible", JBool false);
              (js "summary", JStr (js "weak"))])
  else Throws (js "Unexpected token").

(** The results of a run that finished. *)
Definition finished {A : Type} (run : option (list A)) : list A :=
  match run with
  | Some results => results
  | None => []
  end.

End Sample.

(* ================================================================== *)
(** * Properties *)

Unset Implicit Arguments.

(** ** Strings *)

Module JSStringFacts.
Import JSString.

Lemma startsWith_firstn (needle s : jsstring) :
  startsWith needle s = true <-> firstn (List.length needle) s = needle.
Proof.
  revert s; induction needle as [|a needle IH]; intros s; simpl.
  - split; reflexivity.
  - destruct s as [|b s]; simpl.
    + split; discriminate.
    + rewrite andb_true_iff, N.eqb_eq, IH. split.
      * intros [-> ->]. reflexivity.
      * intros H. injection H as -> H. split; [reflexivity | assumption].
Qed.

Lemma startsWith_false (needle s : jsstring) :
  startsWith needle s = false <-> firstn (List.length needle) s <> needle.
Proof.
  rewrite <- startsWith_firstn. destruct (startsWith needle s); split; congruence.
Qed.

Lemma firstn_eq_length (needle s : jsstring) :
  firstn (List.length needle) s = needle -> List.length needle <= List.length s.
Proof.
  intros H. apply (f_equal (@List.length JSString.codeUnit)) in H.
  rewrite length_firstn in H. lia.
Qed.

Lemma search_unfold (needle s : jsstring) (i : nat) :
  search needle s i =
  if startsWith needle s then Some i
  else match s with
       | [] => None
       | _ :: s' => search needle s' (S i)
       end.
Proof. destruct s; reflexivity. Qed.

Lemma search_Some (needle s : jsstring) (i p : nat) :
  search needle s i = Some p ->
  i <= p /\ p - i + List.length needle <= List.length s /\
  firstn (List.length needle) (skipn (p - i) s) = needle /\
  (forall q, i <= q < p ->
     firstn (List.length needle) (skipn (q - i) s) <> needle).
Proof.
  revert i; induction s as [|c s IH]; intros i; rewrite search_unfold.
  - destruct (startsWith needle []) eqn:E; [|discriminate].
    intros [= <-]. rewrite Nat.sub_diag. apply startsWith_firstn in E.
    repeat split; try lia; [|assumption].
    apply firstn_eq_length in E. simpl in *. lia.
  - destruct (startsWith needle (c :: s)) eqn:E.
    + intros [= <-]. rewrite Nat.sub_diag. apply startsWith_firstn in E.
      repeat split; try lia; [|assumption].
      apply firstn_eq_length in E. simpl in *. lia.
    + intros H. apply IH in H. destruct H as (Hle & Hlen & Hm & Hmin).
      replace (p - i) with (S (p - S i)) by lia. simpl.
      repeat split; try lia; [assumption|].
      intros q Hq. destruct (Nat.eq_dec q i) as [->|Hne].
      * rewrite Nat.sub_diag. simpl. apply startsWith_false. assumption.
      * replace (q - i) with (S (q - S i)) by lia. simpl. apply Hmin. lia.
Qed.

Lemma search_None (needle s : jsstring) (i : nat) :
  search needle s i = None ->
  forall q, firstn (List.length needle) (skipn q s) <> needle.
Proof.
  revert i; induction s as [|c s IH]; intros i; rewrite search_unfold.
  - destruct (startsWith needle []) eqn:E; [discriminate|].
    intros _ q. rewrite skipn_nil. apply startsWith_false. assumption.
  - destruct (startsWith needle (c :: s)) eqn:E; [discriminate|].
    intros H [|q]; simpl.
    + apply startsWith_false. assumption.
    + apply (IH _ H).
Qed.

Lemma clamp_spec (s : jsstring) (position : Z) :
  Z.of_nat (clamp s position) = Z.min (Z.max position 0) (length s).
Proof. unfold clamp, length. lia. Qed.

Lemma clamp_le (s : jsstring) (position : Z) :
  clamp s position <= List.length s.
Proof. unfold clamp, length. lia. Qed.

Lemma clamp_inside (s : jsstring) (position : Z) :
  (0 <= position <= length s)%Z -> Z.of_nat (clamp s position) = position.
Proof. rewrite clamp_spec. lia. Qed.

Lemma matchAt_bound (s needle : jsstring) (p : Z) :
  matchAt s needle p -> needle <> [] -> (p + length needle <= length s)%Z.
Proof.
  intros [Hp Hm] Hne. pose proof (firstn_eq_length _ _ Hm) as Hl.
  rewrite length_skipn in Hl. unfold length.
  destruct needle; [congruence|]. simpl in Hl. simpl List.length. lia.
Qed.

(** [indexOf] answers -1 or the first match at or after the clamped
    position. *)
Lemma indexOf_found (s needle : jsstring) (position : Z) :
  indexOf s needle position <> (-1)%Z ->
  let r := indexOf s needle position in
  (Z.of_nat (clamp s position) <= r)%Z /\
  (r + length needle <= length s)%Z /\
  matchAt s needle r /\
  (forall q, (Z.of_nat (clamp s position) <= q < r)%Z -> ~ matchAt s needle q).
Proof.
  unfold indexOf. set (start := clamp s position).
  pose proof (clamp_le s position) as Hstart. fold start in Hstart.
  destruct (search needle (skipn start s) start) as [p|] eqn:E; [|congruence].
  intros _. simpl. apply search_Some in E.
  destruct E as (Hle & Hlen & Hm & Hmin).
  rewrite length_skipn in Hlen. rewrite skipn_skipn in Hm.
  replace (p - start + start) with p in Hm by lia.
  repeat split; try lia.
  - unfold length. lia.
  - rewrite Nat2Z.id. assumption.
  - intros q Hq [_ Hq']. apply (Hmin (Z.to_nat q)); [lia|].
    rewrite skipn_skipn. replace (Z.to_nat q - start + start) with (Z.to_nat q) by lia.
    assumption.
Qed.

Lemma indexOf_none (s needle : jsstring) (position : Z) :
  indexOf s needle position = (-1)%Z ->
  forall q, (Z.of_nat (clamp s position) <= q)%Z -> ~ matchAt s needle q.
Proof.
  unfold indexOf. set (start := clamp s position).
  destruct (search needle (skipn start s) start) as [p|] eqn:E; [lia|].
  intros _ q Hq [_ Hm].
  apply (search_None _ _ _ E (Z.to_nat q - start)).
  rewrite skipn_skipn. replace (Z.to_nat q - start + start) with (Z.to_nat q) by lia.
  assumption.
Qed.

Lemma indexOf_empty_needle (s : jsstring) (position : Z) :
  indexOf s [] position = Z.of_nat (clamp s position).
Proof. unfold indexOf. rewrite search_unfold. reflexivity. Qed.

(** Lowering keeps every character but U+0130 in its place ... *)
Lemma toLowerCase_plain (s : jsstring) :
  ~ In capitalDottedI s -> toLowerCase s = map lowerChar s.
Proof.
  induction s as [|c s IH]; intros Hfree; simpl; [reflexivity|].
  unfold lowerCase. destruct (N.eqb_spec c capitalDottedI) as [->|_].
  - exfalso. apply Hfree. left. reflexivity.
  - simpl. rewrite IH; [reflexivity|]. intros H. apply Hfree. right. exact H.
Qed.

Lemma length_toLowerCase (s : jsstring) :
  ~ In capitalDottedI s -> List.length (toLowerCase s) = List.length s.
Proof. intros Hfree. rewrite (toLowerCase_plain s Hfree). apply length_map. Qed.

(** ... and never shortens a string or more than doubles it. *)
Lemma length_toLowerCase_bounds (s : jsstring) :
  List.length s <= List.length (toLowerCase s) <= 2 * List.length s.
Proof.
  unfold toLowerCase.
  induction s as [|c s IH]; cbn [flat_map List.length]; [lia|].
  rewrite length_app.
  assert (1 <= List.length (lowerCase c) <= 2); [|lia].
  unfold lowerCase. destruct (c =? capitalDottedI)%N; simpl; lia.
Qed.

Lemma toLowerCase_nil_iff (s : jsstring) : toLowerCase s = [] <-> s = [].
Proof.
  destruct s as [|c s]; simpl; [split; reflexivity|].
  unfold lowerCase. destruct (c =? capitalDottedI)%N; split; discriminate.
Qed.

(** The lower case of one character never repeats a code unit. *)
Lemma count_occ_toLowerCase (s : jsstring) (c : codeUnit) :
  count_occ N.eq_dec (toLowerCase s) c <= List.length s.
Proof.
  unfold toLowerCase.
  induction s as [|x s IH]; cbn [flat_map List.length]; [simpl; lia|].
  rewrite count_occ_app.
  assert (count_occ N.eq_dec (lowerCase x) c <= 1); [|lia].
  unfold lowerCase. destruct (x =? capitalDottedI)%N; cbn [count_occ].
  - destruct (N.eq_dec smallI c) as [<-|_].
    + destruct (N.eq_dec combiningDot smallI) as [E|_]; [discriminate E | lia].
    + destruct (N.eq_dec combiningDot c); lia.
  - destruct (N.eq_dec (lowerChar x) c); lia.
Qed.

End JSStringFacts.

(** ** The scan of one line *)

Section ScanLine.

Import JSString JSStringFacts.

Variables (s needle : jsstring).

Lemma scanPositions_empty_skill (fuel : nat) (start : Z) :
  scanPositions fuel s [] start = None.
Proof.
  revert start; induction fuel as [|fuel IH]; intros start; simpl.
  - reflexivity.
  - rewrite indexOf_empty_needle.
    destruct (Z.eqb_spec (Z.of_nat (clamp s start)) (-1)) as [E|_]; [lia|].
    rewrite IH. reflexivity.
Qed.

Lemma scanPositions_total (fuel : nat) (start : Z) :
  needle <> [] ->
  (0 <= start <= length s)%Z ->
  (length s - start < Z.of_nat fuel)%Z ->
  exists ps, scanPositions fuel s needle start = Some ps.
Proof.
  intros Hne. revert start; induction fuel as [|fuel IH]; intros start Hs Hf.
  - lia.
  - simpl. destruct (Z.eqb_spec (indexOf s needle start) (-1)) as [E|E].
    + eexists; reflexivity.
    + pose proof (indexOf_found s needle start E) as (Hle & Hlen & _ & _).
      rewrite clamp_inside in Hle by assumption.
      assert (0 < length needle)%Z.
      { unfold length. destruct needle; [congruence|]. simpl List.length. lia. }
      destruct (IH (indexOf s needle start + length needle)%Z) as [ps Hps];
        [lia | lia |].
      rewrite Hps. simpl. eexists; reflexivity.
Qed.

Lemma scanPositions_greedy (fuel : nat) (start : Z) (ps : list Z) :
  (0 <= start <= length s)%Z ->
  scanPositions fuel s needle start = Some ps ->
  GreedyMatches s needle start ps.
Proof.
  revert start ps; induction fuel as [|fuel IH]; intros start ps Hs; simpl.
  - discriminate.
  - destruct (Z.eqb_spec (indexOf s needle start) (-1)) as [E|E].
    + intros [= <-]. constructor. intros q Hq.
      apply (indexOf_none s needle start E).
      rewrite clamp_inside by assumption. assumption.
    + pose proof (indexOf_found s needle start E) as (Hle & Hlen & Hm & Hmin).
      rewrite clamp_inside in Hle, Hmin by assumption.
      destruct (scanPositions fuel s needle
                  (indexOf s needle start + length needle)) as [ps'|] eqn:E';
        simpl; [|discriminate].
      intros [= <-]. constructor; try assumption.
      apply IH; [|assumption]. unfold length in *. lia.
Qed.

Lemma scanPositions_mono (fuel fuel' : nat) (start : Z) (ps : list Z) :
  scanPositions fuel s needle start = Some ps ->
  fuel <= fuel' ->
  scanPositions fuel' s needle start = Some ps.
Proof.
  revert fuel' start ps; induction fuel as [|fuel IH];
    intros fuel' start ps; simpl; [discriminate|].
  intros H Hle. destruct fuel' as [|fuel']; [lia|]. simpl.
  destruct (indexOf s needle start =? -1)%Z; [assumption|].
  destruct (scanPositions fuel s needle _) as [ps'|] eqn:E; [|discriminate].
  rewrite (IH fuel' _ _ E) by lia. assumption.
Qed.

(** The loop makes one iteration per match and one more. *)
Lemma scanPositions_enough (fuel fuel' : nat) (start : Z) (ps : list Z) :
  scanPositions fuel s needle start = Some ps ->
  List.length ps < fuel' ->
  scanPositions fuel' s needle start = Some ps.
Proof.
  revert fuel' start ps; induction fuel as [|fuel IH];
    intros fuel' start ps; simpl; [discriminate|].
  intros H Hlen. destruct fuel' as [|fuel']; [lia|]. simpl.
  destruct (indexOf s needle start =? -1)%Z; [assumption|].
  destruct (scanPositions fuel s needle _) as [ps'|] eqn:E; [|discriminate].
  simpl in H. injection H as <-. simpl in Hlen.
  rewrite (IH fuel' _ _ E) by lia. reflexivity.
Qed.

(** The loop pushes one occurrence per recorded position, in order. *)
Lemma scanLine_positions (fuel : nat) (line : LineRecord) (start : Z)
    (acc : list Occurrence) :
  scanLine fuel line s needle start acc =
  option_map (fun ps => acc ++ map (occurrenceAt line needle) ps)
    (scanPositions fuel s needle start).
Proof.
  revert start acc; induction fuel as [|fuel IH]; intros start acc; simpl.
  - reflexivity.
  - destruct (indexOf s needle start =? -1)%Z.
    + simpl. rewrite app_nil_r. reflexivity.
    + rewrite IH.
      destruct (scanPositions fuel s needle _) as [ps|]; simpl; [|reflexivity].
      rewrite <- app_assoc. reflexivity.
Qed.

(** Matches kept by the scan start at or after the scan's start ... *)
Lemma GreedyMatches_from (start : Z) (ps : list Z) :
  GreedyMatches s needle start ps -> Forall (fun p => (start <= p)%Z) ps.
Proof.
  induction 1 as [|start p ps Hle Hm Hmin Hrest IH]; constructor.
  - assumption.
  - eapply Forall_impl; [|exact IH]. simpl. unfold length. intros q. lia.
Qed.

(** ... each is a match, and a later one starts where an earlier one has
    ended, or further right. *)
Lemma GreedyMatches_matchAt (start : Z) (ps : list Z) :
  GreedyMatches s needle start ps -> Forall (matchAt s needle) ps.
Proof. induction 1; constructor; assumption. Qed.

Lemma GreedyMatches_apart (start : Z) (ps : list Z) :
  GreedyMatches s needle start ps ->
  ForallOrdPairs (fun p q => (p + length needle <= q)%Z) ps.
Proof.
  induction 1 as [|start p ps Hle Hm Hmin Hrest IH]; constructor.
  - apply (GreedyMatches_from _ _ Hrest).
  - assumption.
Qed.

End ScanLine.

(** ** How many matches a line can hold *)

Lemma GreedyMatches_count (s needle : jsstring) (start : Z) (ps : list Z) :
  GreedyMatches s needle start ps ->
  (0 <= start <= JSString.length s)%Z ->
  (Z.of_nat (List.length ps) * JSString.length needle
   <= JSString.length s - start)%Z.
Proof.
  destruct needle as [|c needle].
  { intros _ Hs. unfold JSString.length at 1. simpl. lia. }
  induction 1 as [|start p ps Hle Hm Hmin Hrest IH]; intros Hs.
  - simpl. lia.
  - pose proof (JSStringFacts.matchAt_bound _ _ _ Hm) as Hb.
    specialize (Hb ltac:(discriminate)).
    assert (0 <= JSString.length (c :: needle))%Z
      by (unfold JSString.length; lia).
    specialize (IH ltac:(lia)).
    change (List.length (p :: ps)) with (S (List.length ps)). lia.
Qed.

Lemma GreedyMatches_count_unit (s : jsstring) (c : JSString.codeUnit)
    (start : Z) (ps : list Z) :
  GreedyMatches s [c] start ps ->
  (0 <= start)%Z ->
  List.length ps <= count_occ N.eq_dec (skipn (Z.to_nat start) s) c.
Proof.
  induction 1 as [|start p ps Hle [Hp Hm] Hmin Hrest IH]; intros Hs.
  - simpl. lia.
  - change (JSString.length [c]) with 1%Z in IH. specialize (IH ltac:(lia)).
    replace (Z.to_nat (p + 1)) with (S (Z.to_nat p)) in IH by lia.
    assert (skipn (Z.to_nat start) s
            = firstn (Z.to_nat p - Z.to_nat start) (skipn (Z.to_nat start) s)
              ++ skipn (Z.to_nat p) s) as Hsplit.
    { rewrite <- (firstn_skipn (Z.to_nat p - Z.to_nat start)
                   (skipn (Z.to_nat start) s)) at 1.
      rewrite skipn_skipn. do 2 f_equal. lia. }
    rewrite Hsplit, count_occ_app.
    destruct (skipn (Z.to_nat p) s) as [|x rest] eqn:E; [discriminate Hm|].
    simpl in Hm. injection Hm as ->.
    assert (skipn (S (Z.to_nat p)) s = rest) as Hrest'.
    { change (S (Z.to_nat p)) with (1 + Z.to_nat p).
      rewrite <- skipn_skipn, E. reflexivity. }
    rewrite Hrest' in IH. simpl.
    destruct (N.eq_dec c c); [|congruence]. lia.
Qed.

(** However the lowering stretches a line, a non-empty skill is found in
    it at most once per character of the line. *)
Lemma matches_of_lowered_line (lineContent needle : jsstring) (ps : list Z) :
  needle <> [] ->
  GreedyMatches (JSString.toLowerCase lineContent) needle 0 ps ->
  List.length ps <= List.length lineContent.
Proof.
  destruct needle as [|c [|c' needle]]; [congruence| |]; intros _ H.
  - apply GreedyMatches_count_unit in H; [|lia]. simpl in H.
    pose proof (JSStringFacts.count_occ_toLowerCase lineContent c). lia.
  - apply GreedyMatches_count in H; [|unfold JSString.length; lia].
    pose proof (JSStringFacts.length_toLowerCase_bounds lineContent) as Hb.
    unfold JSString.length in H. simpl List.length in H. nia.
Qed.

(** The loop of one line finishes within [line length + 1] iterations. *)
Lemma linePositions_total (fuel : nat) (skillLower : jsstring)
    (line : LineRecord) :
  skillLower <> [] ->
  List.length (content line) < fuel ->
  exists ps, linePositions fuel skillLower line = Some ps.
Proof.
  intros Hne Hfuel. unfold linePositions.
  destruct (scanPositions_total (JSString.toLowerCase (content line))
              skillLower
              (S (List.length (JSString.toLowerCase (content line)))) 0 Hne)
    as [ps Hps]; [unfold JSString.length; lia | unfold JSString.length; lia |].
  exists ps. apply (scanPositions_enough _ _ _ _ _ _ Hps).
  apply scanPositions_greedy in Hps; [|unfold JSString.length; lia].
  apply (matches_of_lowered_line _ _ _ Hne) in Hps. lia.
Qed.

(** ** findSkillOccurrences, line by line *)

Lemma forEachLine_lines (fuel : nat) (skillLower : jsstring)
    (ls : list LineRecord) (acc : list Occurrence) :
  forEachLine fuel skillLower ls acc =
  option_map (app acc)
    (concatOptions (map (lineOccurrences fuel skillLower) ls)).
Proof.
  revert acc; induction ls as [|line ls IH]; intros acc; simpl.
  - rewrite app_nil_r. reflexivity.
  - rewrite scanLine_positions. unfold lineOccurrences at 1, linePositions.
    destruct (scanPositions fuel _ skillLower 0) as [ps|]; simpl; [|reflexivity].
    rewrite IH.
    destruct (concatOptions (map (lineOccurrences fuel skillLower) ls));
      simpl; [|reflexivity].
    rewrite app_assoc. reflexivity.
Qed.

Lemma findSkillOccurrences_lines (fuel : nat) (textData : TextData)
    (skill : jsstring) :
  findSkillOccurrences fuel textData skill =
  concatOptions
    (map (lineOccurrences fuel (JSString.toLowerCase skill)) (lines textData)).
Proof.
  unfold findSkillOccurrences. rewrite forEachLine_lines.
  destruct (concatOptions _); reflexivity.
Qed.

Lemma concatOptions_mono {A : Type} (f g : LineRecord -> option (list A))
    (ls : list LineRecord) (xs : list A) :
  (forall line ys, f line = Some ys -> g line = Some ys) ->
  concatOptions (map f ls) = Some xs ->
  concatOptions (map g ls) = Some xs.
Proof.
  intros Hfg. revert xs; induction ls as [|line ls IH]; intros xs; simpl.
  - trivial.
  - destruct (f line) as [ys|] eqn:E; simpl; [|discriminate].
    rewrite (Hfg _ _ E). simpl.
    destruct (concatOptions (map f ls)) as [zs|]; simpl; [|discriminate].
    rewrite (IH _ eq_refl). trivial.
Qed.

Lemma lineOccurrences_mono (fuel fuel' : nat) (skillLower : jsstring)
    (line : LineRecord) (occs : list Occurrence) :
  fuel <= fuel' ->
  lineOccurrences fuel skillLower line = Some occs ->
  lineOccurrences fuel' skillLower line = Some occs.
Proof.
  unfold lineOccurrences, linePositions. intros Hle.
  destruct (scanPositions fuel _ skillLower 0) as [ps|] eqn:E; [|discriminate].
  rewrite (scanPositions_mono _ _ _ _ _ _ E Hle). trivial.
Qed.

(** More fuel never changes an answer. *)
Lemma findSkillOccurrences_mono (fuel fuel' : nat) (textData : TextData)
    (skill : jsstring) (occs : list Occurrence) :
  fuel <= fuel' ->
  findSkillOccurrences fuel textData skill = Some occs ->
  findSkillOccurrences fuel' textData skill = Some occs.
Proof.
  intros Hle. rewrite !findSkillOccurrences_lines.
  apply concatOptions_mono. intros line ys. apply lineOccurrences_mono, Hle.
Qed.

Lemma longestLine_bound (textData : TextData) (line : LineRecord) :
  In line (lines textData) ->
  List.length (content line) <= longestLine textData.
Proof.
  unfold longestLine. induction (lines textData) as [|l ls IH]; simpl.
  - intros [].
  - intros [->|Hin]; [lia|]. specialize (IH Hin). lia.
Qed.

(** A non-empty skill is located within [longestLine + 1] iterations. *)
Lemma findSkillOccurrences_total (fuel : nat) (textData : TextData)
    (skill : jsstring) :
  skill <> [] ->
  longestLine textData < fuel ->
  exists occs, findSkillOccurrences fuel textData skill = Some occs.
Proof.
  intros Hne Hfuel. rewrite findSkillOccurrences_lines.
  pose proof (longestLine_bound textData) as Hb.
  induction (lines textData) as [|line ls IH]; simpl.
  - eexists; reflexivity.
  - unfold lineOccurrences at 1.
    destruct (linePositions_total fuel (JSString.toLowerCase skill) line)
      as [ps Hps].
    + rewrite JSStringFacts.toLowerCase_nil_iff. assumption.
    + specialize (Hb line (or_introl eq_refl)). lia.
    + rewrite Hps. simpl.
      destruct IH as [occs Hoccs]; [intros l Hl; apply Hb; right; exact Hl|].
      rewrite Hoccs. simpl. eexists; reflexivity.
Qed.

(** The empty skill is never located: the loop of the first line makes
    no progress. *)
Lemma findSkillOccurrences_empty (fuel : nat) (textData : TextData) :
  lines textData <> [] ->
  findSkillOccurrences fuel textData [] = None.
Proof.
  intros Hne. rewrite findSkillOccurrences_lines.
  destruct (lines textData) as [|line ls]; [congruence|]. simpl.
  unfold lineOccurrences, linePositions. simpl.
  rewrite scanPositions_empty_skill. reflexivity.
Qed.

(** ** analyzeSkills *)

Lemma noBlankSkill_skillsArray (requiredSkills : jsstring) :
  noBlankSkill requiredSkills = true ->
  Forall (fun skill => skill <> []) (skillsArrayOf requiredSkills).
Proof.
  unfold noBlankSkill, skillsArrayOf. rewrite forallb_forall, Forall_map, Forall_forall.
  intros H piece Hin. specialize (H piece Hin). unfold isBlank in H.
  destruct (JSString.trim piece); [discriminate|congruence].
Qed.

Lemma forEachSkill_total (fuel : nat) (textData : TextData)
    (skills : list jsstring) (matched0 : list SkillMatch)
    (missing0 : list jsstring) :
  Forall (fun skill => skill <> []) skills ->
  longestLine textData < fuel ->
  exists found, forEachSkill fuel textData skills matched0 missing0 = Some found.
Proof.
  intros Hall Hfuel. revert matched0 missing0.
  induction Hall as [|sk skills Hsk Hall IH]; intros matched0 missing0; simpl.
  - eexists; reflexivity.
  - destruct (findSkillOccurrences_total fuel textData sk Hsk Hfuel) as [occs ->].
    simpl. destruct (0 <? List.length occs); apply IH.
Qed.

Lemma forEachSkill_mono (fuel fuel' : nat) (textData : TextData)
    (skills : list jsstring) (matched0 : list SkillMatch)
    (missing0 : list jsstring) (found : list SkillMatch * list jsstring) :
  fuel <= fuel' ->
  forEachSkill fuel textData skills matched0 missing0 = Some found ->
  forEachSkill fuel' textData skills matched0 missing0 = Some found.
Proof.
  intros Hle. revert matched0 missing0.
  induction skills as [|sk skills IH]; intros matched0 missing0; simpl.
  - trivial.
  - destruct (findSkillOccurrences fuel textData sk) as [occs|] eqn:E;
      simpl; [|discriminate].
    rewrite (findSkillOccurrences_mono _ _ _ _ _ Hle E). simpl.
    destruct (0 <? List.length occs); apply IH.
Qed.

(** The two arrays split the skills: every skill lands in exactly one. *)
Lemma forEachSkill_partition (fuel : nat) (textData : TextData)
    (skills : list jsstring) (matched0 matched1 : list SkillMatch)
    (missing0 missing1 : list jsstring) :
  forEachSkill fuel textData skills matched0 missing0
    = Some (matched1, missing1) ->
  Permutation (map skill matched1 ++ missing1)
              ((map skill matched0 ++ missing0) ++ skills) /\
  List.length matched1 + List.length missing1
    = List.length matched0 + List.length missing0 + List.length skills.
Proof.
  revert matched0 missing0.
  induction skills as [|sk skills IH]; intros matched0 missing0; simpl.
  - intros [= <- <-]. rewrite app_nil_r. split; [reflexivity | lia].
  - destruct (findSkillOccurrences fuel textData sk) as [occs|];
      simpl; [|discriminate].
    destruct (0 <? List.length occs); intros H; apply IH in H;
      destruct H as [Hperm Hlen]; split.
    + etransitivity; [exact Hperm|]. rewrite map_app. simpl.
      rewrite <- !app_assoc. apply Permutation_app_head. simpl.
      apply Permutation_middle.
    + rewrite Hlen, length_app. simpl. lia.
    + rewrite Hperm. rewrite <- !app_assoc. reflexivity.
    + rewrite Hlen, length_app. simpl. lia.
Qed.

Section MapIndexed.

Context {A B : Type}.

Lemma mapIndexed_nth (f : nat -> A -> option B) (index : nat) (xs : list A)
    (ys : list B) :
  mapIndexed f index xs = Some ys ->
  List.length ys = List.length xs /\
  forall j x, nth_error xs j = Some x ->
    exists y, nth_error ys j = Some y /\ f (index + j) x = Some y.
Proof.
  revert index ys; induction xs as [|x xs IH]; intros index ys; simpl.
  - intros [= <-]. split; [reflexivity|]. intros [|j] x; discriminate.
  - destruct (f index x) as [y|] eqn:Ey; simpl; [|discriminate].
    destruct (mapIndexed f (S index) xs) as [ys'|] eqn:Eys; simpl; [|discriminate].
    intros [= <-]. destruct (IH _ _ Eys) as [Hlen Hnth]. split.
    + simpl. congruence.
    + intros [|j] x'; simpl.
      * intros [= <-]. exists y. rewrite Nat.add_0_r. auto.
      * intros Hx. destruct (Hnth _ _ Hx) as (y' & Hy' & Hf).
        exists y'. rewrite Nat.add_succ_r. auto.
Qed.

Lemma mapIndexed_total (f : nat -> A -> option B) (index : nat) (xs : list A) :
  (forall j x, nth_error xs j = Some x -> exists y, f (index + j) x = Some y) ->
  exists ys, mapIndexed f index xs = Some ys.
Proof.
  revert index; induction xs as [|x xs IH]; intros index H; simpl.
  - eexists; reflexivity.
  - destruct (H 0 x eq_refl) as [y Hy]. rewrite Nat.add_0_r in Hy. rewrite Hy.
    destruct (IH (S index)) as [ys Hys].
    + intros j x' Hx'. destruct (H (S j) x' Hx') as [y' Hy'].
      exists y'. rewrite Nat.add_succ_r in Hy'. exact Hy'.
    + rewrite Hys. simpl. eexists; reflexivity.
Qed.

End MapIndexed.

Lemma mapResumes_mapIndexed (fuel : nat) (skillsArray : list jsstring)
    (fileNames : list (option jsstring)) (index : nat)
    (resumeTexts : list TextData) :
  mapResumes fuel skillsArray fileNames index resumeTexts =
  mapIndexed (analyzeResume fuel skillsArray fileNames) index resumeTexts.
Proof.
  revert index; induction resumeTexts as [|textData rest IH]; intros index; simpl.
  - reflexivity.
  - rewrite IH. reflexivity.
Qed.

Lemma analyzeSkills_mapIndexed (fuel : nat) (resumeTexts : list TextData)
    (requiredSkills : jsstring) (fileNames : list (option jsstring)) :
  analyzeSkills fuel resumeTexts requiredSkills fileNames =
  mapIndexed (analyzeResume fuel (skillsArrayOf requiredSkills) fileNames) 0
    resumeTexts.
Proof. apply mapResumes_mapIndexed. Qed.

Lemma analyzeResume_total (fuel : nat) (skillsArray : list jsstring)
    (fileNames : list (option jsstring)) (index : nat) (textData : TextData) :
  Forall (fun skill => skill <> []) skillsArray ->
  longestLine textData < fuel ->
  exists result,
    analyzeResume fuel skillsArray fileNames index textData = Some result.
Proof.
  intros Hall Hfuel. unfold analyzeResume.
  destruct (forEachSkill_total fuel textData skillsArray [] [] Hall Hfuel)
    as [found ->].
  simpl. eexists; reflexivity.
Qed.

Lemma analyzeResume_mono (fuel fuel' : nat) (skillsArray : list jsstring)
    (fileNames : list (option jsstring)) (index : nat) (textData : TextData)
    (result : ResumeResult) :
  fuel <= fuel' ->
  analyzeResume fuel skillsArray fileNames index textData = Some result ->
  analyzeResume fuel' skillsArray fileNames index textData = Some result.
Proof.
  intros Hle. unfold analyzeResume.
  destruct (forEachSkill fuel textData skillsArray [] []) as [found|] eqn:E;
    simpl; [|discriminate].
  rewrite (forEachSkill_mono _ _ _ _ _ _ _ Hle E). trivial.
Qed.

(** The file names reach a result through its [fileName] only. *)
Lemma analyzeResume_fileNames (fuel : nat) (skillsArray : list jsstring)
    (fileNames fileNames' : list (option jsstring)) (index index' : nat)
    (textData : TextData) :
  orElse (nameAt fileNames index) (defaultFileName index)
    = orElse (nameAt fileNames' index') (defaultFileName index') ->
  analyzeResume fuel skillsArray fileNames index textData
    = analyzeResume fuel skillsArray fileNames' index' textData.
Proof.
  intros H. unfold analyzeResume. rewrite H. reflexivity.
Qed.

Lemma analyzeResume_fileName (fuel : nat) (skillsArray : list jsstring)
    (fileNames : list (option jsstring)) (index : nat) (textData : TextData)
    (result : ResumeResult) :
  analyzeResume fuel skillsArray fileNames index textData = Some result ->
  fileName result = orElse (nameAt fileNames index) (defaultFileName index).
Proof.
  unfold analyzeResume.
  destruct (forEachSkill fuel textData skillsArray [] []); simpl; [|discriminate].
  intros [= <-]. reflexivity.
Qed.

Lemma analyzeResume_partition (fuel : nat) (skillsArray : list jsstring)
    (fileNames : list (option jsstring)) (index : nat) (textData : TextData)
    (result : ResumeResult) :
  analyzeResume fuel skillsArray fileNames index textData = Some result ->
  Permutation (map skill (matched result) ++ missing result) skillsArray /\
  List.length (matched result) + List.length (missing result)
    = List.length skillsArray.
Proof.
  unfold analyzeResume.
  destruct (forEachSkill fuel textData skillsArray [] []) as [[m n]|] eqn:E;
    simpl; [|discriminate].
  intros [= <-]. simpl. apply forEachSkill_partition in E. exact E.
Qed.

Lemma enoughFuel_bound (resumeTexts : list TextData) (textData : TextData) :
  In textData resumeTexts -> longestLine textData < enoughFuel resumeTexts.
Proof.
  unfold enoughFuel. induction resumeTexts as [|t ts IH]; simpl.
  - intros [].
  - intros [->|Hin]; [lia|]. specialize (IH Hin). lia.
Qed.

(** With no blank skill, [enoughFuel] iterations per loop are enough for
    the whole batch. *)
Lemma analyzeSkills_total (fuel : nat) (resumeTexts : list TextData)
    (requiredSkills : jsstring) (fileNames : list (option jsstring)) :
  noBlankSkill requiredSkills = true ->
  enoughFuel resumeTexts <= fuel ->
  exists results,
    analyzeSkills fuel resumeTexts requiredSkills fileNames = Some results.
Proof.
  intros Hnb Hfuel. rewrite analyzeSkills_mapIndexed.
  apply mapIndexed_total. intros j textData Hj.
  apply analyzeResume_total.
  - apply noBlankSkill_skillsArray, Hnb.
  - apply nth_error_In in Hj. apply enoughFuel_bound in Hj. lia.
Qed.

Lemma split_length (sep : JSString.codeUnit) (s : jsstring) :
  List.length (JSString.split sep s) = S (count_occ N.eq_dec s sep).
Proof.
  induction s as [|c s IH]; simpl.
  - reflexivity.
  - destruct (N.eqb_spec c sep) as [->|Hne].
    + destruct (N.eq_dec sep sep); [|congruence]. simpl. congruence.
    + destruct (N.eq_dec c sep); [congruence|].
      destruct (JSString.split sep s); simpl in *; congruence.
Qed.

Lemma mapIndexed_In {A B : Type} (f : nat -> A -> option B) (index : nat)
    (xs : list A) (ys : list B) (y : B) :
  mapIndexed f index xs = Some ys ->
  In y ys ->
  exists j x, nth_error xs j = Some x /\ f (index + j) x = Some y.
Proof.
  revert index ys; induction xs as [|x xs IH]; intros index ys; simpl.
  - intros [= <-] [].
  - destruct (f index x) as [y0|] eqn:Ey; simpl; [|discriminate].
    destruct (mapIndexed f (S index) xs) as [ys'|] eqn:Eys; simpl; [|discriminate].
    intros [= <-] [<-|Hin].
    + exists 0, x. rewrite Nat.add_0_r. auto.
    + destruct (IH _ _ Eys Hin) as (j & x' & Hx' & Hf).
      exists (S j), x'. rewrite Nat.add_succ_r. auto.
Qed.

Lemma forEachSkill_blank (fuel : nat) (textData : TextData)
    (skills : list jsstring) (matched0 : list SkillMatch)
    (missing0 : list jsstring) :
  lines textData <> [] ->
  In [] skills ->
  forEachSkill fuel textData skills matched0 missing0 = None.
Proof.
  intros Hlines. revert matched0 missing0.
  induction skills as [|sk skills IH]; intros matched0 missing0; simpl.
  - intros [].
  - intros [->|Hin].
    + rewrite (findSkillOccurrences_empty fuel textData Hlines). reflexivity.
    + destruct (findSkillOccurrences fuel textData sk) as [occs|]; simpl;
        [|reflexivity].
      destruct (0 <? List.length occs); apply IH; assumption.
Qed.

Lemma noBlankSkill_false (requiredSkills : jsstring) :
  noBlankSkill requiredSkills = false -> In [] (skillsArrayOf requiredSkills).
Proof.
  unfold noBlankSkill, skillsArrayOf. intros H.
  destruct (forallb _ _) eqn:E in H; [discriminate|]. clear H.
  induction (JSString.split (JSString.code ",") requiredSkills) as [|piece pieces IH]; simpl in *.
  - discriminate.
  - apply andb_false_iff in E. destruct E as [E|E].
    + left. unfold isBlank in E. destruct (JSString.trim piece);
        [reflexivity | discriminate].
    + right. apply IH, E.
Qed.

(** A blank skill keeps the scorer from returning on any resume that has
    a line. *)
Lemma analyzeSkills_blank (fuel : nat) (textData : TextData)
    (rest : list TextData) (requiredSkills : jsstring)
    (fileNames : list (option jsstring)) :
  noBlankSkill requiredSkills = false ->
  lines textData <> [] ->
  analyzeSkills fuel (textData :: rest) requiredSkills fileNames = None.
Proof.
  intros Hb Hlines. unfold analyzeSkills. simpl. unfold analyzeResume.
  rewrite (forEachSkill_blank fuel textData _ [] [] Hlines
             (noBlankSkill_false _ Hb)).
  reflexivity.
Qed.

(** ** The claims about the locator and the deterministic scorer *)

(** C1 (the code departs from it).  The claim: [find] terminates for every
    skill, the empty one included, answers the empty sequence for it, and
    the scorer lists it as missing.  The code: on a text that has a line
    (every extracted text has one), the loop of the first line finds the
    empty skill at position 0, advances by its length, 0, and finds it at
    position 0 again; no amount of fuel lets [findSkillOccurrences]
    return, nor [analyzeSkills] on a skills string with a blank piece. *)
Theorem findSkillOccurrences_empty_skill_never_returns (textData : TextData) :
  lines textData <> [] ->
  neverReturns (fun fuel => findSkillOccurrences fuel textData (js "")) /\
  forall rest requiredSkills fileNames,
    noBlankSkill requiredSkills = false ->
    neverReturns
      (fun fuel =>
         analyzeSkills fuel (textData :: rest) requiredSkills fileNames).
Proof.
  intros Hlines. split.
  - intros fuel. apply findSkillOccurrences_empty, Hlines.
  - intros rest requiredSkills fileNames Hb fuel.
    apply analyzeSkills_blank; assumption.
Qed.

Lemma findSkillOccurrences_empty_skill_never_returns_witness :
  neverReturns (fun fuel => findSkillOccurrences fuel Sample.aaaa (js "")) /\
  neverReturns
    (fun fuel => analyzeSkills fuel [Sample.aaaa] (js "aa,") [None]).
Proof.
  destruct (findSkillOccurrences_empty_skill_never_returns Sample.aaaa)
    as [Hfind Hscore]; [discriminate|].
  split; [exact Hfind|]. apply Hscore. reflexivity.
Defined.

(** C5 (the code departs from it).  The claim: for every non-empty skill
    list the scorer splits the requested skills between [matched] and
    [missing].  The code: "Python," asks for two skills, "Python" and the
    empty one; the scan for the empty skill never finishes (the defect of
    C1), so the scorer returns no result and nothing is split. *)
Theorem analyzeSkills_trailing_comma_never_returns :
  skillsArrayOf (js "Python,") = [js "Python"; js ""] /\
  neverReturns
    (fun fuel => analyzeSkills fuel [Sample.resume] (js "Python,") [None]).
Proof.
  split; [reflexivity|]. intros fuel.
  apply analyzeSkills_blank; [reflexivity | discriminate].
Qed.

(** X22.  Every result the deterministic scorer returns splits the
    requested skills exactly: the skills of [matched] together with
    [missing] are a rearrangement of the requested list, so the two
    lengths add up to the number of requested skills, one per
    comma-separated piece (a repeated skill counts once per appearance).
    With no blank skill the scorer returns such a result for every resume
    of the batch. *)
Theorem analyzeSkills_partitions_skills (fuel : nat)
    (resumeTexts : list TextData) (requiredSkills : jsstring)
    (fileNames : list (option jsstring)) :
  (forall results result,
     analyzeSkills fuel resumeTexts requiredSkills fileNames = Some results ->
     In result results ->
     Permutation (map skill (matched result) ++ missing result)
                 (skillsArrayOf requiredSkills) /\
     List.length (matched result) + List.length (missing result)
       = List.length (skillsArrayOf requiredSkills) /\
     List.length (skillsArrayOf requiredSkills)
       = S (count_occ N.eq_dec requiredSkills (JSString.code ","))) /\
  (noBlankSkill requiredSkills = true ->
   enoughFuel resumeTexts <= fuel ->
   exists results,
     analyzeSkills fuel resumeTexts requiredSkills fileNames = Some results /\
     List.length results = List.length resumeTexts).
Proof.
  split.
  - intros results result Hrun Hin. rewrite analyzeSkills_mapIndexed in Hrun.
    destruct (mapIndexed_In _ _ _ _ _ Hrun Hin) as (j & textData & _ & Hres).
    apply analyzeResume_partition in Hres. destruct Hres as [Hperm Hlen].
    repeat split; try assumption.
    unfold skillsArrayOf. rewrite length_map. apply split_length.
  - intros Hnb Hfuel.
    destruct (analyzeSkills_total fuel resumeTexts requiredSkills fileNames
                Hnb Hfuel) as [results Hrun].
    exists results. split; [assumption|].
    rewrite analyzeSkills_mapIndexed in Hrun.
    apply (mapIndexed_nth _ _ _ _ Hrun).
Qed.

Lemma analyzeSkills_partitions_skills_witness :
  exists result,
    analyzeSkills 50 [Sample.resume] (js "Python, SQL, Go, SQL") [None]
      = Some [result] /\
    map skill (matched result) = [js "Python"; js "SQL"; js "SQL"] /\
    missing result = [js "Go"] /\
    List.length (matched result) + List.length (missing result) = 4.
Proof.
  destruct (analyzeSkills_partitions_skills 50 [Sample.resume]
              (js "Python, SQL, Go, SQL") [None]) as [Hpart Htotal].
  assert (enoughFuel [Sample.resume] <= 50) as Hfuel by (vm_compute; lia).
  destruct (Htotal eq_refl Hfuel) as (results & Hrun & Hlen).
  destruct results as [|result [|]]; try discriminate Hlen.
  exists result. split; [exact Hrun|].
  destruct (Hpart _ result Hrun (or_introl eq_refl)) as (_ & Hsum & _).
  vm_compute in Hrun. injection Hrun as <-.
  repeat split.
Defined.

(** C10.  In the deterministic scorer the result of the resume at index
    [i] whose file name is absent or empty is named "Resume " followed by
    [i + 1] in decimal; with no blank skill the scorer does return the
    results. *)
Theorem analyzeSkills_default_fileName (fuel : nat)
    (resumeTexts : list TextData) (requiredSkills : jsstring)
    (fileNames : list (option jsstring)) (i : nat) (textData : TextData) :
  nth_error resumeTexts i = Some textData ->
  named (nameAt fileNames i) = false ->
  (forall results,
     analyzeSkills fuel resumeTexts requiredSkills fileNames = Some results ->
     exists result,
       nth_error results i = Some result /\
       fileName result = js "Resume " ++ JSString.ofNat (i + 1)) /\
  (noBlankSkill requiredSkills = true ->
   enoughFuel resumeTexts <= fuel ->
   exists results,
     analyzeSkills fuel resumeTexts requiredSkills fileNames = Some results).
Proof.
  intros Hi Hname. split.
  - intros results Hrun. rewrite analyzeSkills_mapIndexed in Hrun.
    destruct (mapIndexed_nth _ _ _ _ Hrun) as [_ Hnth].
    destruct (Hnth i textData Hi) as (result & Hres & Hf).
    exists result. split; [assumption|].
    rewrite (analyzeResume_fileName _ _ _ _ _ _ Hf). simpl.
    destruct (nameAt fileNames i) as [[|c s]|]; try discriminate; reflexivity.
  - apply analyzeSkills_total.
Qed.

Lemma analyzeSkills_default_fileName_witness :
  exists results result,
    analyzeSkills 50 [Sample.aaaa; Sample.resume] (js "sql")
      [Some (js "cv.pdf"); Some (js "")] = Some results /\
    nth_error results 1 = Some result /\
    fileName result = js "Resume 2".
Proof.
  destruct (analyzeSkills_default_fileName 50 [Sample.aaaa; Sample.resume]
              (js "sql") [Some (js "cv.pdf"); Some (js "")] 1 Sample.resume
              eq_refl eq_refl) as [Hname Htotal].
  destruct Htotal as [results Hrun]; [reflexivity | vm_compute; lia |].
  destruct (Hname results Hrun) as (result & Hres & Hfile).
  exists results, result. auto.
Defined.

Lemma concatOptions_In {A B : Type} (f : A -> option (list B)) (ls : list A)
    (xs : list B) (x : B) :
  concatOptions (map f ls) = Some xs ->
  In x xs ->
  exists l ys, In l ls /\ f l = Some ys /\ In x ys.
Proof.
  revert xs; induction ls as [|l ls IH]; intros xs; simpl.
  - intros [= <-] [].
  - destruct (f l) as [ys|] eqn:E; simpl; [|discriminate].
    destruct (concatOptions (map f ls)) as [zs|]; simpl; [|discriminate].
    intros [= <-] Hin. apply in_app_or in Hin. destruct Hin as [Hin|Hin].
    + exists l, ys. auto.
    + destruct (IH _ eq_refl Hin) as (l' & ys' & Hl' & Hf & Hx).
      exists l', ys'. auto.
Qed.

Lemma ForallOrdPairs_weaken {A : Type} (P Q : A -> A -> Prop) (l : list A) :
  (forall a b, P a b -> Q a b) -> ForallOrdPairs P l -> ForallOrdPairs Q l.
Proof.
  intros HPQ. induction 1 as [|a l Ha Hl IH]; constructor.
  - eapply Forall_impl; [|exact Ha]. apply HPQ.
  - exact IH.
Qed.

(** C6.  Within a line the loop keeps the leftmost match at or after its
    start and resumes right behind it, at [p + skillLower.length]: the
    occurrences it pushes are those of the positions of such a greedy scan
    from 0, one occurrence per position.  So the occurrences of a text are
    those of the greedy scans of its lines, line after line; two positions
    of a line are at least the length of the skill apart (no two matches
    overlap), and a repeat that starts where the previous match ends is
    kept.  The lowered skill is as long as the skill, unless the skill
    holds a U+0130.  For a non-empty skill the locator does return, within
    [longest line + 1] iterations per line.  "aa" in "aaaa" is found at 0
    and at 2: two occurrences. *)
Theorem findSkillOccurrences_resumes_behind_each_match (fuel : nat)
    (textData : TextData) (skill : jsstring) :
  (forall line occurrences result,
     scanLine fuel line (JSString.toLowerCase (content line))
       (JSString.toLowerCase skill) 0 occurrences = Some result ->
     exists ps,
       result
         = occurrences ++ map (occurrenceAt line (JSString.toLowerCase skill)) ps /\
       GreedyMatches (JSString.toLowerCase (content line))
         (JSString.toLowerCase skill) 0 ps) /\
  (forall occs,
     findSkillOccurrences fuel textData skill = Some occs ->
     exists positions,
       occs
         = occurrencesAt (JSString.toLowerCase skill) (lines textData)
             positions /\
       Forall2
         (fun line ps =>
            GreedyMatches (JSString.toLowerCase (content line))
              (JSString.toLowerCase skill) 0 ps /\
            ForallOrdPairs
              (fun p q =>
                 (p + JSString.length (JSString.toLowerCase skill) <= q)%Z)
              ps /\
            ForallOrdPairs (fun p q => (p + JSString.length skill <= q)%Z) ps)
         (lines textData) positions) /\
  (~ In JSString.capitalDottedI skill ->
   JSString.length (JSString.toLowerCase skill) = JSString.length skill) /\
  (skill <> [] ->
   longestLine textData < fuel ->
   exists occs, findSkillOccurrences fuel textData skill = Some occs) /\
  (findSkillOccurrences 3 Sample.aaaa (js "aa")
   = Some (occurrencesAt (js "aa") (lines Sample.aaaa) [[0; 2]%Z]) /\
   option_map (@List.length Occurrence)
     (findSkillOccurrences 3 Sample.aaaa (js "aa")) = Some 2).
Proof.
  assert (forall n line start occurrences result,
            (0 <= start
             <= JSString.length (JSString.toLowerCase (content line)))%Z ->
            scanLine n line (JSString.toLowerCase (content line))
              (JSString.toLowerCase skill) start occurrences = Some result ->
            exists ps,
              result
                = occurrences
                  ++ map (occurrenceAt line (JSString.toLowerCase skill)) ps /\
              GreedyMatches (JSString.toLowerCase (content line))
                (JSString.toLowerCase skill) start ps) as Hloop.
  { induction n as [|n IH]; intros line start occurrences result Hs; simpl;
      [discriminate|].
    destruct (Z.eqb_spec
                (JSString.indexOf (JSString.toLowerCase (content line))
                   (JSString.toLowerCase skill) start) (-1)) as [E|E].
    - intros [= <-]. exists []. split; [rewrite app_nil_r; reflexivity|].
      constructor. intros q Hq. apply (JSStringFacts.indexOf_none _ _ _ E).
      rewrite JSStringFacts.clamp_inside by assumption. assumption.
    - pose proof (JSStringFacts.indexOf_found _ _ _ E)
        as (Hle & Hlen & Hm & Hmin).
      rewrite JSStringFacts.clamp_inside in Hle, Hmin by assumption.
      intros Hrun. apply IH in Hrun; [|unfold JSString.length in *; lia].
      destruct Hrun as (ps & -> & Hps). eexists (_ :: ps). split.
      + rewrite <- app_assoc. reflexivity.
      + constructor; assumption. }
  assert (forall ls occurrences occs,
            forEachLine fuel (JSString.toLowerCase skill) ls occurrences
              = Some occs ->
            exists positions,
              occs
                = occurrences
                  ++ occurrencesAt (JSString.toLowerCase skill) ls positions /\
              Forall2
                (fun line ps =>
                   GreedyMatches (JSString.toLowerCase (content line))
                     (JSString.toLowerCase skill) 0 ps) ls positions)
    as Hlines.
  { induction ls as [|line ls IH]; intros occurrences occs; simpl.
    - intros [= <-]. exists []. split; [rewrite app_nil_r; reflexivity|].
      constructor.
    - destruct (scanLine fuel line _ _ 0 occurrences) as [occurrences'|]
        eqn:Eline; simpl; [|discriminate].
      intros Hrest. apply Hloop in Eline; [|unfold JSString.length; lia].
      destruct Eline as (ps & -> & Hps).
      apply IH in Hrest. destruct Hrest as (positions & -> & Hall).
      exists (ps :: positions). split; [|constructor; assumption].
      unfold occurrencesAt. simpl. rewrite <- app_assoc. reflexivity. }
  split; [|split; [|split; [|split]]].
  - intros line occurrences result. apply Hloop. unfold JSString.length. lia.
  - intros occs Hrun. unfold findSkillOccurrences in Hrun.
    apply Hlines in Hrun. destruct Hrun as (positions & -> & Hall).
    exists positions. split; [reflexivity|].
    eapply Forall2_impl; [|exact Hall]. intros line ps Hps.
    pose proof (GreedyMatches_apart _ _ _ _ Hps) as Hapart.
    split; [exact Hps|]. split; [exact Hapart|].
    eapply ForallOrdPairs_weaken; [|exact Hapart]. intros p q Hpq.
    pose proof (JSStringFacts.length_toLowerCase_bounds skill).
    unfold JSString.length in *. lia.
  - intros Hfree. unfold JSString.length.
    rewrite (JSStringFacts.length_toLowerCase _ Hfree). reflexivity.
  - apply findSkillOccurrences_total.
  - split; reflexivity.
Qed.

Lemma findSkillOccurrences_resumes_behind_each_match_witness :
  exists occs,
    findSkillOccurrences 9 (structureText (js "gogo go")) (js "Go")
      = Some occs /\
    occs
      = occurrencesAt (js "go") (lines (structureText (js "gogo go")))
          [[0; 2; 5]%Z].
Proof.
  destruct (findSkillOccurrences_resumes_behind_each_match 9
              (structureText (js "gogo go")) (js "Go"))
    as (_ & _ & _ & Htotal & _).
  destruct Htotal as [occs Hoccs]; [discriminate | vm_compute; lia |].
  exists occs. split; [exact Hoccs|].
  vm_compute in Hoccs. injection Hoccs as <-. reflexivity.
Defined.

(** C7 (the code departs from it).  The claim: the context reaches at most
    30 characters before the match and 30 after it, within the line.  The
    code finds the match in the lowered line and cuts the window, at that
    position, out of the line itself; the two agree only as long as
    lowering keeps every character in its place.  After twenty U+0130,
    each lowered to two code units, "python" stands at position 20 of the
    line but is found at position 40: the context the code cuts runs from
    position 10 to the end of the line, 40 characters past the end of the
    match, where the window of the match ends 30 characters past it.
    After forty U+0130 the window lies past the end of the line and the
    context is empty. *)
Theorem context_window_misplaced_behind_dotted_I :
  JSString.indexOf (JSString.toLowerCase Sample.dottedLine) (js "python") 0
    = 40%Z /\
  JSString.indexOf Sample.dottedLine (js "python") 0 = 20%Z /\
  windowAround Sample.dottedLine 20 6 30
    = repeat JSString.capitalDottedI 20 ++ js "python"
      ++ repeat (JSString.code "x") 30 /\
  findSkillOccurrences 2 (structureText Sample.dottedLine) (js "python")
    = Some [{| occ_lineNumber := 1;
               occ_estimatedPage := 1;
               context :=
                 repeat JSString.capitalDottedI 10 ++ js "python"
                 ++ repeat (JSString.code "x") 40 |}] /\
  findSkillOccurrences 2 (structureText Sample.longDottedLine) (js "python")
    = Some [{| occ_lineNumber := 1;
               occ_estimatedPage := 1;
               context := js "" |}].
Proof. repeat split. Qed.






(** C4 (the code departs from it).  The claim: [matchPercentage] is the
    exact quotient [100 * matched / requested] rounded half up.  The code
    rounds the floating-point product [(matched / requested) * 100]: with
    23 of 40 skills matched the quotient 0.575 is not a binary64 number,
    the product comes out just below 57.5, and [Math.round] answers 57
    where rounding 57.5 half up gives 58. *)
Theorem analyzeSkills_percentage_23_of_40 :
  exists result,
    analyzeSkills 3 [Sample.resumeA] Sample.fortySkills [None]
      = Some [result] /\
    List.length (matched result) = 23 /\
    List.length (skillsArrayOf Sample.fortySkills) = 40 /\
    matchPercentage result = JNum 57 /\
    roundHalfUp 23 40 = 58%Z /\
    PrimFloat.ltb ((JSNumber.ofNat 23 / JSNumber.ofNat 40) * 100) 57.5 = true.
Proof.
  eexists. split; [vm_compute; reflexivity|]. repeat split.
Qed.

(** ** The enhanced scorer *)

Section Enhanced.

Variable JSON_parse : jsstring -> attempt JSValue.

Lemma analyzeSkills_single (fuel : nat) (textData : TextData)
    (requiredSkills : jsstring) (name : option jsstring) :
  analyzeSkills fuel [textData] requiredSkills [name] =
  option_map (fun result => [result])
    (analyzeResume fuel (skillsArrayOf requiredSkills) [name] 0 textData).
Proof.
  unfold analyzeSkills. simpl.
  destruct (analyzeResume fuel _ [name] 0 textData); reflexivity.
Qed.

(** The loop handles the resumes one by one, each on its own. *)
Lemma aiLoop_mapIndexed (fuel : nat) (model : GenerativeModel)
    (requiredSkills : jsstring) (fileNames : list (option jsstring))
    (i : nat) (rest : list TextData) (results : list ResumeResult) :
  aiLoop JSON_parse fuel model requiredSkills fileNames i rest results =
  option_map (app results)
    (mapIndexed (aiResultAt JSON_parse model fuel requiredSkills fileNames)
       i rest).
Proof.
  revert i results; induction rest as [|textData rest IH]; intros i results.
  - simpl. rewrite app_nil_r. reflexivity.
  - cbn [aiLoop mapIndexed]. rewrite analyzeSkills_single.
    unfold aiResultAt at 1.
    destruct (analyzeResume fuel _ [nameAt fileNames i] 0 textData)
      as [basicResult|]; simpl; [|reflexivity].
    rewrite IH.
    destruct (mapIndexed _ (S i) rest); simpl; [|reflexivity].
    rewrite <- app_assoc. reflexivity.
Qed.

Lemma tryJudge_fails (model : GenerativeModel) (i : nat) (prompt : jsstring)
    (basicResult : ResumeResult) :
  JudgeFails JSON_parse model i prompt ->
  tryJudge JSON_parse model i prompt basicResult = None.
Proof.
  unfold tryJudge. intros [message Hcall | text message Hcall Hparse
                          | text Hcall Hparse].
  - rewrite Hcall. reflexivity.
  - rewrite Hcall, Hparse. reflexivity.
  - rewrite Hcall, Hparse. reflexivity.
Qed.

Lemma analyzeResume_returns_for_all_names (fuel : nat)
    (skillsArray : list jsstring) (fileNames fileNames' : list (option jsstring))
    (index index' : nat) (textData : TextData) (result : ResumeResult) :
  analyzeResume fuel skillsArray fileNames index textData = Some result ->
  exists result',
    analyzeResume fuel skillsArray fileNames' index' textData = Some result'.
Proof.
  unfold analyzeResume.
  destruct (forEachSkill fuel textData skillsArray [] []); simpl; [|discriminate].
  intros _. eexists; reflexivity.
Qed.

Lemma analyzeResume_named (fuel : nat) (skillsArray : list jsstring)
    (fileNames : list (option jsstring)) (i : nat) (textData : TextData) :
  named (nameAt fileNames i) = true ->
  analyzeResume fuel skillsArray [nameAt fileNames i] 0 textData
    = analyzeResume fuel skillsArray fileNames i textData.
Proof.
  intros Hname. apply analyzeResume_fileNames. simpl.
  destruct (nameAt fileNames i) as [[|c s]|]; try discriminate. reflexivity.
Qed.

(** Without a blank skill and with [enoughFuel], the enhanced scorer
    returns whenever the deterministic one does. *)
Lemma analyzeSkillsWithAI_returns (genAI : option GoogleGenerativeAI)
    (fuel : nat) (resumeTexts : list TextData) (requiredSkills : jsstring)
    (fileNames : list (option jsstring)) (det : list ResumeResult) :
  analyzeSkills fuel resumeTexts requiredSkills fileNames = Some det ->
  exists results,
    analyzeSkillsWithAI JSON_parse genAI fuel resumeTexts requiredSkills
      fileNames = Some results /\
    List.length results = List.length resumeTexts.
Proof.
  intros Hdet. pose proof Hdet as Hdet'.
  rewrite analyzeSkills_mapIndexed in Hdet'.
  destruct (mapIndexed_nth _ _ _ _ Hdet') as [Hlen Hnth].
  unfold analyzeSkillsWithAI.
  destruct genAI as [[[model|message]]|];
    try (exists det; split; [assumption|congruence]).
  cbn [getGenerativeModel]. rewrite aiLoop_mapIndexed.
  destruct (mapIndexed_total
              (aiResultAt JSON_parse model fuel requiredSkills fileNames)
              0 resumeTexts) as [results Hres].
  - intros j textData Hj. destruct (Hnth j textData Hj) as (d & _ & Hd).
    destruct (analyzeResume_returns_for_all_names _ _ _
                [nameAt fileNames (0 + j)] _ 0 _ _ Hd) as [basic Hbasic].
    unfold aiResultAt. rewrite Hbasic. simpl. eexists; reflexivity.
  - rewrite Hres. simpl. exists results. split; [reflexivity|].
    apply (mapIndexed_nth _ _ _ _ Hres).
Qed.

Lemma analyzeSkillsWithAI_blank (genAI : option GoogleGenerativeAI)
    (fuel : nat) (textData : TextData) (rest : list TextData)
    (requiredSkills : jsstring) (fileNames : list (option jsstring)) :
  noBlankSkill requiredSkills = false ->
  lines textData <> [] ->
  analyzeSkillsWithAI JSON_parse genAI fuel (textData :: rest) requiredSkills
    fileNames = None.
Proof.
  intros Hb Hlines. unfold analyzeSkillsWithAI.
  destruct genAI as [[[model|message]]|];
    try (apply analyzeSkills_blank; assumption).
  cbn [getGenerativeModel aiLoop]. rewrite (analyzeSkills_blank fuel textData [] _ _ Hb Hlines).
  reflexivity.
Qed.

End Enhanced.

(** C9.  Without a client ([genAI] is [null]) the enhanced scorer is the
    deterministic scorer: it returns what [analyzeSkills] returns on the
    batch, that is, the deterministic result of every resume at its index,
    and it fails to return exactly when [analyzeSkills] does. *)
Theorem analyzeSkillsWithAI_without_client
    (JSON_parse : jsstring -> attempt JSValue) (fuel : nat)
    (resumeTexts : list TextData) (requiredSkills : jsstring)
    (fileNames : list (option jsstring)) :
  analyzeSkillsWithAI JSON_parse None fuel resumeTexts requiredSkills fileNames
    = analyzeSkills fuel resumeTexts requiredSkills fileNames /\
  analyzeSkillsWithAI JSON_parse None fuel resumeTexts requiredSkills fileNames
    = mapIndexed
        (analyzeResume fuel (skillsArrayOf requiredSkills) fileNames) 0
        resumeTexts.
Proof.
  split.
  - reflexivity.
  - unfold analyzeSkillsWithAI. apply analyzeSkills_mapIndexed.
Qed.

(** C2, as the code has it.  When request [i] throws, or its reply is not
    JSON or is the JSON [null], the result of resume [i] is the result the
    deterministic scorer computes for that resume alone, which is its
    result within the batch when the resume has a file name; the enhanced
    scorer returns whenever the deterministic one does.  The other results
    do not depend on request [i]: a judge that answers the other requests
    alike yields the same results for them.  (A reply that parses is used
    as it is, whatever fields it has.) *)
Theorem analyzeSkillsWithAI_fallback_is_isolated
    (JSON_parse : jsstring -> attempt JSValue) (model : GenerativeModel)
    (fuel : nat) (resumeTexts : list TextData) (requiredSkills : jsstring)
    (fileNames : list (option jsstring)) (det : list ResumeResult)
    (i : nat) (textData : TextData) :
  analyzeSkills fuel resumeTexts requiredSkills fileNames = Some det ->
  nth_error resumeTexts i = Some textData ->
  JudgeFails JSON_parse model i (promptFor requiredSkills textData) ->
  exists results basic,
    analyzeSkillsWithAI JSON_parse
      (Some {| getGenerativeModel := Ok model |}) fuel resumeTexts
      requiredSkills fileNames = Some results /\
    analyzeSkills fuel [textData] requiredSkills [nameAt fileNames i]
      = Some [basic] /\
    nth_error results i = Some basic /\
    (named (nameAt fileNames i) = true -> nth_error det i = Some basic) /\
    forall model',
      (forall n prompt, n <> i ->
         generateContent model' n prompt = generateContent model n prompt) ->
      exists results',
        analyzeSkillsWithAI JSON_parse
          (Some {| getGenerativeModel := Ok model' |}) fuel resumeTexts
          requiredSkills fileNames = Some results' /\
        forall j, j <> i -> nth_error results' j = nth_error results j.
Proof.
  intros Hdet Hi Hfails.
  destruct (analyzeSkillsWithAI_returns JSON_parse
              (Some {| getGenerativeModel := Ok model |}) _ _ _ _ _ Hdet)
    as (results & Hres & Hlen).
  pose proof Hres as Hres1. unfold analyzeSkillsWithAI in Hres1.
  cbn [getGenerativeModel] in Hres1. rewrite aiLoop_mapIndexed in Hres1.
  destruct (mapIndexed _ 0 resumeTexts) as [rs|] eqn:Hmap; [|discriminate].
  simpl in Hres1. injection Hres1 as <-.
  destruct (mapIndexed_nth _ _ _ _ Hmap) as [_ Hnth].
  rewrite analyzeSkills_mapIndexed in Hdet.
  destruct (mapIndexed_nth _ _ _ _ Hdet) as [Hdlen Hdnth].
  destruct (Hnth i textData Hi) as (r & Hr & Hai).
  simpl in Hai. unfold aiResultAt in Hai.
  destruct (analyzeResume fuel (skillsArrayOf requiredSkills)
              [nameAt fileNames i] 0 textData) as [basic|] eqn:Hbasic;
    [|discriminate].
  simpl in Hai. unfold judged in Hai.
  rewrite (tryJudge_fails _ _ _ _ _ Hfails) in Hai. injection Hai as <-.
  exists rs, basic. repeat split.
  - assumption.
  - rewrite analyzeSkills_single, Hbasic. reflexivity.
  - assumption.
  - intros Hname. destruct (Hdnth i textData Hi) as (d & Hd & Han).
    simpl in Han. rewrite <- (analyzeResume_named _ _ _ _ _ Hname) in Han.
    congruence.
  - intros model' Hsame.
    destruct (analyzeSkillsWithAI_returns JSON_parse
                (Some {| getGenerativeModel := Ok model' |}) fuel resumeTexts
                requiredSkills fileNames det)
      as (results' & Hres' & Hlen').
    { rewrite analyzeSkills_mapIndexed. assumption. }
    exists results'. split; [assumption|].
    unfold analyzeSkillsWithAI in Hres'.
    cbn [getGenerativeModel] in Hres'. rewrite aiLoop_mapIndexed in Hres'.
    destruct (mapIndexed _ 0 resumeTexts) as [rs'|] eqn:Hmap' in Hres';
      [|discriminate].
    simpl in Hres'. injection Hres' as <-.
    destruct (mapIndexed_nth _ _ _ _ Hmap') as [Hlen'' Hnth'].
    intros j Hj. destruct (nth_error resumeTexts j) as [tj|] eqn:Htj.
    + destruct (Hnth j tj Htj) as (r & Hr0 & Hai).
      destruct (Hnth' j tj Htj) as (r' & Hr' & Hai').
      rewrite Hr0, Hr'. f_equal. simpl in Hai, Hai'.
      unfold aiResultAt, judged, tryJudge in Hai, Hai'.
      rewrite (Hsame j _ Hj) in Hai'. congruence.
    + apply nth_error_None in Htj.
      assert (nth_error rs j = None) as -> by (apply nth_error_None; simpl in *; lia).
      apply nth_error_None. simpl in *. lia.
Qed.

Lemma analyzeSkillsWithAI_fallback_is_isolated_witness :
  exists results basic,
    analyzeSkillsWithAI Sample.parseReply
      (Some {| getGenerativeModel := Ok (Sample.judgeFailingAt 1 (js "{}")) |})
      50 [Sample.resumeA; Sample.resume] (js "a")
      [Some (js "a.pdf"); Some (js "b.pdf")] = Some results /\
    analyzeSkills 50 [Sample.resume] (js "a")
      [nameAt [Some (js "a.pdf"); Some (js "b.pdf")] 1] = Some [basic] /\
    nth_error results 1 = Some basic /\
    (named (nameAt [Some (js "a.pdf"); Some (js "b.pdf")] 1) = true ->
     nth_error
       (Sample.finished
          (analyzeSkills 50 [Sample.resumeA; Sample.resume] (js "a")
             [Some (js "a.pdf"); Some (js "b.pdf")])) 1 = Some basic) /\
    forall model',
      (forall n prompt, n <> 1 ->
         generateContent model' n prompt
           = generateContent (Sample.judgeFailingAt 1 (js "{}")) n prompt) ->
      exists results',
        analyzeSkillsWithAI Sample.parseReply
          (Some {| getGenerativeModel := Ok model' |})
          50 [Sample.resumeA; Sample.resume] (js "a")
          [Some (js "a.pdf"); Some (js "b.pdf")] = Some results' /\
        forall j, j <> 1 -> nth_error results' j = nth_error results j.
Proof.
  apply (analyzeSkillsWithAI_fallback_is_isolated Sample.parseReply
           (Sample.judgeFailingAt 1 (js "{}")) 50
           [Sample.resumeA; Sample.resume] (js "a")
           [Some (js "a.pdf"); Some (js "b.pdf")]
           (Sample.finished
              (analyzeSkills 50 [Sample.resumeA; Sample.resume] (js "a")
                 [Some (js "a.pdf"); Some (js "b.pdf")]))
           1 Sample.resume).
  - vm_compute. reflexivity.
  - reflexivity.
  - apply (@CallFails _ _ _ _ (js "fetch failed")). reflexivity.
Defined.

(** C2 as stated fails on a malformed reply: the judge answers [{}], which
    parses; the three fields are read as [undefined] and overwrite the
    deterministic values (100, true, the "Found 1/1" summary). *)
Lemma judge_reply_with_missing_fields_is_used :
  exists result basic,
    analyzeSkillsWithAI Sample.parseReply
      (Some (Sample.judgeSaying (js "{}"))) 3 [Sample.resumeA] (js "a")
      [Some (js "cv.pdf")] = Some [result] /\
    analyzeSkills 3 [Sample.resumeA] (js "a") [Some (js "cv.pdf")]
      = Some [basic] /\
    matchPercentage basic = JNum 100 /\
    eligible basic = JBool true /\
    matchPercentage result = JUndefined /\
    eligible result = JUndefined /\
    summary result = JUndefined.
Proof.
  do 2 eexists. split; [vm_compute; reflexivity|].
  split; [vm_compute; reflexivity|]. repeat split.
Qed.

(** ** The handler *)

Section HandlerFacts.

Variable pdf : list Byte.byte -> attempt jsstring.
Variable JSON_parse : jsstring -> attempt JSValue.
Variable genAI : option GoogleGenerativeAI.

Lemma skills_check_blank (fuel : nat) (files : list File) (skills : jsstring)
    (textData : TextData) (rest : list TextData)
    (fileNames : list (option jsstring)) :
  files <> [] ->
  skills <> [] ->
  extractAll pdf files [] [] = Ok (textData :: rest, fileNames) ->
  noBlankSkill skills = false ->
  lines textData <> [] ->
  skills_check pdf JSON_parse genAI fuel (Some files) (Some skills) = None.
Proof.
  intros Hfiles Hskills Hextract Hb Hlines. unfold skills_check.
  destruct files as [|file files]; [congruence|].
  destruct skills as [|c skills]; [congruence|].
  cbn [isEmptyList]. unfold processResumes. rewrite Hextract.
  rewrite (analyzeSkillsWithAI_blank JSON_parse genAI fuel _ _ _ _ Hb Hlines).
  reflexivity.
Qed.

End HandlerFacts.

(** C3, as the code has it.  The handler answers 400 (and computes no
    report), whatever fuel, pdf-parse and judge it runs with, when no file
    was uploaded or the skills string is absent or empty. *)
Theorem skills_check_rejects_missing_input
    (pdf : list Byte.byte -> attempt jsstring)
    (JSON_parse : jsstring -> attempt JSValue)
    (genAI : option GoogleGenerativeAI) (fuel : nat)
    (files : option (list File)) (skills : option jsstring) :
  (files = None \/ files = Some []) \/ (skills = None \/ skills = Some []) ->
  exists message,
    skills_check pdf JSON_parse genAI fuel files skills
      = Some (BadRequest message).
Proof.
  unfold skills_check.
  intros [[-> | ->] | [-> | ->]]; simpl; try (eexists; reflexivity);
    destruct files as [[|file files]|]; simpl; eexists; reflexivity.
Qed.

Lemma skills_check_rejects_missing_input_witness :
  exists message,
    skills_check Sample.pdfText Sample.parseReply None 0
      (Some [Sample.file "abc" (Some (js "cv.pdf"))]) (Some (js ""))
      = Some (BadRequest message).
Proof.
  apply (skills_check_rejects_missing_input Sample.pdfText Sample.parseReply
           None 0 (Some [Sample.file "abc" (Some (js "cv.pdf"))])
           (Some (js ""))).
  right. right. reflexivity.
Defined.

(** C3 as stated fails on a blank skills string: " " is not falsy, so the
    guard lets it through; it splits into the single skill "", and the
    scan for it never finishes: the handler sends no response at all, a
    400 included. *)
Lemma skills_check_blank_skills_not_rejected :
  neverReturns
    (fun fuel =>
       skills_check Sample.pdfText Sample.parseReply None fuel
         (Some [Sample.file "abc" (Some (js "cv.pdf"))]) (Some (js " "))).
Proof.
  intros fuel.
  apply (skills_check_blank Sample.pdfText Sample.parseReply None fuel
           [Sample.file "abc" (Some (js "cv.pdf"))] (js " ")
           (structureText (js "abc")) [] [Some (js "cv.pdf")]).
  - discriminate.
  - discriminate.
  - vm_compute. reflexivity.
  - reflexivity.
  - discriminate.
Qed.

(** ** Further properties of the scorer and the handler *)

Lemma mapIndexed_mono {A B : Type} (f g : nat -> A -> option B) (index : nat)
    (xs : list A) (ys : list B) :
  (forall j x y, f j x = Some y -> g j x = Some y) ->
  mapIndexed f index xs = Some ys ->
  mapIndexed g index xs = Some ys.
Proof.
  intros Hfg. revert index ys; induction xs as [|x xs IH]; intros index ys; simpl.
  - trivial.
  - destruct (f index x) as [y|] eqn:Ey; simpl; [|discriminate].
    rewrite (Hfg _ _ _ Ey). simpl.
    destruct (mapIndexed f (S index) xs) as [ys'|] eqn:Eys; simpl; [|discriminate].
    rewrite (IH _ _ Eys). trivial.
Qed.

(** X1.  The locator answers for every non-empty skill: [longestLine + 1]
    iterations per line are enough, and more fuel gives the same answer. *)
Theorem findSkillOccurrences_answers_nonempty_skill (fuel : nat)
    (textData : TextData) (skill : jsstring) :
  skill <> [] ->
  longestLine textData < fuel ->
  exists occs,
    findSkillOccurrences fuel textData skill = Some occs /\
    forall fuel', fuel <= fuel' ->
      findSkillOccurrences fuel' textData skill = Some occs.
Proof.
  intros Hne Hfuel.
  destruct (findSkillOccurrences_total fuel textData skill Hne Hfuel)
    as [occs Hoccs].
  exists occs. split; [assumption|].
  intros fuel' Hle. apply (findSkillOccurrences_mono fuel); assumption.
Qed.

Lemma findSkillOccurrences_answers_nonempty_skill_witness :
  exists occs,
    findSkillOccurrences 50 Sample.resume (js "rust") = Some occs /\
    forall fuel', 50 <= fuel' ->
      findSkillOccurrences fuel' Sample.resume (js "rust") = Some occs.
Proof.
  apply (findSkillOccurrences_answers_nonempty_skill 50 Sample.resume
           (js "rust")).
  - discriminate.
  - vm_compute. lia.
Defined.

(** The result of a run of the deterministic scorer does not depend on
    the fuel. *)
Theorem analyzeSkills_fuel_independent (fuel fuel' : nat)
    (resumeTexts : list TextData) (requiredSkills : jsstring)
    (fileNames : list (option jsstring)) (results : list ResumeResult) :
  fuel <= fuel' ->
  analyzeSkills fuel resumeTexts requiredSkills fileNames = Some results ->
  analyzeSkills fuel' resumeTexts requiredSkills fileNames = Some results.
Proof.
  intros Hle. rewrite !analyzeSkills_mapIndexed. apply mapIndexed_mono.
  intros j textData result. apply analyzeResume_mono, Hle.
Qed.

Lemma analyzeSkills_fuel_independent_witness :
  analyzeSkills 1000 [Sample.aaaa] (js "aa") [None]
    = Some (Sample.finished (analyzeSkills 5 [Sample.aaaa] (js "aa") [None])).
Proof.
  apply (analyzeSkills_fuel_independent 5 1000 [Sample.aaaa] (js "aa") [None]).
  - lia.
  - vm_compute. reflexivity.
Defined.

(** In every result of the deterministic scorer, [matchPercentage] is
    [Math.round((matched / requested) * 100)], [eligible] is
    [matchPercentage >= 60], and the summary counts the same two
    numbers. *)
Theorem analyzeSkills_score_fields (fuel : nat)
    (resumeTexts : list TextData) (requiredSkills : jsstring)
    (fileNames : list (option jsstring)) (results : list ResumeResult)
    (result : ResumeResult) :
  analyzeSkills fuel resumeTexts requiredSkills fileNames = Some results ->
  In result results ->
  matchPercentage result
    = JNum (percentage (List.length (matched result))
              (List.length (skillsArrayOf requiredSkills))) /\
  eligible result
    = JBool (PrimFloat.leb 60
               (percentage (List.length (matched result))
                  (List.length (skillsArrayOf requiredSkills)))) /\
  summary result
    = JStr (js "Found " ++ JSString.ofNat (List.length (matched result))
            ++ js "/"
            ++ JSString.ofNat (List.length (skillsArrayOf requiredSkills))
            ++ js " required skills").
Proof.
  intros Hrun Hin. rewrite analyzeSkills_mapIndexed in Hrun.
  destruct (mapIndexed_In _ _ _ _ _ Hrun Hin) as (j & textData & _ & Hres).
  unfold analyzeResume in Hres.
  destruct (forEachSkill fuel textData _ [] []) as [found|]; simpl in Hres;
    [|discriminate].
  injection Hres as <-. repeat split.
Qed.

(** The example of the specification: skills "Python, SQL, Go" against a
    resume with "python" twice, "sql" once and no "go". *)
Lemma analyzeSkills_score_fields_witness :
  exists result,
    analyzeSkills 50 [Sample.resume] (js "Python, SQL, Go") [None]
      = Some [result] /\
    map (fun m => (skill m, totalOccurrences m)) (matched result)
      = [(js "Python", 2); (js "SQL", 1)] /\
    missing result = [js "Go"] /\
    matchPercentage result = JNum 67 /\
    eligible result = JBool true /\
    summary result = JStr (js "Found 2/3 required skills").
Proof.
  destruct (analyzeSkills 50 [Sample.resume] (js "Python, SQL, Go") [None])
    as [[|result [|]]|] eqn:Hrun; try (vm_compute in Hrun; discriminate).
  exists result. split; [reflexivity|].
  destruct (analyzeSkills_score_fields 50 [Sample.resume]
              (js "Python, SQL, Go") [None] [result] result Hrun
              (or_introl eq_refl)) as (Hp & He & Hs).
  rewrite Hp, He, Hs.
  vm_compute in Hrun. injection Hrun as <-. repeat split.
Defined.

Lemma extractAll_length (pdf : list Byte.byte -> attempt jsstring)
    (files : list File) (resumeTexts0 resumeTexts : list TextData)
    (fileNames0 fileNames : list (option jsstring)) :
  extractAll pdf files resumeTexts0 fileNames0 = Ok (resumeTexts, fileNames) ->
  List.length resumeTexts = List.length resumeTexts0 + List.length files /\
  fileNames = fileNames0 ++ map originalname files.
Proof.
  revert resumeTexts0 fileNames0; induction files as [|file files IH];
    intros resumeTexts0 fileNames0; simpl.
  - intros [= <- <-]. rewrite app_nil_r. split; [lia | reflexivity].
  - destruct (extractTextWithLineNumbers pdf (buffer file)); [|discriminate].
    intros H. apply IH in H. destruct H as [Hlen Hnames].
    rewrite length_app in Hlen. simpl in Hlen. rewrite <- app_assoc in Hnames.
    split; [lia | exact Hnames].
Qed.

Lemma analyzeSkillsWithAI_length (JSON_parse : jsstring -> attempt JSValue)
    (genAI : option GoogleGenerativeAI) (fuel : nat)
    (resumeTexts : list TextData) (requiredSkills : jsstring)
    (fileNames : list (option jsstring)) (results : list ResumeResult) :
  analyzeSkillsWithAI JSON_parse genAI fuel resumeTexts requiredSkills
    fileNames = Some results ->
  List.length results = List.length resumeTexts.
Proof.
  unfold analyzeSkillsWithAI.
  destruct genAI as [[[model|message]]|]; cbn [getGenerativeModel];
    try (rewrite analyzeSkills_mapIndexed; intros H;
         apply (mapIndexed_nth _ _ _ _ H)).
  rewrite aiLoop_mapIndexed.
  destruct (mapIndexed _ 0 resumeTexts) as [rs|] eqn:E; [|discriminate].
  simpl. intros [= <-]. apply (mapIndexed_nth _ _ _ _ E).
Qed.

(** X3.  A report is consistent with its own results: one result per uploaded
    file, in the order of the files, [totalResumes] their number and
    [eligibleCount] the number of results whose [eligible] is truthy. *)
Theorem skills_check_report_consistent
    (pdf : list Byte.byte -> attempt jsstring)
    (JSON_parse : jsstring -> attempt JSValue)
    (genAI : option GoogleGenerativeAI) (fuel : nat)
    (files : option (list File)) (skills : option jsstring)
    (totalResumes eligibleCount : nat) (results : list ResumeResult) :
  skills_check pdf JSON_parse genAI fuel files skills
    = Some (Report totalResumes eligibleCount results) ->
  exists uploaded,
    files = Some uploaded /\
    totalResumes = List.length uploaded /\
    List.length results = List.length uploaded /\
    eligibleCount
      = List.length (filter (fun r => JS.truthy (eligible r)) results).
Proof.
  unfold skills_check. destruct files as [uploaded|]; [|discriminate].
  destruct (isEmptyList uploaded); [discriminate|].
  destruct skills as [requiredSkills|]; [|discriminate].
  destruct (isEmptyList requiredSkills); [discriminate|].
  unfold processResumes.
  destruct (extractAll pdf uploaded [] []) as [[resumeTexts fileNames]|]
    eqn:Hextract; [|discriminate].
  destruct (analyzeSkillsWithAI _ _ _ _ _ _) as [rs|] eqn:Hrun; simpl;
    [|discriminate].
  intros [= <- <- <-]. exists uploaded.
  apply extractAll_length in Hextract. destruct Hextract as [Hlen _].
  apply analyzeSkillsWithAI_length in Hrun. simpl in Hlen.
  repeat split; congruence.
Qed.

Lemma skills_check_report_consistent_witness :
  exists uploaded,
    Some [Sample.file "sql and go" (Some (js "a.pdf"));
          Sample.file "cobol" (Some (js "b.pdf"))] = Some uploaded /\
    2 = List.length uploaded /\
    List.length
      (Sample.finished
         (analyzeSkills 20
            [structureText (js "sql and go"); structureText (js "cobol")]
            (js "SQL, Go") [Some (js "a.pdf"); Some (js "b.pdf")]))
      = List.length uploaded /\
    1 = List.length
          (filter (fun r => JS.truthy (eligible r))
             (Sample.finished
                (analyzeSkills 20
                   [structureText (js "sql and go"); structureText (js "cobol")]
                   (js "SQL, Go") [Some (js "a.pdf"); Some (js "b.pdf")]))).
Proof.
  apply (skills_check_report_consistent Sample.pdfText Sample.parseReply None
           20
           (Some [Sample.file "sql and go" (Some (js "a.pdf"));
                  Sample.file "cobol" (Some (js "b.pdf"))])
           (Some (js "SQL, Go"))).
  vm_compute. reflexivity.
Defined.

Lemma linesWithPages_nth (index : nat) (ls : list jsstring) (k : nat)
    (line : LineRecord) :
  nth_error (linesWithPages index ls) k = Some line ->
  exists raw,
    nth_error ls k = Some raw /\
    lineNumber line = index + k + 1 /\
    content line = JSString.trim raw /\
    estimatedPage line = ceilDiv (index + k + 1) linesPerPage.
Proof.
  revert index k; induction ls as [|raw ls IH]; intros index [|k]; simpl;
    try discriminate.
  - intros [= <-]. exists raw. simpl. rewrite Nat.add_0_r. auto.
  - intros H. destruct (IH _ _ H) as (raw' & Hraw & Hn & Hc & Hp).
    exists raw'. replace (index + S k + 1) with (S index + k + 1) by lia. auto.
Qed.

Lemma linesWithPages_length (index : nat) (ls : list jsstring) :
  List.length (linesWithPages index ls) = List.length ls.
Proof.
  revert index; induction ls as [|raw ls IH]; intros index; simpl;
    [reflexivity | rewrite IH; reflexivity].
Qed.

(** X4.  The structured text of a document: one record per line of the text,
    empty lines included, numbered from 1, each holding its trimmed line
    and the page [ceil (lineNumber / 50)], which is at least 1; there is
    at least one line, and [estimatedPages] is [ceil (totalLines / 50)]. *)
Theorem structureText_records_every_line (text : jsstring) :
  List.length (lines (structureText text)) = totalLines (structureText text) /\
  totalLines (structureText text)
    = S (count_occ N.eq_dec text (JSString.code "010")) /\
  estimatedPages (structureText text)
    = (totalLines (structureText text) + 49) / 50 /\
  fullText (structureText text) = text /\
  forall k line,
    nth_error (lines (structureText text)) k = Some line ->
    lineNumber line = k + 1 /\
    estimatedPage line = (k + 1 + 49) / 50 /\
    1 <= estimatedPage line /\
    exists raw,
      nth_error (JSString.split (JSString.code "010") text) k = Some raw /\
      content line = JSString.trim raw.
Proof.
  unfold structureText. cbn [lines totalLines estimatedPages fullText].
  split; [apply linesWithPages_length|].
  split; [apply split_length|].
  split; [reflexivity|]. split; [reflexivity|].
  intros k line H. apply linesWithPages_nth in H.
  destruct H as (raw & Hraw & Hn & Hc & Hp).
  cbn [Nat.add] in Hn, Hp. unfold ceilDiv, linesPerPage in Hp.
  change (50 - 1) with 49 in Hp.
  repeat split; try assumption.
  - rewrite Hp. apply Nat.div_le_lower_bound; lia.
  - exists raw. auto.
Qed.

(** ** What the locator finds *)

Lemma matchAt_occursIn (s needle : jsstring) (p : Z) :
  matchAt s needle p -> occursIn needle s.
Proof.
  intros [_ Hm]. exists (firstn (Z.to_nat p) s),
    (skipn (List.length needle) (skipn (Z.to_nat p) s)).
  rewrite <- Hm at 1. rewrite firstn_skipn, firstn_skipn. reflexivity.
Qed.

Lemma occursIn_matchAt (s needle : jsstring) :
  occursIn needle s -> exists p, matchAt s needle p.
Proof.
  intros (pre & post & ->). exists (Z.of_nat (List.length pre)).
  split; [lia|]. rewrite Nat2Z.id, skipn_app, skipn_all, Nat.sub_diag.
  simpl. rewrite firstn_app, firstn_all, Nat.sub_diag. simpl.
  apply app_nil_r.
Qed.

Lemma GreedyMatches_nil_iff (s needle : jsstring) (ps : list Z) :
  GreedyMatches s needle 0 ps ->
  ps = [] <-> ~ occursIn needle s.
Proof.
  intros Hg. split.
  - intros ->. inversion Hg as [start Hnone|]; subst.
    intros Hin. destruct (occursIn_matchAt _ _ Hin) as [p Hp].
    apply (Hnone p); [destruct Hp; assumption | assumption].
  - intros Hnot. destruct Hg as [|start p ps Hle Hm _ _]; [reflexivity|].
    exfalso. apply Hnot. apply (matchAt_occursIn _ _ _ Hm).
Qed.

Lemma concatOptions_nil_iff {A B : Type} (f : A -> option (list B))
    (ls : list A) (xs : list B) :
  concatOptions (map f ls) = Some xs ->
  xs = [] <-> forall l, In l ls -> f l = Some [].
Proof.
  revert xs; induction ls as [|l ls IH]; intros xs; simpl.
  - intros [= <-]. split; [intros _ l [] | reflexivity].
  - destruct (f l) as [ys|] eqn:E; simpl; [|discriminate].
    destruct (concatOptions (map f ls)) as [zs|]; simpl; [|discriminate].
    intros [= <-]. specialize (IH zs eq_refl). split.
    + intros H. apply app_eq_nil in H. destruct H as [-> ->].
      intros l' [<-|Hin]; [assumption|]. apply IH; [reflexivity|assumption].
    + intros H. pose proof (H l (or_introl eq_refl)) as Hl.
      rewrite E in Hl. injection Hl as ->. simpl. apply IH.
      intros l' Hin. apply H. right. assumption.
Qed.

Lemma concatOptions_each {A B : Type} (f : A -> option (list B))
    (ls : list A) (xs : list B) :
  concatOptions (map f ls) = Some xs ->
  forall l, In l ls -> exists ys, f l = Some ys.
Proof.
  revert xs; induction ls as [|l ls IH]; intros xs; simpl.
  - intros _ l [].
  - destruct (f l) as [ys|] eqn:E; simpl; [|discriminate].
    destruct (concatOptions (map f ls)) as [zs|]; simpl; [|discriminate].
    intros _ l' [<-|Hin]; [eauto|]. apply (IH zs eq_refl l' Hin).
Qed.

Lemma lineOccurrences_nil_iff (fuel : nat) (skill : jsstring)
    (line : LineRecord) (occs : list Occurrence) :
  lineOccurrences fuel (JSString.toLowerCase skill) line = Some occs ->
  occs = [] <-> ~ mentions line skill.
Proof.
  unfold lineOccurrences, linePositions, mentions.
  destruct (scanPositions fuel _ _ 0) as [ps|] eqn:Hps; [|discriminate].
  simpl. intros [= <-].
  apply scanPositions_greedy in Hps; [|unfold JSString.length; lia].
  rewrite <- (GreedyMatches_nil_iff _ _ _ Hps).
  destruct ps; simpl; split; congruence.
Qed.

Lemma lineOccurrences_absent (fuel : nat) (skill : jsstring)
    (line : LineRecord) :
  ~ mentions line skill ->
  1 <= fuel ->
  lineOccurrences fuel (JSString.toLowerCase skill) line = Some [].
Proof.
  unfold lineOccurrences, linePositions, mentions. intros Hnot Hfuel.
  destruct fuel as [|fuel]; [lia|]. simpl.
  destruct (Z.eqb_spec
              (JSString.indexOf (JSString.toLowerCase (content line))
                 (JSString.toLowerCase skill) 0) (-1)) as [E|E].
  - reflexivity.
  - exfalso. apply Hnot.
    destruct (JSStringFacts.indexOf_found _ _ _ E) as (_ & _ & Hm & _).
    apply (matchAt_occursIn _ _ _ Hm).
Qed.

Lemma findSkillOccurrences_empty_iff_not_mentioned_absent (fuel : nat)
    (textData : TextData) (skill : jsstring) :
  (forall line, In line (lines textData) -> ~ mentions line skill) ->
  1 <= fuel ->
  findSkillOccurrences fuel textData skill = Some [].
Proof.
  intros Habsent Hfuel. rewrite findSkillOccurrences_lines.
  induction (lines textData) as [|l ls IH]; simpl; [reflexivity|].
  rewrite (lineOccurrences_absent fuel skill l); auto with datatypes.
  simpl. rewrite IH; [reflexivity|].
  intros line Hin. apply Habsent. right. assumption.
Qed.

(** X5.  A skill is reported with no occurrence exactly when no line of
    the text mentions it, letter case apart; and a skill that no line
    mentions is answered, with the empty sequence, by the first iteration
    of every line's loop. *)
Theorem findSkillOccurrences_empty_iff_not_mentioned (fuel : nat)
    (textData : TextData) (skill : jsstring) :
  (forall occs,
     findSkillOccurrences fuel textData skill = Some occs ->
     occs = [] <->
     forall line, In line (lines textData) -> ~ mentions line skill) /\
  ((forall line, In line (lines textData) -> ~ mentions line skill) ->
   1 <= fuel ->
   findSkillOccurrences fuel textData skill = Some []).
Proof.
  split.
  - intros occs Hrun. rewrite findSkillOccurrences_lines in Hrun.
    rewrite (concatOptions_nil_iff _ _ _ Hrun). split.
    + intros H line Hin. specialize (H line Hin).
      apply (lineOccurrences_nil_iff _ _ _ _ H). reflexivity.
    + intros H line Hin.
      destruct (lineOccurrences fuel (JSString.toLowerCase skill) line)
        as [ys|] eqn:E.
      * f_equal. apply (lineOccurrences_nil_iff _ _ _ _ E). apply H, Hin.
      * destruct (concatOptions_each _ _ _ Hrun line Hin) as [ys' E'].
        congruence.
  - intros Habsent Hfuel. rewrite findSkillOccurrences_lines.
    induction (lines textData) as [|l ls IH]; simpl; [reflexivity|].
    rewrite (lineOccurrences_absent fuel skill l); auto with datatypes.
    simpl. rewrite IH; [reflexivity|].
    intros line Hin. apply Habsent. right. assumption.
Qed.

Lemma findSkillOccurrences_empty_iff_not_mentioned_witness :
  findSkillOccurrences 50 Sample.resume (js "Go") = Some [] /\
  (forall line, In line (lines Sample.resume) -> ~ mentions line (js "Go")).
Proof.
  destruct (findSkillOccurrences_empty_iff_not_mentioned 50 Sample.resume
              (js "Go")) as [Hiff _].
  split; [reflexivity|]. apply (Hiff []); reflexivity.
Defined.

Lemma lineOccurrences_fields (fuel : nat) (skillLower : jsstring)
    (line : LineRecord) (occs : list Occurrence) :
  lineOccurrences fuel skillLower line = Some occs ->
  Forall (fun o => occ_lineNumber o = lineNumber line /\
                   occ_estimatedPage o = estimatedPage line) occs.
Proof.
  unfold lineOccurrences.
  destruct (linePositions fuel skillLower line) as [ps|]; [|discriminate].
  simpl. intros [= <-]. apply Forall_forall. intros o Ho.
  apply in_map_iff in Ho. destruct Ho as (p & <- & _). split; reflexivity.
Qed.

Lemma sorted_block (n : nat) (ys zs : list Occurrence) :
  Forall (fun o => occ_lineNumber o = n) ys ->
  Forall (fun o => n <= occ_lineNumber o) zs ->
  StronglySorted le (map occ_lineNumber zs) ->
  StronglySorted le (map occ_lineNumber (ys ++ zs)).
Proof.
  intros Hys Hzs Hsorted. induction Hys as [|y ys Hy Hys IH]; simpl.
  - assumption.
  - constructor; [assumption|]. rewrite Forall_map, Forall_app. split.
    + eapply Forall_impl; [|exact Hys]. simpl. intros o Ho. lia.
    + eapply Forall_impl; [|exact Hzs]. simpl. intros o Ho. lia.
Qed.

Lemma linesWithPages_sorted (index : nat) (ls : list jsstring) :
  StronglySorted le (map lineNumber (linesWithPages index ls)) /\
  Forall (fun line => index < lineNumber line) (linesWithPages index ls).
Proof.
  revert index; induction ls as [|raw ls IH]; intros index; simpl.
  - split; constructor.
  - destruct (IH (S index)) as [Hsorted Hall]. split.
    + constructor; [assumption|]. rewrite Forall_map.
      eapply Forall_impl; [|exact Hall]. simpl. intros line Hline. lia.
    + constructor; [simpl; lia|].
      eapply Forall_impl; [|exact Hall]. simpl. intros line Hline. lia.
Qed.

(** X6.  On a text whose lines are numbered in ascending order, as those
    of every extracted text are, the occurrences come in ascending order
    of line number, and each carries the number and the page of a line of
    the text. *)
Theorem occurrences_in_line_order (fuel : nat) (textData : TextData)
    (skill : jsstring) :
  (forall occs,
     StronglySorted le (map lineNumber (lines textData)) ->
     findSkillOccurrences fuel textData skill = Some occs ->
     StronglySorted le (map occ_lineNumber occs) /\
     Forall (fun o => exists line,
                 In line (lines textData) /\
                 occ_lineNumber o = lineNumber line /\
                 occ_estimatedPage o = estimatedPage line) occs) /\
  (forall text,
     StronglySorted le (map lineNumber (lines (structureText text)))).
Proof.
  split.
  - intros occs Hsorted Hrun. rewrite findSkillOccurrences_lines in Hrun.
    split.
    + revert occs Hrun.
      induction (lines textData) as [|line ls IH]; intros occs; simpl.
      * intros [= <-]. constructor.
      * destruct (lineOccurrences fuel _ line) as [ys|] eqn:Ey; simpl;
          [|discriminate].
        destruct (concatOptions _) as [zs|] eqn:Ez; simpl; [|discriminate].
        intros [= <-]. simpl in Hsorted. inversion Hsorted as [|? ? Hrest Hall];
          subst.
        apply (sorted_block (lineNumber line)).
        -- eapply Forall_impl; [|apply (lineOccurrences_fields _ _ _ _ Ey)].
           simpl. intros o [Ho _]. exact Ho.
        -- apply Forall_forall. intros o Ho.
           destruct (concatOptions_In _ _ _ _ Ez Ho) as (l & ys' & Hl & Hys' & Hin).
           apply lineOccurrences_fields in Hys'. rewrite Forall_forall in Hys'.
           destruct (Hys' o Hin) as [-> _].
           rewrite Forall_map, Forall_forall in Hall. apply Hall, Hl.
        -- apply IH; [assumption | reflexivity].
    + apply Forall_forall. intros o Ho.
      destruct (concatOptions_In _ _ _ _ Hrun Ho) as (l & ys & Hl & Hys & Hin).
      apply lineOccurrences_fields in Hys. rewrite Forall_forall in Hys.
      exists l. split; [assumption|]. apply Hys, Hin.
  - intros text. apply linesWithPages_sorted.
Qed.

Lemma occurrences_in_line_order_witness :
  StronglySorted le
    (map occ_lineNumber
       (Sample.finished (findSkillOccurrences 50 Sample.resume (js "s")))) /\
  map occ_lineNumber
    (Sample.finished (findSkillOccurrences 50 Sample.resume (js "s")))
    = [1; 1; 2; 2; 2].
Proof.
  destruct (occurrences_in_line_order 50 Sample.resume (js "s"))
    as [Horder Hextracted].
  split; [|reflexivity].
  apply (Horder
           (Sample.finished (findSkillOccurrences 50 Sample.resume (js "s")))
           (Hextracted _)).
  vm_compute. reflexivity.
Defined.

Lemma lineOccurrences_count (fuel : nat) (skill : jsstring)
    (line : LineRecord) (occs : list Occurrence) :
  lineOccurrences fuel (JSString.toLowerCase skill) line = Some occs ->
  List.length occs <= List.length (content line) /\
  (~ In JSString.capitalDottedI (content line) ->
   List.length occs * List.length skill <= List.length (content line)).
Proof.
  unfold lineOccurrences, linePositions.
  destruct (scanPositions fuel _ _ 0) as [ps|] eqn:Hps; [|discriminate].
  simpl. intros [= <-]. rewrite length_map.
  assert (JSString.toLowerCase skill <> []) as Hne.
  { intros E. rewrite E, scanPositions_empty_skill in Hps. discriminate. }
  apply scanPositions_greedy in Hps; [|unfold JSString.length; lia].
  split.
  - apply (matches_of_lowered_line _ _ _ Hne Hps).
  - intros Hfree.
    apply GreedyMatches_count in Hps; [|unfold JSString.length; lia].
    unfold JSString.length in Hps.
    rewrite (JSStringFacts.length_toLowerCase _ Hfree) in Hps.
    pose proof (JSStringFacts.length_toLowerCase_bounds skill). nia.
Qed.

(** X7.  Matches do not overlap, so they cannot outnumber the characters
    there are: the occurrences of a skill are at most as many as the
    characters of the text's lines; and on a text without U+0130, where
    lowering keeps the length of every line, the number of occurrences
    times the length of the skill is at most the number of characters. *)
Theorem occurrences_fit_in_text (fuel : nat) (textData : TextData)
    (skill : jsstring) (occs : list Occurrence) :
  findSkillOccurrences fuel textData skill = Some occs ->
  List.length occs <= totalCharacters textData /\
  ((forall line, In line (lines textData) ->
      ~ In JSString.capitalDottedI (content line)) ->
   List.length occs * List.length skill <= totalCharacters textData).
Proof.
  rewrite findSkillOccurrences_lines. unfold totalCharacters.
  revert occs; induction (lines textData) as [|line ls IH]; intros occs; simpl.
  - intros [= <-]. simpl. split; [lia | intros _; lia].
  - destruct (lineOccurrences fuel _ line) as [ys|] eqn:Ey; simpl;
      [|discriminate].
    destruct (concatOptions _) as [zs|] eqn:Ez; simpl; [|discriminate].
    intros [= <-]. rewrite length_app.
    apply lineOccurrences_count in Ey. destruct Ey as [Hy Hy'].
    destruct (IH zs eq_refl) as [Hz Hz']. split; [lia|].
    intros Hfree. specialize (Hy' (Hfree line (or_introl eq_refl))).
    specialize (Hz' (fun l Hl => Hfree l (or_intror Hl))). nia.
Qed.

Lemma occurrences_fit_in_text_witness :
  List.length
    (Sample.finished (findSkillOccurrences 9 Sample.aaaa (js "aa"))) <= 4 /\
  List.length
    (Sample.finished (findSkillOccurrences 9 Sample.aaaa (js "aa"))) * 2
  <= 4.
Proof.
  destruct (occurrences_fit_in_text 9 Sample.aaaa (js "aa")
              (Sample.finished (findSkillOccurrences 9 Sample.aaaa (js "aa")))
              eq_refl) as [Hcount Hfit].
  split; [exact Hcount|]. apply Hfit.
  intros line [<-|[]]. vm_compute. intuition discriminate.
Defined.

(** Every occurrence is the one pushed for a match that the loop of a
    line of the text has recorded. *)
Lemma occurrences_origin (fuel : nat) (textData : TextData)
    (skill : jsstring) (occs : list Occurrence) (o : Occurrence) :
  findSkillOccurrences fuel textData skill = Some occs ->
  In o occs ->
  JSString.toLowerCase skill <> [] /\
  exists line ps p,
    In line (lines textData) /\
    GreedyMatches (JSString.toLowerCase (content line))
      (JSString.toLowerCase skill) 0 ps /\
    In p ps /\
    o = occurrenceAt line (JSString.toLowerCase skill) p.
Proof.
  intros Hrun Hin. rewrite findSkillOccurrences_lines in Hrun.
  destruct (concatOptions_In _ _ _ _ Hrun Hin) as (line & ys & Hline & Hys & Ho).
  unfold lineOccurrences in Hys.
  destruct (linePositions fuel (JSString.toLowerCase skill) line)
    as [ps|] eqn:Hps; [|discriminate].
  simpl in Hys. injection Hys as <-.
  apply in_map_iff in Ho. destruct Ho as (p & <- & Hp).
  unfold linePositions in Hps. split.
  - intros E. rewrite E, scanPositions_empty_skill in Hps. discriminate.
  - apply scanPositions_greedy in Hps; [|unfold JSString.length; lia].
    exists line, ps, p. auto.
Qed.

Lemma firstn_plus {A : Type} (n m : nat) (l : list A) :
  firstn (n + m) l = firstn n l ++ firstn m (skipn n l).
Proof.
  revert l; induction n as [|n IH]; intros [|x l]; simpl;
    try reflexivity.
  - rewrite firstn_nil. reflexivity.
  - rewrite IH. reflexivity.
Qed.

Lemma firstn_clipped {A : Type} (n : nat) (l : list A) :
  firstn n l = firstn (Nat.min n (List.length l)) l.
Proof.
  destruct (Nat.le_ge_cases n (List.length l)) as [H|H].
  - rewrite Nat.min_l by assumption. reflexivity.
  - rewrite Nat.min_r by assumption. rewrite !firstn_all2; trivial.
Qed.

(** Where a match lies within the line, [substring] around it is the
    window of the match. *)
Lemma substring_windowAround (s : jsstring) (p k : nat) :
  p + k <= List.length s ->
  JSString.substring s (Z.max 0 (Z.of_nat p - 30))
    (Z.min (JSString.length s) (Z.of_nat p + Z.of_nat k + 30))
  = windowAround s p k 30.
Proof.
  intros Hin. unfold JSString.substring, JSString.clamp, JSString.length.
  replace (Z.to_nat (Z.min (Z.max (Z.max 0 (Z.of_nat p - 30)) 0)
                       (Z.of_nat (List.length s))))
    with (p - 30) by lia.
  replace (Z.to_nat
             (Z.min (Z.max (Z.min (Z.of_nat (List.length s))
                              (Z.of_nat p + Z.of_nat k + 30)) 0)
                (Z.of_nat (List.length s))))
    with (Nat.min (List.length s) (p + k + 30)) by lia.
  rewrite (Nat.min_l (p - 30)), (Nat.max_r (p - 30)) by lia.
  unfold windowAround.
  replace (Nat.min (List.length s) (p + k + 30) - (p - 30))
    with (Nat.min 30 p + (k + Nat.min 30 (List.length s - (p + k)))) by lia.
  rewrite firstn_plus, skipn_skipn.
  replace (Nat.min 30 p + (p - 30)) with p by lia.
  rewrite firstn_plus, skipn_skipn.
  replace (k + p) with (p + k) by lia.
  rewrite (firstn_clipped 30 (skipn (p + k) s)), length_skipn. reflexivity.
Qed.

(** X8.  Every occurrence is the one pushed for a match recorded in a
    line of the text, and where that line holds no U+0130 its context
    shows the match: it is the matched characters of the line with the
    characters before and after them, up to 30 on either side. *)
Theorem context_shows_the_match (fuel : nat) (textData : TextData)
    (skill : jsstring) (occs : list Occurrence) (o : Occurrence) :
  findSkillOccurrences fuel textData skill = Some occs ->
  In o occs ->
  exists line ps p,
    In line (lines textData) /\
    GreedyMatches (JSString.toLowerCase (content line))
      (JSString.toLowerCase skill) 0 ps /\
    In p ps /\
    o = occurrenceAt line (JSString.toLowerCase skill) p /\
    (~ In JSString.capitalDottedI (content line) ->
     (p + JSString.length (JSString.toLowerCase skill)
      <= JSString.length (content line))%Z /\
     context o
       = windowAround (content line) (Z.to_nat p)
           (List.length (JSString.toLowerCase skill)) 30).
Proof.
  intros Hrun Hin.
  destruct (occurrences_origin _ _ _ _ _ Hrun Hin)
    as (Hne & line & ps & p & Hline & Hps & Hp & ->).
  exists line, ps, p. repeat split; try assumption.
  - pose proof (GreedyMatches_matchAt _ _ _ _ Hps) as Hall.
    rewrite Forall_forall in Hall.
    pose proof (JSStringFacts.matchAt_bound _ _ _ (Hall p Hp) Hne) as Hb.
    unfold JSString.length in *.
    rewrite (JSStringFacts.length_toLowerCase _ H) in Hb. exact Hb.
  - pose proof (GreedyMatches_matchAt _ _ _ _ Hps) as Hall.
    rewrite Forall_forall in Hall.
    pose proof (JSStringFacts.matchAt_bound _ _ _ (Hall p Hp) Hne) as Hb.
    destruct (Hall p Hp) as [Hp0 _].
    unfold JSString.length in Hb.
    rewrite (JSStringFacts.length_toLowerCase _ H) in Hb.
    unfold occurrenceAt, contextRadius. cbn [context].
    rewrite <- (substring_windowAround (content line) (Z.to_nat p)) by lia.
    unfold JSString.length. rewrite Z2Nat.id by assumption. reflexivity.
Qed.

Lemma context_shows_the_match_witness :
  exists line ps p,
    In line (lines Sample.longResume) /\
    GreedyMatches (JSString.toLowerCase (content line))
      (JSString.toLowerCase (js "Python")) 0 ps /\
    In p ps /\
    {| occ_lineNumber := 1; occ_estimatedPage := 1;
       context :=
         js " in backend services, writing Python for data pipelines and cloud " |}
      = occurrenceAt line (JSString.toLowerCase (js "Python")) p /\
    (~ In JSString.capitalDottedI (content line) ->
     (p + JSString.length (JSString.toLowerCase (js "Python"))
      <= JSString.length (content line))%Z /\
     js " in backend services, writing Python for data pipelines and cloud "
       = windowAround (content line) (Z.to_nat p)
           (List.length (JSString.toLowerCase (js "Python"))) 30).
Proof.
  apply (context_shows_the_match 50 Sample.longResume (js "Python")
           (Sample.finished
              (findSkillOccurrences 50 Sample.longResume (js "Python")))
           {| occ_lineNumber := 1; occ_estimatedPage := 1;
              context :=
                js " in backend services, writing Python for data pipelines and cloud " |}).
  - reflexivity.
  - left. reflexivity.
Defined.

Lemma split_no_separator (sep : JSString.codeUnit) (s : jsstring) :
  Forall (fun piece => ~ In sep piece) (JSString.split sep s).
Proof.
  induction s as [|c s IH]; simpl.
  - constructor; [intros [] | constructor].
  - destruct (N.eqb_spec c sep) as [->|Hne].
    + constructor; [intros [] | assumption].
    + destruct (JSString.split sep s) as [|piece pieces].
      * constructor; [|constructor]. intros [H|[]]. congruence.
      * inversion IH as [|? ? Hpiece Hpieces]; subst.
        constructor; [|assumption]. intros [H|H]; [congruence|auto].
Qed.

Lemma trimStart_incl (s : jsstring) (c : JSString.codeUnit) :
  In c (JSString.trimStart s) -> In c s.
Proof.
  induction s as [|x s IH]; simpl; [trivial|].
  destruct (JSString.isWhiteSpace x); [auto|trivial].
Qed.

Lemma trim_incl (s : jsstring) (c : JSString.codeUnit) :
  In c (JSString.trim s) -> In c s.
Proof.
  unfold JSString.trim, JSString.trimEnd. intros H.
  apply in_rev, trimStart_incl, in_rev in H. apply trimStart_incl, H.
Qed.

Lemma lowerChar_line_feed (c : JSString.codeUnit) :
  JSString.lowerChar c = JSString.code "010" -> c = JSString.code "010".
Proof.
  unfold JSString.lowerChar. destruct (JSString.isUpper c) eqn:E; [|trivial].
  change (JSString.code "010") with 10%N. intros H.
  unfold JSString.isUpper in E.
  apply orb_true_iff in E. rewrite !andb_true_iff, !N.leb_le in E. lia.
Qed.

(** Lowering creates no line feed. *)
Lemma toLowerCase_line_feed (s : jsstring) :
  In (JSString.code "010") (JSString.toLowerCase s) ->
  In (JSString.code "010") s.
Proof.
  unfold JSString.toLowerCase. rewrite in_flat_map.
  intros (c & Hc & Hin). unfold JSString.lowerCase in Hin.
  destruct (c =? JSString.capitalDottedI)%N.
  - destruct Hin as [H|[H|[]]]; discriminate H.
  - destruct Hin as [H|[]]. apply lowerChar_line_feed in H. congruence.
Qed.

Lemma toLowerCase_keeps_line_feed (s : jsstring) :
  In (JSString.code "010") s ->
  In (JSString.code "010") (JSString.toLowerCase s).
Proof.
  unfold JSString.toLowerCase. rewrite in_flat_map. intros H.
  exists (JSString.code "010"). split; [exact H | left; reflexivity].
Qed.

Lemma structureText_lines_have_no_line_feed (text : jsstring)
    (line : LineRecord) :
  In line (lines (structureText text)) ->
  ~ In (JSString.code "010") (content line).
Proof.
  intros Hin Hc. apply In_nth_error in Hin. destruct Hin as [k Hk].
  unfold structureText in Hk. cbn [lines] in Hk.
  apply linesWithPages_nth in Hk. destruct Hk as (raw & Hraw & _ & Hcontent & _).
  rewrite Hcontent in Hc. apply trim_incl in Hc.
  apply nth_error_In in Hraw.
  pose proof (split_no_separator (JSString.code "010") text) as Hall.
  rewrite Forall_forall in Hall. apply (Hall raw Hraw Hc).
Qed.

(** X9.  Matching is per line: a skill that contains a line feed is found
    nowhere in an extracted text, whatever the text, and the locator says
    so at once. *)
Theorem skill_with_line_feed_is_never_found (fuel : nat) (text : jsstring)
    (skill : jsstring) :
  In (JSString.code "010") skill ->
  1 <= fuel ->
  findSkillOccurrences fuel (structureText text) skill = Some [].
Proof.
  intros Hskill Hfuel.
  apply findSkillOccurrences_empty_iff_not_mentioned_absent; [|assumption].
  intros line Hline (pre & post & Hm).
  apply (structureText_lines_have_no_line_feed text line Hline).
  apply toLowerCase_line_feed. rewrite Hm.
  apply in_or_app. right. apply in_or_app. left.
  apply toLowerCase_keeps_line_feed, Hskill.
Qed.

Lemma skill_with_line_feed_is_never_found_witness :
  findSkillOccurrences 1
    (structureText (js "machine" ++ nl ++ js "learning"))
    (js "machine" ++ nl ++ js "learning") = Some [].
Proof.
  apply (skill_with_line_feed_is_never_found 1
           (js "machine" ++ nl ++ js "learning")
           (js "machine" ++ nl ++ js "learning")).
  - vm_compute. tauto.
  - lia.
Defined.





(** ** What the scorer reports *)

Lemma forEachSkill_in_order (fuel : nat) (textData : TextData)
    (skills : list jsstring) (matched0 matched1 : list SkillMatch)
    (missing0 missing1 : list jsstring) :
  forEachSkill fuel textData skills matched0 missing0
    = Some (matched1, missing1) ->
  map skill matched1
    = map skill matched0 ++ filter (located fuel textData) skills /\
  missing1
    = missing0 ++ filter (fun sk => negb (located fuel textData sk)) skills /\
  (Forall (reportsLocated fuel textData) matched0 ->
   Forall (reportsLocated fuel textData) matched1) /\
  (Forall (fun sk => findSkillOccurrences fuel textData sk = Some []) missing0 ->
   Forall (fun sk => findSkillOccurrences fuel textData sk = Some []) missing1).
Proof.
  revert matched0 missing0.
  induction skills as [|sk skills IH]; intros matched0 missing0; simpl.
  - intros [= <- <-]. rewrite !app_nil_r. auto.
  - destruct (findSkillOccurrences fuel textData sk) as [occs|] eqn:E;
      simpl; [|discriminate].
    destruct occs as [|o occs]; simpl; intros H; apply IH in H;
      destruct H as (Hm & Hn & HP & HQ).
    + assert (located fuel textData sk = false) as ->
        by (unfold located; rewrite E; reflexivity).
      simpl. split; [exact Hm|].
      split; [rewrite Hn, <- app_assoc; reflexivity|]. split; [assumption|].
      intros H0. apply HQ. apply Forall_app. split; [assumption|].
      constructor; [assumption | constructor].
    + assert (located fuel textData sk = true) as ->
        by (unfold located; rewrite E; reflexivity).
      simpl. split; [rewrite Hm, map_app, <- app_assoc; reflexivity|].
      split; [exact Hn|]. split; [|assumption].
      intros H0. apply HP. apply Forall_app. split; [assumption|].
      constructor; [|constructor]. unfold reportsLocated. simpl.
      repeat split; [assumption | discriminate].
Qed.

(** X11.  What a result reports about the skills.  [matched] lists, in the
    order of the request, the skills the locator found in that resume,
    each with the occurrences the locator returned (at least one) and
    their number; [missing] lists, in the order of the request, the skills
    for which it returned none; the line and page counts are the text's. *)
Theorem analyzeSkills_reports_located_skills (fuel : nat)
    (resumeTexts : list TextData) (requiredSkills : jsstring)
    (fileNames : list (option jsstring)) (results : list ResumeResult)
    (i : nat) (textData : TextData) (result : ResumeResult) :
  analyzeSkills fuel resumeTexts requiredSkills fileNames = Some results ->
  nth_error resumeTexts i = Some textData ->
  nth_error results i = Some result ->
  map skill (matched result)
    = filter (located fuel textData) (skillsArrayOf requiredSkills) /\
  missing result
    = filter (fun sk => negb (located fuel textData sk))
        (skillsArrayOf requiredSkills) /\
  Forall (reportsLocated fuel textData) (matched result) /\
  Forall (fun sk => findSkillOccurrences fuel textData sk = Some [])
    (missing result) /\
  rr_totalLines result = totalLines textData /\
  rr_estimatedPages result = estimatedPages textData.
Proof.
  intros Hrun Hi Hres. rewrite analyzeSkills_mapIndexed in Hrun.
  destruct (mapIndexed_nth _ _ _ _ Hrun) as [_ Hnth].
  destruct (Hnth i textData Hi) as (r & Hr & Hf).
  assert (r = result) as -> by congruence.
  unfold analyzeResume in Hf.
  destruct (forEachSkill fuel textData _ [] []) as [[m n]|] eqn:E;
    simpl in Hf; [|discriminate].
  injection Hf as <-. simpl.
  apply forEachSkill_in_order in E. destruct E as (Hm & Hn & HP & HQ).
  simpl in Hm, Hn. repeat split; auto.
Qed.

Lemma analyzeSkills_reports_located_skills_witness :
  exists result,
    nth_error
      (Sample.finished
         (analyzeSkills 50 [Sample.resume] (js "Go, SQL, Rust, Python") [None]))
      0 = Some result /\
    map skill (matched result) = [js "SQL"; js "Python"] /\
    missing result = [js "Go"; js "Rust"] /\
    map totalOccurrences (matched result) = [1; 2].
Proof.
  destruct (nth_error
              (Sample.finished
                 (analyzeSkills 50 [Sample.resume] (js "Go, SQL, Rust, Python")
                    [None])) 0) as [result|] eqn:Hres;
    [|vm_compute in Hres; discriminate].
  exists result. split; [reflexivity|].
  destruct (analyzeSkills_reports_located_skills 50 [Sample.resume]
              (js "Go, SQL, Rust, Python") [None]
              (Sample.finished
                 (analyzeSkills 50 [Sample.resume]
                    (js "Go, SQL, Rust, Python") [None]))
              0 Sample.resume result)
    as (Hm & Hn & _); [vm_compute; reflexivity | reflexivity | exact Hres |].
  rewrite Hm, Hn. vm_compute in Hres. injection Hres as <-.
  repeat split.
Defined.

Lemma percentagesChecked_300 : percentagesChecked 300 = true.
Proof. vm_compute. reflexivity. Qed.

Lemma percentagesChecked_spec (bound m n : nat) :
  percentagesChecked bound = true ->
  1 <= n <= bound -> m <= n -> percentageChecked m n = true.
Proof.
  unfold percentagesChecked. intros H Hn Hm.
  rewrite forallb_forall in H.
  specialize (H n ltac:(apply in_seq; lia)).
  rewrite forallb_forall in H. apply H. apply in_seq. lia.
Qed.

Lemma percentageChecked_within (m n : nat) :
  1 <= n <= 300 -> m <= n -> percentageChecked m n = true.
Proof.
  apply percentagesChecked_spec. exact percentagesChecked_300.
Qed.

(** X12.  For a request of at most 300 skills the score of every result
    is an integer from 0 to 100: the exact percentage rounded half up, or
    the integer below it; it is 0 when nothing is matched and 100 when
    everything is; and [eligible] says whether the exact rounded
    percentage is at least 60. *)
Theorem analyzeSkills_score_is_a_percentage (fuel : nat)
    (resumeTexts : list TextData) (requiredSkills : jsstring)
    (fileNames : list (option jsstring)) (results : list ResumeResult)
    (result : ResumeResult) :
  analyzeSkills fuel resumeTexts requiredSkills fileNames = Some results ->
  In result results ->
  List.length (skillsArrayOf requiredSkills) <= 300 ->
  exists (x : float) (k : Z),
    matchPercentage result = JNum x /\
    PrimFloat.eqb x (JSNumber.ofZ k) = true /\
    (0 <= k <= 100)%Z /\
    (roundHalfUp (List.length (matched result))
       (List.length (skillsArrayOf requiredSkills)) - 1 <= k
     <= roundHalfUp (List.length (matched result))
          (List.length (skillsArrayOf requiredSkills)))%Z /\
    (matched result = [] -> k = 0%Z) /\
    (missing result = [] -> k = 100%Z) /\
    eligible result
      = JBool (60 <=? roundHalfUp (List.length (matched result))
                        (List.length (skillsArrayOf requiredSkills)))%Z.
Proof.
  intros Hrun Hin Hbound. pose proof Hrun as Hrun'.
  rewrite analyzeSkills_mapIndexed in Hrun'.
  destruct (mapIndexed_In _ _ _ _ _ Hrun' Hin) as (j & textData & _ & Hres).
  destruct (analyzeResume_partition _ _ _ _ _ _ Hres) as [_ Hsum].
  assert (1 <= List.length (skillsArrayOf requiredSkills)) as Hpos.
  { unfold skillsArrayOf. rewrite length_map, split_length. lia. }
  pose proof (percentageChecked_within (List.length (matched result))
                (List.length (skillsArrayOf requiredSkills))
                ltac:(lia) ltac:(lia)) as Hok.
  unfold analyzeResume in Hres.
  destruct (forEachSkill fuel textData _ [] []) as [found|]; simpl in Hres;
    [|discriminate].
  injection Hres as <-. simpl in *.
  unfold percentageChecked in Hok.
  set (n := List.length (skillsArrayOf requiredSkills)) in *.
  set (m := List.length (fst found)) in *.
  set (k := if PrimFloat.eqb (percentage m n) (JSNumber.ofZ (roundHalfUp m n))
            then roundHalfUp m n else (roundHalfUp m n - 1)%Z) in *.
  rewrite !andb_true_iff in Hok.
  destruct Hok as (((((Heq & H0) & H100) & Helig) & Hzero) & Hall).
  exists (percentage m n), k.
  split; [reflexivity|]. split; [assumption|].
  split; [lia|]. split.
  { unfold k. destruct (PrimFloat.eqb _ _); lia. }
  split.
  { intros Hm. assert (m = 0) as Hm0 by (unfold m; rewrite Hm; reflexivity).
    rewrite Hm0 in Hzero. simpl in Hzero. lia. }
  split.
  { intros Hn. assert (m = n) as Hmn by (unfold m; rewrite Hn in Hsum; simpl in Hsum; lia).
    rewrite Hmn, Nat.eqb_refl in Hall. simpl in Hall. lia. }
  f_equal. apply Bool.eqb_prop in Helig. exact Helig.
Qed.

Lemma analyzeSkills_score_is_a_percentage_witness :
  exists (result : ResumeResult) (x : float) (k : Z),
    analyzeSkills 3 [Sample.resumeA] Sample.fortySkills [None]
      = Some [result] /\
    matchPercentage result = JNum x /\
    PrimFloat.eqb x (JSNumber.ofZ k) = true /\
    (0 <= k <= 100)%Z.
Proof.
  destruct (analyzeSkills 3 [Sample.resumeA] Sample.fortySkills [None])
    as [[|result [|]]|] eqn:Hrun; try (vm_compute in Hrun; discriminate).
  destruct (analyzeSkills_score_is_a_percentage 3 [Sample.resumeA]
              Sample.fortySkills [None] [result] result Hrun
              (or_introl eq_refl))
    as (x & k & Hx & Hk & Hrange & _); [vm_compute; lia|].
  exists result, x, k. auto.
Defined.

(** ** What the judge can and cannot change *)

Section JudgeFacts.

Variable JSON_parse : jsstring -> attempt JSValue.

Lemma judged_keeps_evidence (model : GenerativeModel) (i : nat)
    (prompt : jsstring) (basicResult : ResumeResult) :
  fileName (judged JSON_parse model i prompt basicResult)
    = fileName basicResult /\
  matched (judged JSON_parse model i prompt basicResult)
    = matched basicResult /\
  missing (judged JSON_parse model i prompt basicResult)
    = missing basicResult /\
  rr_totalLines (judged JSON_parse model i prompt basicResult)
    = rr_totalLines basicResult /\
  rr_estimatedPages (judged JSON_parse model i prompt basicResult)
    = rr_estimatedPages basicResult.
Proof.
  unfold judged, tryJudge.
  destruct (generateContent model i prompt) as [text|]; [|auto 6].
  destruct (JSON_parse (stripFences text)) as [aiResult|]; [|auto 6].
  destruct (JS.get aiResult (js "overall_score")); [|auto 6].
  destruct (JS.get aiResult (js "eligible")); [|auto 6].
  destruct (JS.get aiResult (js "summary")); auto 6.
Qed.

Lemma analyzeResume_evidence (fuel : nat) (skillsArray : list jsstring)
    (fileNames fileNames' : list (option jsstring)) (index index' : nat)
    (textData : TextData) (result result' : ResumeResult) :
  analyzeResume fuel skillsArray fileNames index textData = Some result ->
  analyzeResume fuel skillsArray fileNames' index' textData = Some result' ->
  matched result = matched result' /\
  missing result = missing result' /\
  rr_totalLines result = rr_totalLines result' /\
  rr_estimatedPages result = rr_estimatedPages result'.
Proof.
  unfold analyzeResume.
  destruct (forEachSkill fuel textData skillsArray [] []); simpl;
    [|discriminate].
  intros [= <-] [= <-]. simpl. auto.
Qed.

Lemma aiLoop_nth (fuel : nat) (model : GenerativeModel)
    (resumeTexts : list TextData) (requiredSkills : jsstring)
    (fileNames : list (option jsstring)) (results : list ResumeResult)
    (i : nat) (textData : TextData) :
  analyzeSkillsWithAI JSON_parse
    (Some {| getGenerativeModel := Ok model |}) fuel resumeTexts
    requiredSkills fileNames = Some results ->
  nth_error resumeTexts i = Some textData ->
  exists basic,
    analyzeResume fuel (skillsArrayOf requiredSkills) [nameAt fileNames i] 0
      textData = Some basic /\
    nth_error results i
      = Some (judged JSON_parse model i (promptFor requiredSkills textData)
                basic).
Proof.
  unfold analyzeSkillsWithAI. cbn [getGenerativeModel].
  rewrite aiLoop_mapIndexed.
  destruct (mapIndexed _ 0 resumeTexts) as [rs|] eqn:Hmap; [|discriminate].
  simpl. intros [= <-] Hi.
  destruct (mapIndexed_nth _ _ _ _ Hmap) as [_ Hnth].
  destruct (Hnth i textData Hi) as (r & Hr & Hai).
  simpl in Hai. unfold aiResultAt in Hai.
  destruct (analyzeResume fuel _ [nameAt fileNames i] 0 textData)
    as [basic|]; [|discriminate].
  simpl in Hai. injection Hai as <-. exists basic. auto.
Qed.

End JudgeFacts.

(** X13.  The judge never surfaces an error and never touches the
    evidence.  Whatever client is configured and whatever it answers, the
    enhanced scorer returns whenever the deterministic scorer does, with
    one result per resume, and each result has the [matched], [missing],
    [totalLines] and [estimatedPages] of the deterministic result (and its
    [fileName], when the resume has a file name). *)
Theorem judge_never_changes_the_evidence
    (JSON_parse : jsstring -> attempt JSValue)
    (genAI : option GoogleGenerativeAI) (fuel : nat)
    (resumeTexts : list TextData) (requiredSkills : jsstring)
    (fileNames : list (option jsstring)) (det : list ResumeResult) :
  analyzeSkills fuel resumeTexts requiredSkills fileNames = Some det ->
  exists results,
    analyzeSkillsWithAI JSON_parse genAI fuel resumeTexts requiredSkills
      fileNames = Some results /\
    List.length results = List.length resumeTexts /\
    forall i r d,
      nth_error results i = Some r ->
      nth_error det i = Some d ->
      matched r = matched d /\
      missing r = missing d /\
      rr_totalLines r = rr_totalLines d /\
      rr_estimatedPages r = rr_estimatedPages d /\
      (named (nameAt fileNames i) = true -> fileName r = fileName d).
Proof.
  intros Hdet.
  destruct (analyzeSkillsWithAI_returns JSON_parse genAI _ _ _ _ _ Hdet)
    as (results & Hres & Hlen).
  exists results. split; [assumption|]. split; [assumption|].
  intros i r d Hr Hd.
  destruct genAI as [[[model|message]]|];
    try (unfold analyzeSkillsWithAI in Hres; cbn [getGenerativeModel] in Hres;
         assert (results = det) as -> by congruence;
         assert (r = d) as -> by congruence; auto 6).
  rewrite analyzeSkills_mapIndexed in Hdet.
  destruct (mapIndexed_nth _ _ _ _ Hdet) as [Hdlen Hdnth].
  destruct (nth_error resumeTexts i) as [textData|] eqn:Hi.
  - destruct (aiLoop_nth _ _ _ _ _ _ _ _ _ Hres Hi) as (basic & Hbasic & Hr').
    destruct (Hdnth i textData Hi) as (d' & Hd' & Han).
    assert (d' = d) as -> by congruence. simpl in Han.
    rewrite Hr in Hr'. injection Hr' as ->.
    destruct (judged_keeps_evidence JSON_parse model i
                (promptFor requiredSkills textData) basic)
      as (Hf & Hm & Hn & Ht & Hp).
    destruct (analyzeResume_evidence _ _ _ _ _ _ _ _ _ Hbasic Han)
      as (Hm' & Hn' & Ht' & Hp').
    repeat split; try congruence.
    intros Hname. rewrite Hf.
    rewrite (analyzeResume_named _ _ _ _ _ Hname) in Hbasic. congruence.
  - apply nth_error_None in Hi.
    assert (nth_error results i = None) by (apply nth_error_None; lia).
    congruence.
Qed.

Lemma judge_never_changes_the_evidence_witness :
  exists results,
    analyzeSkillsWithAI Sample.parseVerdict
      (Some (Sample.judgeSaying (fenced Sample.verdictText))) 50
      [Sample.resume; Sample.resumeA] (js "python, a")
      [Some (js "a.pdf"); Some (js "b.pdf")] = Some results /\
    List.length results = 2 /\
    forall i r d,
      nth_error results i = Some r ->
      nth_error
        (Sample.finished
           (analyzeSkills 50 [Sample.resume; Sample.resumeA] (js "python, a")
              [Some (js "a.pdf"); Some (js "b.pdf")])) i = Some d ->
      matched r = matched d /\
      missing r = missing d /\
      rr_totalLines r = rr_totalLines d /\
      rr_estimatedPages r = rr_estimatedPages d /\
      (named (nameAt [Some (js "a.pdf"); Some (js "b.pdf")] i) = true ->
       fileName r = fileName d).
Proof.
  apply (judge_never_changes_the_evidence Sample.parseVerdict
           (Some (Sample.judgeSaying (fenced Sample.verdictText))) 50
           [Sample.resume; Sample.resumeA] (js "python, a")
           [Some (js "a.pdf"); Some (js "b.pdf")]).
  vm_compute. reflexivity.
Defined.

(** X14.  When the reply to request [i], its code fences stripped, parses
    to an object, the result of resume [i] takes its [matchPercentage],
    [eligible] and [summary] from the object's [overall_score], [eligible]
    and [summary], an absent property giving [undefined]. *)
Theorem judge_verdict_overwrites_the_score
    (JSON_parse : jsstring -> attempt JSValue) (model : GenerativeModel)
    (fuel : nat) (resumeTexts : list TextData) (requiredSkills : jsstring)
    (fileNames : list (option jsstring)) (results : list ResumeResult)
    (i : nat) (textData : TextData) (text : jsstring)
    (props : list (jsstring * JSValue)) :
  analyzeSkillsWithAI JSON_parse
    (Some {| getGenerativeModel := Ok model |}) fuel resumeTexts
    requiredSkills fileNames = Some results ->
  nth_error resumeTexts i = Some textData ->
  generateContent model i (promptFor requiredSkills textData) = Ok text ->
  JSON_parse (stripFences text) = Ok (JObj props) ->
  exists result,
    nth_error results i = Some result /\
    matchPercentage result = JS.lookup (js "overall_score") props /\
    eligible result = JS.lookup (js "eligible") props /\
    summary result = JS.lookup (js "summary") props.
Proof.
  intros Hres Hi Hcall Hparse.
  destruct (aiLoop_nth _ _ _ _ _ _ _ _ _ Hres Hi) as (basic & _ & Hr).
  eexists. split; [exact Hr|].
  unfold judged, tryJudge. rewrite Hcall, Hparse. simpl. auto.
Qed.

Lemma judge_verdict_overwrites_the_score_witness :
  exists result,
    nth_error
      (Sample.finished
         (analyzeSkillsWithAI Sample.parseVerdict
            (Some (Sample.judgeSaying (fenced Sample.verdictText))) 3
            [Sample.resumeA] (js "a") [Some (js "a.pdf")])) 0
      = Some result /\
    matchPercentage result = JNum 85 /\
    eligible result = JBool false /\
    summary result = JStr (js "weak").
Proof.
  apply (judge_verdict_overwrites_the_score Sample.parseVerdict
           {| generateContent := fun _ _ => Ok (fenced Sample.verdictText) |}
           3 [Sample.resumeA] (js "a") [Some (js "a.pdf")]
           (Sample.finished
              (analyzeSkillsWithAI Sample.parseVerdict
                 (Some (Sample.judgeSaying (fenced Sample.verdictText))) 3
                 [Sample.resumeA] (js "a") [Some (js "a.pdf")]))
           0 Sample.resumeA (fenced Sample.verdictText)
           [(js "overall_score", JNum 85);
            (js "eligible", JBool false);
            (js "summary", JStr (js "weak"))]).
  - vm_compute. reflexivity.
  - reflexivity.
  - reflexivity.
  - vm_compute. reflexivity.
Defined.

(** X15.  The name of a resume whose file name is absent or empty, when
    a client is configured.  If [getGenerativeModel] returns a model, each
    resume is scored as a batch of one and is named "Resume 1" whatever
    its index; if [getGenerativeModel] throws, the outer [catch] scores
    the batch with [analyzeSkills] and the resume at index [i] is named
    "Resume " followed by [i + 1], as on the deterministic path. *)
Theorem enhanced_path_default_fileName
    (JSON_parse : jsstring -> attempt JSValue) (client : GoogleGenerativeAI)
    (fuel : nat) (resumeTexts : list TextData) (requiredSkills : jsstring)
    (fileNames : list (option jsstring)) (results : list ResumeResult)
    (i : nat) (result : ResumeResult) :
  analyzeSkillsWithAI JSON_parse (Some client) fuel resumeTexts
    requiredSkills fileNames = Some results ->
  nth_error results i = Some result ->
  named (nameAt fileNames i) = false ->
  fileName result
    = match getGenerativeModel client with
      | Ok _ => js "Resume 1"
      | Throws _ => js "Resume " ++ JSString.ofNat (i + 1)
      end.
Proof.
  intros Hres Hr Hname.
  assert (orElse (nameAt fileNames i) = fun fallback => fallback) as Hdefault.
  { destruct (nameAt fileNames i) as [[|c s]|]; try discriminate; reflexivity. }
  destruct client as [[model|message]]; cbn [getGenerativeModel].
  - destruct (nth_error resumeTexts i) as [textData|] eqn:Hi.
    + destruct (aiLoop_nth _ _ _ _ _ _ _ _ _ Hres Hi)
        as (basic & Hbasic & Hr').
      rewrite Hr in Hr'. injection Hr' as ->.
      destruct (judged_keeps_evidence JSON_parse model i
                  (promptFor requiredSkills textData) basic) as (-> & _).
      rewrite (analyzeResume_fileName _ _ _ _ _ _ Hbasic).
      cbn [nameAt nth_error]. rewrite Hdefault. reflexivity.
    + apply nth_error_None in Hi.
      apply analyzeSkillsWithAI_length in Hres.
      assert (nth_error results i = None) by (apply nth_error_None; lia).
      congruence.
  - unfold analyzeSkillsWithAI in Hres. cbn [getGenerativeModel] in Hres.
    rewrite analyzeSkills_mapIndexed in Hres.
    destruct (mapIndexed_nth _ _ _ _ Hres) as [Hlen Hnth].
    destruct (nth_error resumeTexts i) as [textData|] eqn:Hi.
    + destruct (Hnth i textData Hi) as (r & Hr' & Hf).
      assert (r = result) as -> by congruence. simpl in Hf.
      rewrite (analyzeResume_fileName _ _ _ _ _ _ Hf), Hdefault.
      reflexivity.
    + apply nth_error_None in Hi.
      assert (nth_error results i = None) by (apply nth_error_None; lia).
      congruence.
Qed.

Lemma enhanced_path_default_fileName_witness :
  map fileName
    (Sample.finished
       (analyzeSkillsWithAI Sample.parseReply
          (Some (Sample.judgeSaying (js "{}"))) 50
          [Sample.resumeA; Sample.resume] (js "a") []))
    = [js "Resume 1"; js "Resume 1"] /\
  map fileName
    (Sample.finished
       (analyzeSkillsWithAI Sample.parseReply
          (Some {| getGenerativeModel := Throws (js "API key not valid") |})
          50 [Sample.resumeA; Sample.resume] (js "a") []))
    = [js "Resume 1"; js "Resume 2"].
Proof.
  split.
  - destruct (Sample.finished
                (analyzeSkillsWithAI Sample.parseReply
                   (Some (Sample.judgeSaying (js "{}"))) 50
                   [Sample.resumeA; Sample.resume] (js "a") []))
      as [|r0 [|r1 [|]]] eqn:Hresults;
      try (vm_compute in Hresults; discriminate).
    simpl. f_equal; [|f_equal].
    + apply (enhanced_path_default_fileName Sample.parseReply
               (Sample.judgeSaying (js "{}")) 50
               [Sample.resumeA; Sample.resume] (js "a") [] [r0; r1] 0 r0);
        [rewrite <- Hresults; vm_compute; reflexivity
        | reflexivity | reflexivity].
    + apply (enhanced_path_default_fileName Sample.parseReply
               (Sample.judgeSaying (js "{}")) 50
               [Sample.resumeA; Sample.resume] (js "a") [] [r0; r1] 1 r1);
        [rewrite <- Hresults; vm_compute; reflexivity
        | reflexivity | reflexivity].
  - destruct (Sample.finished
                (analyzeSkillsWithAI Sample.parseReply
                   (Some {| getGenerativeModel :=
                              Throws (js "API key not valid") |}) 50
                   [Sample.resumeA; Sample.resume] (js "a") []))
      as [|r0 [|r1 [|]]] eqn:Hresults;
      try (vm_compute in Hresults; discriminate).
    simpl. f_equal; [|f_equal].
    + apply (enhanced_path_default_fileName Sample.parseReply
               {| getGenerativeModel := Throws (js "API key not valid") |} 50
               [Sample.resumeA; Sample.resume] (js "a") [] [r0; r1] 0 r0);
        [rewrite <- Hresults; vm_compute; reflexivity
        | reflexivity | reflexivity].
    + apply (enhanced_path_default_fileName Sample.parseReply
               {| getGenerativeModel := Throws (js "API key not valid") |} 50
               [Sample.resumeA; Sample.resume] (js "a") [] [r0; r1] 1 r1);
        [rewrite <- Hresults; vm_compute; reflexivity
        | reflexivity | reflexivity].
Defined.

(** ** What the handler answers *)

Section HandlerOutcomes.

Variable pdf : list Byte.byte -> attempt jsstring.
Variable JSON_parse : jsstring -> attempt JSValue.
Variable genAI : option GoogleGenerativeAI.

Lemma extractAll_failure (before after : list File) (file : File)
    (message : jsstring) (resumeTexts : list TextData)
    (fileNames : list (option jsstring)) :
  (forall f, In f before -> exists text, pdf (buffer f) = Ok text) ->
  pdf (buffer file) = Throws message ->
  extractAll pdf (before ++ file :: after) resumeTexts fileNames
    = Throws (js "Failed to extract text from PDF: " ++ message).
Proof.
  revert resumeTexts fileNames; induction before as [|f before IH];
    intros resumeTexts fileNames Hbefore Hfile; simpl.
  - unfold extractTextWithLineNumbers. rewrite Hfile. reflexivity.
  - destruct (Hbefore f (or_introl eq_refl)) as [text Htext].
    unfold extractTextWithLineNumbers at 1. rewrite Htext.
    apply IH; [|assumption]. intros f' Hf'. apply Hbefore. right. assumption.
Qed.

Lemma extractAll_success (files : list File) (texts : list jsstring)
    (resumeTexts : list TextData) (fileNames : list (option jsstring)) :
  Forall2 (fun file text => pdf (buffer file) = Ok text) files texts ->
  extractAll pdf files resumeTexts fileNames
    = Ok (resumeTexts ++ map structureText texts,
          fileNames ++ map originalname files).
Proof.
  intros Hall. revert resumeTexts fileNames.
  induction Hall as [|file text files texts Hfile Hrest IH];
    intros resumeTexts fileNames; simpl.
  - rewrite !app_nil_r. reflexivity.
  - unfold extractTextWithLineNumbers. rewrite Hfile, IH, <- !app_assoc.
    reflexivity.
Qed.

End HandlerOutcomes.

(** X16.  One unreadable document fails the whole request: when pdf-parse
    throws on a document (the ones before it being readable) and the
    skills string is not empty, the handler answers 500 with the details
    "Failed to extract text from PDF: " followed by the parser's message,
    sends no report, and scores nothing (the answer needs no fuel). *)
Theorem skills_check_unreadable_document
    (pdf : list Byte.byte -> attempt jsstring)
    (JSON_parse : jsstring -> attempt JSValue)
    (genAI : option GoogleGenerativeAI) (fuel : nat)
    (before after : list File) (file : File) (skills message : jsstring) :
  (forall f, In f before -> exists text, pdf (buffer f) = Ok text) ->
  pdf (buffer file) = Throws message ->
  skills <> [] ->
  skills_check pdf JSON_parse genAI fuel (Some (before ++ file :: after))
    (Some skills)
  = Some (ServerError (js "Skills analysis failed")
            (js "Failed to extract text from PDF: " ++ message)).
Proof.
  intros Hbefore Hfile Hskills. unfold skills_check.
  assert (isEmptyList (before ++ file :: after) = false) as ->
    by (destruct before; reflexivity).
  destruct skills as [|c skills]; [congruence|]. cbn [isEmptyList].
  unfold processResumes.
  rewrite (extractAll_failure pdf before after file message [] [] Hbefore Hfile).
  reflexivity.
Qed.

Lemma skills_check_unreadable_document_witness :
  skills_check
    (fun buffer => match buffer with
                   | [] => Throws (js "Invalid PDF structure")
                   | _ :: _ => Sample.pdfText buffer
                   end)
    Sample.parseReply None 0
    (Some ([Sample.file "sql" (Some (js "a.pdf"))]
           ++ Sample.file "" (Some (js "b.pdf"))
           :: [Sample.file "go" (Some (js "c.pdf"))]))
    (Some (js "sql"))
  = Some (ServerError (js "Skills analysis failed")
            (js "Failed to extract text from PDF: "
             ++ js "Invalid PDF structure")).
Proof.
  apply (skills_check_unreadable_document _ Sample.parseReply None 0
           [Sample.file "sql" (Some (js "a.pdf"))]
           [Sample.file "go" (Some (js "c.pdf"))]
           (Sample.file "" (Some (js "b.pdf"))) (js "sql")
           (js "Invalid PDF structure")).
  - intros f [<-|[]]. eexists. reflexivity.
  - reflexivity.
  - discriminate.
Defined.

(** X17.  When every uploaded document is readable and the skills string
    is not empty, the handler's answer is the report of the scorer run on
    the structured texts of the documents, in upload order, under their
    original names; with no blank skill and enough fuel it does answer
    with a report. *)
Theorem skills_check_reports_the_scores
    (pdf : list Byte.byte -> attempt jsstring)
    (JSON_parse : jsstring -> attempt JSValue)
    (genAI : option GoogleGenerativeAI) (fuel : nat)
    (files : list File) (texts : list jsstring) (skills : jsstring) :
  Forall2 (fun file text => pdf (buffer file) = Ok text) files texts ->
  files <> [] ->
  skills <> [] ->
  skills_check pdf JSON_parse genAI fuel (Some files) (Some skills)
  = option_map
      (fun results =>
         Report (List.length files)
           (List.length (filter (fun r => JS.truthy (eligible r)) results))
           results)
      (analyzeSkillsWithAI JSON_parse genAI fuel (map structureText texts)
         skills (map originalname files)) /\
  (noBlankSkill skills = true ->
   enoughFuel (map structureText texts) <= fuel ->
   exists eligibleCount results,
     skills_check pdf JSON_parse genAI fuel (Some files) (Some skills)
     = Some (Report (List.length files) eligibleCount results)).
Proof.
  intros Hall Hfiles Hskills.
  assert (skills_check pdf JSON_parse genAI fuel (Some files) (Some skills)
          = option_map
              (fun results =>
                 Report (List.length files)
                   (List.length
                      (filter (fun r => JS.truthy (eligible r)) results))
                   results)
              (analyzeSkillsWithAI JSON_parse genAI fuel
                 (map structureText texts) skills (map originalname files)))
    as Hanswer.
  { unfold skills_check.
    destruct files as [|file files]; [congruence|].
    destruct skills as [|c skills]; [congruence|]. cbn [isEmptyList].
    unfold processResumes.
    rewrite (extractAll_success pdf _ _ [] [] Hall). simpl.
    destruct (analyzeSkillsWithAI _ _ _ _ _ _); reflexivity. }
  split; [exact Hanswer|].
  intros Hnb Hfuel. rewrite Hanswer.
  destruct (analyzeSkills_total fuel (map structureText texts) skills
              (map originalname files) Hnb Hfuel) as [det Hdet].
  destruct (analyzeSkillsWithAI_returns JSON_parse genAI _ _ _ _ _ Hdet)
    as (results & -> & _).
  simpl. eauto.
Qed.

Lemma skills_check_reports_the_scores_witness :
  exists eligibleCount results,
    skills_check Sample.pdfText Sample.parseReply None 20
      (Some [Sample.file "sql and go" (Some (js "a.pdf"));
             Sample.file "cobol" (Some (js "b.pdf"))])
      (Some (js "SQL, Go"))
    = Some (Report 2 eligibleCount results).
Proof.
  destruct (skills_check_reports_the_scores Sample.pdfText Sample.parseReply
              None 20
              [Sample.file "sql and go" (Some (js "a.pdf"));
               Sample.file "cobol" (Some (js "b.pdf"))]
              [js "sql and go"; js "cobol"] (js "SQL, Go"))
    as [_ Hreport].
  - repeat constructor.
  - discriminate.
  - discriminate.
  - apply Hreport; [reflexivity | vm_compute; lia].
Defined.

(** ** Reading the skills string and the judge's reply *)

Lemma split_at_separator (sep : JSString.codeUnit) (s1 s2 : jsstring) :
  ~ In sep s1 ->
  JSString.split sep (s1 ++ sep :: s2) = s1 :: JSString.split sep s2.
Proof.
  induction s1 as [|c s1 IH]; intros Hfree; simpl.
  - rewrite N.eqb_refl. reflexivity.
  - destruct (N.eqb_spec c sep) as [->|Hne].
    + exfalso. apply Hfree. left. reflexivity.
    + rewrite IH; [reflexivity|]. intros H. apply Hfree. right. assumption.
Qed.

Lemma split_without_separator (sep : JSString.codeUnit) (s : jsstring) :
  ~ In sep s -> JSString.split sep s = [s].
Proof.
  induction s as [|c s IH]; intros Hfree; simpl.
  - reflexivity.
  - destruct (N.eqb_spec c sep) as [->|Hne].
    + exfalso. apply Hfree. left. reflexivity.
    + rewrite IH; [reflexivity|]. intros H. apply Hfree. right. assumption.
Qed.

Lemma joinWith_cons_space (q : jsstring) (rest : list jsstring) :
  JSString.code " " :: joinWith (js ", ") (q :: rest)
    = joinWith (js ", ") ((JSString.code " " :: q) :: rest).
Proof. destruct rest; reflexivity. Qed.

Lemma split_joinWith (p : jsstring) (rest : list jsstring) :
  Forall (fun s => ~ In (JSString.code ",") s) (p :: rest) ->
  JSString.split (JSString.code ",") (joinWith (js ", ") (p :: rest))
    = p :: map (cons (JSString.code " ")) rest.
Proof.
  revert p; induction rest as [|q rest IH]; intros p Hfree.
  - simpl. apply split_without_separator.
    inversion Hfree; assumption.
  - inversion Hfree as [|? ? Hp Hrest]; subst.
    inversion Hrest as [|? ? Hq Hrest']; subst.
    change (joinWith (js ", ") (p :: q :: rest))
      with (p ++ JSString.code "," :: JSString.code " " :: joinWith (js ", ") (q :: rest)).
    rewrite split_at_separator by assumption.
    rewrite joinWith_cons_space, IH.
    + reflexivity.
    + constructor; [|assumption]. intros [H|H]; [discriminate | auto].
Qed.

(** X18.  The skills string is read back as written: a list of skills,
    none containing a comma, joined with ", " is split into exactly those
    skills, each trimmed; skills with no surrounding white space come back
    unchanged, repeats and order included. *)
Theorem skillsArrayOf_reads_back_joined_skills (skills : list jsstring) :
  skills <> [] ->
  Forall (fun s => ~ In (JSString.code ",") s) skills ->
  skillsArrayOf (joinWith (js ", ") skills) = map JSString.trim skills /\
  (Forall (fun s => JSString.trim s = s) skills ->
   skillsArrayOf (joinWith (js ", ") skills) = skills).
Proof.
  intros Hne Hfree. destruct skills as [|p rest]; [congruence|].
  assert (skillsArrayOf (joinWith (js ", ") (p :: rest))
          = map JSString.trim (p :: rest)) as Hread.
  { unfold skillsArrayOf. rewrite (split_joinWith p rest Hfree).
    simpl. f_equal. rewrite map_map. reflexivity. }
  split; [exact Hread|].
  intros Htrimmed. rewrite Hread.
  rewrite <- (map_id (p :: rest)) at 2. apply map_ext_Forall. exact Htrimmed.
Qed.

Lemma skillsArrayOf_reads_back_joined_skills_witness :
  skillsArrayOf (js "Python, machine learning, SQL, Python")
    = [js "Python"; js "machine learning"; js "SQL"; js "Python"].
Proof.
  destruct (skillsArrayOf_reads_back_joined_skills
              [js "Python"; js "machine learning"; js "SQL"; js "Python"])
    as [_ Hback].
  - discriminate.
  - repeat constructor; vm_compute; intuition discriminate.
  - apply Hback. repeat constructor.
Defined.

Lemma removeAll_before_backtick (pattern s1 s2 : jsstring) :
  ~ In (JSString.code "`") s1 ->
  JSString.removeAll (JSString.code "`" :: pattern) (s1 ++ s2) 0
    = s1 ++ JSString.removeAll (JSString.code "`" :: pattern) s2 0.
Proof.
  induction s1 as [|c s1 IH]; intros Hfree; [reflexivity|].
  cbn [app JSString.removeAll JSString.startsWith].
  destruct (N.eqb_spec (JSString.code "`") c) as [<-|Hne].
  - exfalso. apply Hfree. left. reflexivity.
  - cbn [andb]. rewrite IH; [reflexivity|].
    intros H. apply Hfree. right. exact H.
Qed.

Lemma trimStart_snoc_white (s : jsstring) (w : JSString.codeUnit) :
  JSString.isWhiteSpace w = true ->
  JSString.trimStart (s ++ [w])
    = match JSString.trimStart s with
      | [] => []
      | c :: t => (c :: t) ++ [w]
      end.
Proof.
  intros Hw. induction s as [|c s IH]; simpl.
  - rewrite Hw. reflexivity.
  - destruct (JSString.isWhiteSpace c); [exact IH | reflexivity].
Qed.

Lemma trimEnd_snoc_white (s : jsstring) (w : JSString.codeUnit) :
  JSString.isWhiteSpace w = true ->
  JSString.trimEnd (s ++ [w]) = JSString.trimEnd s.
Proof.
  intros Hw. unfold JSString.trimEnd. rewrite rev_app_distr. simpl.
  rewrite Hw. reflexivity.
Qed.

Lemma trim_between_line_feeds (body : jsstring) :
  JSString.trim (nl ++ body ++ nl) = JSString.trim body.
Proof.
  unfold JSString.trim, nl.
  change (JSString.trimStart ([JSString.code "010"] ++ body ++ [JSString.code "010"]))
    with (JSString.trimStart (body ++ [JSString.code "010"])).
  rewrite (trimStart_snoc_white body (JSString.code "010") eq_refl).
  destruct (JSString.trimStart body) as [|c t]; [reflexivity|].
  apply (trimEnd_snoc_white (c :: t) (JSString.code "010") eq_refl).
Qed.

(** X19.  Stripping undoes fencing: a reply without backticks comes out
    of [stripFences] trimmed, whether the judge sent it bare or wrapped in
    a [```json] ... [```] fence. *)
Theorem stripFences_undoes_fencing (body : jsstring) :
  ~ In (JSString.code "`") body ->
  stripFences (fenced body) = JSString.trim body /\
  stripFences body = JSString.trim body.
Proof.
  intros Hfree. unfold stripFences, fenced. split.
  - change (JSString.removeAll (js "```json")
              (js "```json" ++ nl ++ body ++ nl ++ js "```") 0)
      with (JSString.removeAll (js "```json")
              (nl ++ body ++ nl ++ js "```") 0).
    assert (~ In (JSString.code "`") (nl ++ body ++ nl)) as Hfree'.
    { intros H. apply in_app_or in H. destruct H as [[H|[]]|H]; [discriminate|].
      apply in_app_or in H. destruct H as [H|[H|[]]]; [auto | discriminate]. }
    replace (nl ++ body ++ nl ++ js "```")
      with ((nl ++ body ++ nl) ++ js "```")
      by (rewrite <- !app_assoc; reflexivity).
    change (js "```json") with (JSString.code "`" :: js "``json").
    rewrite (removeAll_before_backtick _ _ _ Hfree').
    change (JSString.removeAll (JSString.code "`" :: js "``json") (js "```") 0)
      with (js "```").
    change (js "```") with (JSString.code "`" :: js "``") at 1.
    rewrite (removeAll_before_backtick _ _ _ Hfree').
    change (JSString.removeAll (JSString.code "`" :: js "``") (js "```") 0)
      with (@nil JSString.codeUnit).
    rewrite app_nil_r. apply trim_between_line_feeds.
  - rewrite <- (app_nil_r body).
    change (js "```json") with (JSString.code "`" :: js "``json").
    rewrite (removeAll_before_backtick _ _ _ Hfree). simpl.
    change (js "```") with (JSString.code "`" :: js "``").
    rewrite (removeAll_before_backtick _ _ _ Hfree). simpl.
    reflexivity.
Qed.

Lemma stripFences_undoes_fencing_witness :
  stripFences (fenced Sample.verdictText) = Sample.verdictText.
Proof.
  destruct (stripFences_undoes_fencing Sample.verdictText) as [Hfenced _].
  - vm_compute. intuition discriminate.
  - rewrite Hfenced. reflexivity.
Defined.

Section NoFenceLeft.

Import JSString.

Local Abbreviation fence := (JSString.code "`" :: (JSString.code "`") :: (JSString.code "`") :: nil).
Local Abbreviation tick := (JSString.code "`").

Lemma removeAll_fence_cons (c : JSString.codeUnit) (s : jsstring) :
  removeAll fence (c :: s) 0
    = if startsWith fence (c :: s) then removeAll fence s 2
      else c :: removeAll fence s 0.
Proof. reflexivity. Qed.

Lemma startsWith_fence (s : jsstring) :
  startsWith fence s = true ->
  exists rest, s = tick :: tick :: tick :: rest.
Proof.
  intros H. apply JSStringFacts.startsWith_firstn in H.
  destruct s as [|c1 [|c2 [|c3 rest]]]; try discriminate.
  simpl in H. injection H as -> -> ->. exists rest. reflexivity.
Qed.

Lemma removeAll_keeps_no_tick (s : jsstring) :
  startsWith [tick] s = false ->
  startsWith [tick] (removeAll fence s 0) = false.
Proof.
  destruct s as [|c s]; [reflexivity|]. intros H.
  rewrite removeAll_fence_cons.
  destruct (startsWith fence (c :: s)) eqn:E; [|exact H].
  apply startsWith_fence in E. destruct E as [rest E].
  injection E as -> _. simpl in H. discriminate.
Qed.

Lemma removeAll_keeps_no_two_ticks (s : jsstring) :
  startsWith [tick; tick] s = false ->
  startsWith [tick; tick] (removeAll fence s 0) = false.
Proof.
  destruct s as [|c s]; [reflexivity|]. intros H.
  rewrite removeAll_fence_cons.
  destruct (startsWith fence (c :: s)) eqn:E.
  - apply startsWith_fence in E. destruct E as [rest E].
    injection E as -> ->. simpl in H. discriminate.
  - change (startsWith [tick; tick] (c :: s))
      with (N.eqb tick c && startsWith [tick] s) in H.
    change (startsWith [tick; tick] (c :: removeAll fence s 0))
      with (N.eqb tick c && startsWith [tick] (removeAll fence s 0)).
    destruct (N.eqb tick c); [|reflexivity]. simpl in *.
    apply removeAll_keeps_no_tick, H.
Qed.

Lemma removeAll_leaves_no_fence (n : nat) (s : jsstring) :
  List.length s <= n -> ~ occursIn fence (removeAll fence s 0).
Proof.
  revert s; induction n as [|n IH]; intros s Hlen.
  - destruct s; [|simpl in Hlen; lia].
    intros (pre & post & H). destruct pre; discriminate.
  - destruct s as [|c s].
    { intros (pre & post & H). destruct pre; discriminate. }
    rewrite removeAll_fence_cons.
    destruct (startsWith fence (c :: s)) eqn:E.
    + apply startsWith_fence in E. destruct E as [rest E].
      injection E as -> ->. apply IH. simpl in Hlen. lia.
    + intros (pre & post & H). destruct pre as [|c' pre].
      * cbn [app] in H. injection H as -> H.
        assert (startsWith [tick; tick] s = false) as Hs.
        { simpl in E |- *. exact E. }
        apply removeAll_keeps_no_two_ticks in Hs.
        replace (removeAll fence s 0) with (tick :: tick :: post) in Hs
          by (symmetry; exact H).
        discriminate.
      * injection H as _ H. apply (IH s); [simpl in Hlen; lia|].
        exists pre, post. exact H.
Qed.

Lemma trimStart_is_a_suffix (s : jsstring) :
  exists pre, s = pre ++ trimStart s.
Proof.
  induction s as [|c s [pre IH]]; simpl.
  - exists []. reflexivity.
  - destruct (isWhiteSpace c).
    + exists (c :: pre). simpl. congruence.
    + exists []. reflexivity.
Qed.

Lemma trim_is_a_part (s : jsstring) : occursIn (trim s) s.
Proof.
  unfold trim, trimEnd.
  destruct (trimStart_is_a_suffix s) as [pre Hpre].
  destruct (trimStart_is_a_suffix (rev (trimStart s))) as [post Hpost].
  exists pre, (rev post). rewrite Hpre at 1. f_equal.
  rewrite <- rev_app_distr, <- Hpost, rev_involutive. reflexivity.
Qed.

Lemma occursIn_trans (a b c : jsstring) :
  occursIn a b -> occursIn b c -> occursIn a c.
Proof.
  intros (p1 & q1 & ->) (p2 & q2 & ->).
  exists (p2 ++ p1), (q1 ++ q2). rewrite <- !app_assoc. reflexivity.
Qed.

(** X20.  No code fence is left for [JSON.parse]: whatever the judge
    sends, the stripped reply contains no [```]. *)
Theorem stripFences_leaves_no_fence (text : jsstring) :
  ~ occursIn (js "```") (stripFences text).
Proof.
  unfold stripFences. change (js "```") with fence. intros H.
  apply (removeAll_leaves_no_fence
           (List.length (removeAll (js "```json") text 0))
           (removeAll (js "```json") text 0) (Nat.le_refl _)).
  exact (occursIn_trans _ _ _ H (trim_is_a_part _)).
Qed.

End NoFenceLeft.

(** ** Who is eligible *)

Lemma roundHalfUp_at_least_60 (m n : nat) :
  1 <= n ->
  (60 <=? roundHalfUp m n)%Z = (119 * n <=? 200 * m).
Proof.
  intros Hn. unfold roundHalfUp.
  destruct (Nat.leb_spec (119 * n) (200 * m)) as [H|H].
  - apply Z.leb_le. apply Z.div_le_lower_bound; lia.
  - apply Z.leb_gt. apply Z.div_lt_upper_bound; lia.
Qed.

(** X2.  The eligibility rule in counts: for a request of at most 300
    skills, a resume is eligible exactly when the matched skills are at
    least 59.5% of the requested ones, that is, when
    [119 * requested <= 200 * matched]. *)
Theorem eligibility_is_a_count_rule (fuel : nat)
    (resumeTexts : list TextData) (requiredSkills : jsstring)
    (fileNames : list (option jsstring)) (results : list ResumeResult)
    (result : ResumeResult) :
  analyzeSkills fuel resumeTexts requiredSkills fileNames = Some results ->
  In result results ->
  List.length (skillsArrayOf requiredSkills) <= 300 ->
  eligible result
    = JBool (119 * List.length (skillsArrayOf requiredSkills)
             <=? 200 * List.length (matched result)).
Proof.
  intros Hrun Hin Hbound.
  destruct (analyzeSkills_score_fields _ _ _ _ _ _ Hrun Hin) as (_ & -> & _).
  pose proof Hrun as Hrun'. rewrite analyzeSkills_mapIndexed in Hrun'.
  destruct (mapIndexed_In _ _ _ _ _ Hrun' Hin) as (j & textData & _ & Hres).
  destruct (analyzeResume_partition _ _ _ _ _ _ Hres) as [_ Hsum].
  assert (1 <= List.length (skillsArrayOf requiredSkills)) as Hpos.
  { unfold skillsArrayOf. rewrite length_map, split_length. lia. }
  pose proof (percentageChecked_within (List.length (matched result))
                (List.length (skillsArrayOf requiredSkills))
                ltac:(lia) ltac:(lia)) as Hok.
  unfold percentageChecked in Hok. rewrite !andb_true_iff in Hok.
  destruct Hok as (((((_ & _) & _) & Helig) & _) & _).
  apply Bool.eqb_prop in Helig. unfold eligibilityThreshold in Helig.
  rewrite Helig, roundHalfUp_at_least_60 by assumption. reflexivity.
Qed.

Lemma eligibility_is_a_count_rule_witness :
  exists result,
    analyzeSkills 50 [Sample.resume] (js "Python, SQL, Go, Rust, Java")
      [None] = Some [result] /\
    List.length (matched result) = 2 /\
    eligible result = JBool false.
Proof.
  destruct (analyzeSkills 50 [Sample.resume] (js "Python, SQL, Go, Rust, Java")
              [None]) as [[|result [|]]|] eqn:Hrun;
    try (vm_compute in Hrun; discriminate).
  exists result. split; [reflexivity|].
  pose proof (eligibility_is_a_count_rule 50 [Sample.resume]
                (js "Python, SQL, Go, Rust, Java") [None] [result] result Hrun
                (or_introl eq_refl)) as Hrule.
  rewrite Hrule by (vm_compute; lia).
  vm_compute in Hrun. injection Hrun as <-. split; reflexivity.
Defined.

Lemma empty_line_mentions_nothing (line : LineRecord) (skill : jsstring) :
  content line = [] -> skill <> [] -> ~ mentions line skill.
Proof.
  intros Hcontent Hskill (pre & post & H). rewrite Hcontent in H. simpl in H.
  symmetry in H. apply app_eq_nil in H. destruct H as [_ H].
  apply app_eq_nil in H. destruct H as [H _].
  apply (proj1 (JSStringFacts.toLowerCase_nil_iff skill)) in H.
  contradiction.
Qed.

Lemma filter_nothing {A : Type} (f : A -> bool) (l : list A) :
  (forall x, In x l -> f x = false) -> filter f l = [].
Proof.
  induction l as [|x l IH]; intros H; simpl; [reflexivity|].
  rewrite (H x (or_introl eq_refl)). apply IH.
  intros y Hy. apply H. right. assumption.
Qed.

Lemma filter_everything {A : Type} (f : A -> bool) (l : list A) :
  (forall x, In x l -> f x = false) -> filter (fun x => negb (f x)) l = l.
Proof.
  induction l as [|x l IH]; intros H; simpl; [reflexivity|].
  rewrite (H x (or_introl eq_refl)). simpl. f_equal. apply IH.
  intros y Hy. apply H. right. assumption.
Qed.

(** X21.  A document without text matches nothing: for any request with
    no blank skill (and at most 300 skills), its result has no matched
    skill, lists every requested skill as missing, in order, and is not
    eligible; one iteration per loop is enough to find that out. *)
Theorem empty_document_matches_nothing (fuel : nat)
    (requiredSkills : jsstring) (name : option jsstring) :
  noBlankSkill requiredSkills = true ->
  List.length (skillsArrayOf requiredSkills) <= 300 ->
  1 <= fuel ->
  exists result,
    analyzeSkills fuel [structureText (js "")] requiredSkills [name]
      = Some [result] /\
    matched result = [] /\
    missing result = skillsArrayOf requiredSkills /\
    eligible result = JBool false /\
    rr_totalLines result = 1.
Proof.
  intros Hnb Hbound Hfuel.
  destruct (analyzeResume_total fuel (skillsArrayOf requiredSkills) [name] 0
              (structureText (js "")) (noBlankSkill_skillsArray _ Hnb))
    as [result Hres]; [change (0 < fuel); lia|].
  exists result. split; [rewrite analyzeSkills_single, Hres; reflexivity|].
  assert (forall sk, In sk (skillsArrayOf requiredSkills) ->
            located fuel (structureText (js "")) sk = false) as Hnone.
  { intros sk Hsk. unfold located.
    rewrite (findSkillOccurrences_empty_iff_not_mentioned_absent fuel
               (structureText (js "")) sk); [reflexivity| |assumption].
    intros line [<-|[]]. apply empty_line_mentions_nothing; [reflexivity|].
    pose proof (noBlankSkill_skillsArray _ Hnb) as Hall.
    rewrite Forall_forall in Hall. apply Hall, Hsk. }
  unfold analyzeResume in Hres.
  destruct (forEachSkill fuel _ _ [] []) as [[m n]|] eqn:E; simpl in Hres;
    [|discriminate].
  apply forEachSkill_in_order in E. destruct E as (Hm & Hn & _ & _).
  cbn [map app] in Hm, Hn.
  rewrite (filter_nothing _ _ Hnone) in Hm. apply map_eq_nil in Hm.
  rewrite (filter_everything _ _ Hnone) in Hn. subst m n.
  injection Hres as <-. simpl. repeat split.
  assert (1 <= List.length (skillsArrayOf requiredSkills)) as Hpos.
  { unfold skillsArrayOf. rewrite length_map, split_length. lia. }
  pose proof (percentageChecked_within 0
                (List.length (skillsArrayOf requiredSkills))
                ltac:(lia) ltac:(lia)) as Hok.
  unfold percentageChecked in Hok. rewrite !andb_true_iff in Hok.
  destruct Hok as (((((_ & _) & _) & Helig) & _) & _).
  apply Bool.eqb_prop in Helig. rewrite Helig.
  rewrite roundHalfUp_at_least_60 by assumption. f_equal.
  apply Nat.leb_gt. lia.
Qed.

Lemma empty_document_matches_nothing_witness :
  exists result,
    analyzeSkills 1 [structureText (js "")] (js "Python, SQL")
      [Some (js "blank.pdf")] = Some [result] /\
    matched result = [] /\
    missing result = skillsArrayOf (js "Python, SQL") /\
    eligible result = JBool false /\
    rr_totalLines result = 1.
Proof.
  apply (empty_document_matches_nothing 1 (js "Python, SQL")
           (Some (js "blank.pdf"))).
  - reflexivity.
  - vm_compute. lia.
  - lia.
Defined.
